(** * The ledger of the 90-Days-Backend-Mastery exercises

    A shallow embedding of the two bank modules of the repository,

    - [day06-exception-handling-and-logging/bank_with_errors.py]
      (module [BankWithErrors]): accounts with an activity flag, typed
      errors and the ledger-level [transfer];
    - [day07-file-handling-and-json/persistent_bank.py]
      (module [PersistentBank]): the same account without the activity
      flag, and the JSON snapshot written and read by the ledger;

    followed by the properties of the ledger stated in the specification.

    Conventions of the embedding:

    - A method that mutates [self] and may raise is a function
      [S -> (E + X) * S]: the state it leaves behind is returned together
      with the value or the exception, so that what a failing call leaves
      behind is a theorem and not a convention.
    - The ledger's [dict] of accounts is a [gmap] from account ids to
      accounts.  An account object handed out by the ledger is referred to
      by its key, which is how two names for one object stay aliases.
    - [datetime.now()] is an input: every operation that stamps a record
      takes the value the clock returned.
    - The calls to [logger] write to the console and to [bank.log] only;
      they are left out.
    - Amounts are annotated [float] in the source, and the code only ever
      uses [+], [-], [<], [<=], [>] and the literal [0] on them, so it runs
      unchanged on [int], [Decimal] or [Fraction] values.  The class
      [Amount] is that protocol.  Its instance for the source's amounts is
      [float_Amount], on the binary64 numbers of IEEE 754, which Python's
      [float] and the primitive floats here both are.  [OrderedAmount]
      holds the laws of order and sign that exact numbers and floats share;
      [ExactAmount] adds the laws of exact arithmetic, which the
      specification's decimal amounts obey and floats, because of rounding
      and of the values [nan] and [inf], do not. *)

From Stdlib Require Import ZArith Lia Ascii DecimalString DecimalN Floats.
From Stdlib Require QArith Qcanon.
From stdpp Require Import base option list strings gmap.

Open Scope Z_scope.

(** ** Amounts *)

Class Amount (A : Type) : Type := {
  num_zero : A;
  num_add : A -> A -> A;
  num_sub : A -> A -> A;
  num_leb : A -> A -> bool;
  num_ltb : A -> A -> bool;
}.

Declare Scope amount_scope.
Delimit Scope amount_scope with amt.
Notation "0" := num_zero : amount_scope.
Infix "+" := num_add : amount_scope.
Infix "-" := num_sub : amount_scope.
Infix "<=?" := num_leb : amount_scope.
Infix "<?" := num_ltb : amount_scope.
(** Python evaluates [a > b] on numbers as [b < a]. *)
Notation "a >? b" := (num_ltb b a) : amount_scope.

(** The laws of exact arithmetic on a totally ordered type. *)
Class ExactAmount (A : Type) `{Amount A} : Prop := {
  num_add_comm : forall a b : A, (a + b = b + a)%amt;
  num_add_zero_l : forall a : A, (0 + a = a)%amt;
  num_sub_add : forall a b : A, (a - b + b = a)%amt;
  num_add_sub : forall a b : A, (a + b - b = a)%amt;
  num_leb_trans : forall a b c : A,
      (a <=? b)%amt = true -> (b <=? c)%amt = true -> (a <=? c)%amt = true;
  num_leb_antisym : forall a b : A,
      (a <=? b)%amt = true -> (b <=? a)%amt = true -> a = b;
  num_leb_total : forall a b : A,
      (a <=? b)%amt = true \/ (b <=? a)%amt = true;
  num_ltb_leb : forall a b : A, (a <? b)%amt = negb (b <=? a)%amt;
  num_leb_add_r : forall a b c : A,
      (a <=? b)%amt = true -> (a + c <=? b + c)%amt = true;
}.

(** What is left of them in floating point: the two comparisons do not
    contradict each other, a balance that is not negative stays so when an
    amount that passed [amount <= 0] is added, and when an amount that
    passed [amount <= 0] and [amount > balance] is subtracted.  ([nan]
    passes every comparison and is not negative.) *)
Class OrderedAmount (A : Type) `{Amount A} : Prop := {
  num_ltb_not_leb : forall a b : A,
      (a <? b)%amt = true -> (b <=? a)%amt = false;
  num_leb_not_ltb : forall a b : A,
      (a <=? b)%amt = true -> (b <? a)%amt = false;
  num_add_not_negative : forall b a : A,
      (b <? 0)%amt = false -> (a <=? 0)%amt = false ->
      (b + a <? 0)%amt = false;
  num_sub_not_negative : forall b a : A,
      (a <=? 0)%amt = false -> (a >? b)%amt = false ->
      (b - a <? 0)%amt = false;
}.

(** Python's [int]. *)
#[export] Instance Z_Amount : Amount Z := {|
  num_zero := 0;
  num_add := Z.add;
  num_sub := Z.sub;
  num_leb := Z.leb;
  num_ltb := Z.ltb;
|}.

(** Python's [fractions.Fraction]: exact rationals in lowest terms. *)
#[export] Instance Qc_Amount : Amount Qcanon.Qc := {|
  num_zero := Qcanon.Q2Qc (QArith_base.Qmake 0 1);
  num_add := Qcanon.Qcplus;
  num_sub := Qcanon.Qcminus;
  num_leb := fun a b => QArith_base.Qle_bool (Qcanon.this a) (Qcanon.this b);
  num_ltb := fun a b =>
    negb (QArith_base.Qle_bool (Qcanon.this b) (Qcanon.this a));
|}.

(** Python's [float]: binary64, rounding to nearest, ties to even.  The [0]
    the source compares with is the [int]; a comparison of a float with it
    is the comparison with [0.0]. *)
#[export] Instance float_Amount : Amount float := {|
  num_zero := PrimFloat.zero;
  num_add := PrimFloat.add;
  num_sub := PrimFloat.sub;
  num_leb := PrimFloat.leb;
  num_ltb := PrimFloat.ltb;
|}.

(** ** Formatting *)

(** ["0" * n]. *)
Fixpoint zeros (n : nat) : string :=
  match n with
  | O => ""
  | S n' => String "0"%char (zeros n')
  end.

(** [s.rjust(width, "0")]. *)
Definition zfill (width : nat) (s : string) : string :=
  zeros (width - String.length s) +:+ s.

(** [format_d width n] is [f"{n:0{width}d}"]: the decimal digits of [n],
    padded with zeros on the left up to [width] characters, the sign of a
    negative number counted in the width and put first. *)
Definition format_d (width : nat) (n : Z) : string :=
  let digits := NilZero.string_of_uint (N.to_uint (Z.abs_N n)) in
  if n <? 0 then "-" +:+ zfill (width - 1) digits else zfill width digits.

(** Reading the digits back: [int(s)] on a string of decimal digits. *)
Definition read_d (s : string) : N :=
  match NilEmpty.uint_of_string s with
  | Some d => N.of_uint d
  | None => 0%N
  end.

(** ** Mutation and exceptions *)

Section Raising.
Context {E S : Type}.

Definition M (X : Type) : Type := S -> (E + X) * S.

Definition ret {X} (x : X) : M X := fun s => (inr x, s).
Definition raise {X} (e : E) : M X := fun s => (inl e, s).
Definition bind {X Y} (c : M X) (k : X -> M Y) : M Y :=
  fun s => match c s with
           | (inr x, s') => k x s'
           | (inl e, s') => (inl e, s')
           end.
Definition get : M S := fun s => (inr s, s).
Definition modify (f : S -> S) : M unit := fun s => (inr tt, f s).
End Raising.
Arguments M : clear implicits.

Declare Scope raising_scope.
Delimit Scope raising_scope with M.
Notation "x <- c ;; k" := (bind c (fun x => k))
  (at level 100, c at next level, right associativity) : raising_scope.
Notation "c ;; k" := (bind c (fun _ => k))
  (at level 100, right associativity) : raising_scope.

(** [datetime.now()] as the source of day06 stores it: a point in time. *)
Definition datetime := Z.

(** ** [bank_with_errors.py] *)

Module BankWithErrors.
Section Model.
Context {A : Type} `{Amount A}.

(** The exceptions of the module, all below [BankError]. *)
Inductive BankError : Type :=
| InsufficientFundsError_ (balance amount shortfall : A)
| NegativeAmountError (amount : A) (operation : string)
| AccountNotFoundError (account_id : string)
| AccountInactiveError (account_id : string).

(** [InsufficientFundsError.__init__] computes the shortfall. *)
Definition InsufficientFundsError (balance amount : A) : BankError :=
  InsufficientFundsError_ balance amount (amount - balance)%amt.

Inductive TransactionType : Type := DEPOSIT | WITHDRAWAL | TRANSFER.

Record Transaction : Type := {
  id : string;
  type : TransactionType;
  amount : A;
  balance_after : A;
  timestamp : datetime;
  description : option string;
  success : bool;
}.

Record BankAccount : Type := {
  account_id : string;
  owner : string;
  balance : A;
  is_active : bool;
  transactions : list Transaction;
  created_at : datetime;
  _transaction_counter : Z;
}.

Definition set_balance (b : A) (self : BankAccount) : BankAccount :=
  {| account_id := account_id self; owner := owner self; balance := b;
     is_active := is_active self; transactions := transactions self;
     created_at := created_at self;
     _transaction_counter := _transaction_counter self |}.

Definition set_is_active (b : bool) (self : BankAccount) : BankAccount :=
  {| account_id := account_id self; owner := owner self;
     balance := balance self; is_active := b;
     transactions := transactions self; created_at := created_at self;
     _transaction_counter := _transaction_counter self |}.

Definition set_transactions (l : list Transaction) (self : BankAccount)
  : BankAccount :=
  {| account_id := account_id self; owner := owner self;
     balance := balance self; is_active := is_active self;
     transactions := l; created_at := created_at self;
     _transaction_counter := _transaction_counter self |}.

Definition set_transaction_counter (n : Z) (self : BankAccount)
  : BankAccount :=
  {| account_id := account_id self; owner := owner self;
     balance := balance self; is_active := is_active self;
     transactions := transactions self; created_at := created_at self;
     _transaction_counter := n |}.

Local Open Scope raising_scope.

(** *** [BankAccount] *)

Definition _generate_transaction_id : M BankError BankAccount string :=
  modify (fun self =>
    set_transaction_counter (_transaction_counter self + 1) self) ;;
  self <- get ;;
  ret (account_id self +:+ "-TXN-"
       +:+ format_d 4 (_transaction_counter self)).

Definition _validate_active : M BankError BankAccount unit :=
  self <- get ;;
  if negb (is_active self) then raise (AccountInactiveError (account_id self))
  else ret tt.

Definition _validate_amount (amount : A) (operation : string)
  : M BankError BankAccount unit :=
  if (amount <=? 0)%amt then raise (NegativeAmountError amount operation)
  else ret tt.

Definition deposit (amount : A) (description : option string)
    (now : datetime) : M BankError BankAccount Transaction :=
  _validate_active ;;
  _validate_amount amount "deposit" ;;
  modify (fun self => set_balance (balance self + amount)%amt self) ;;
  txn_id <- _generate_transaction_id ;;
  self <- get ;;
  let transaction :=
    {| id := txn_id; type := DEPOSIT; amount := amount;
       balance_after := balance self; timestamp := now;
       description := description; success := true |} in
  modify (fun self =>
    set_transactions (transactions self ++ [transaction]) self) ;;
  ret transaction.

Definition withdraw (amount : A) (description : option string)
    (now : datetime) : M BankError BankAccount Transaction :=
  _validate_active ;;
  _validate_amount amount "withdrawal" ;;
  self <- get ;;
  if (amount >? balance self)%amt
  then raise (InsufficientFundsError (balance self) amount)
  else
    modify (fun self => set_balance (balance self - amount)%amt self) ;;
    txn_id <- _generate_transaction_id ;;
    self <- get ;;
    let transaction :=
      {| id := txn_id; type := WITHDRAWAL; amount := amount;
         balance_after := balance self; timestamp := now;
         description := description; success := true |} in
    modify (fun self =>
      set_transactions (transactions self ++ [transaction]) self) ;;
    ret transaction.

(** *** [AccountManager] *)

Record AccountManager : Type := {
  accounts : gmap string BankAccount;
  _account_counter : Z;
}.

(** [AccountManager()]. *)
Definition AccountManager_new : AccountManager :=
  {| accounts := ∅; _account_counter := 0 |}.

Definition _generate_account_id : M BankError AccountManager string :=
  modify (fun self =>
    {| accounts := accounts self;
       _account_counter := _account_counter self + 1 |}) ;;
  self <- get ;;
  ret ("ACC-" +:+ format_d 6 (_account_counter self)).

(** [create_account] builds the account and, for a positive initial
    deposit, writes the opening record into its log directly, with the
    fixed id [TXN-0000] and without going through [deposit].  [now] is the
    clock at the construction of the account, [now_txn] at the construction
    of the opening record. *)
Definition create_account (owner : string) (initial_deposit : A)
    (now now_txn : datetime) : M BankError AccountManager BankAccount :=
  if (initial_deposit <? 0)%amt
  then raise (NegativeAmountError initial_deposit "initial deposit")
  else
    account_id <- _generate_account_id ;;
    let account :=
      {| account_id := account_id; owner := owner;
         balance := initial_deposit; is_active := true;
         transactions := []; created_at := now;
         _transaction_counter := 0 |} in
    let account :=
      if (initial_deposit >? 0)%amt
      then set_transactions
             (transactions account ++
                [{| id := account_id +:+ "-TXN-0000"; type := DEPOSIT;
                    amount := initial_deposit;
                    balance_after := initial_deposit;
                    timestamp := now_txn;
                    description := Some "Initial deposit"%string;
                    success := true |}])
             account
      else account in
    modify (fun self =>
      {| accounts := <[account_id := account]> (accounts self);
         _account_counter := _account_counter self |}) ;;
    ret account.

(** [get_account] hands out the account object stored under the key; the
    object is named by that key. *)
Definition get_account (account_id : string)
  : M BankError AccountManager string :=
  self <- get ;;
  match accounts self !! account_id with
  | None => raise (AccountNotFoundError account_id)
  | Some _ => ret account_id
  end.

(** A method call on the account object named [ref]: the method runs on
    the object in the ledger's dictionary and what it leaves behind stays
    there, whether it returned or raised. *)
Definition call {X} (ref : string) (method : M BankError BankAccount X)
  : M BankError AccountManager X :=
  fun self =>
    match accounts self !! ref with
    | Some account =>
        let (r, account') := method account in
        (r, {| accounts := <[ref := account']> (accounts self);
               _account_counter := _account_counter self |})
    | None => (inl (AccountNotFoundError ref), self)
    end.

(** [f": {description}" if description else ""]: an empty description is
    falsy like [None]. *)
Definition description_suffix (description : option string) : string :=
  match description with
  | Some (String c s) => ": " +:+ String c s
  | _ => ""
  end.

Definition transfer (from_id to_id : string) (amount : A)
    (description : option string) (now_withdrawal now_deposit : datetime)
  : M BankError AccountManager (Transaction * Transaction) :=
  from_account <- get_account from_id ;;
  to_account <- get_account to_id ;;
  withdrawal <-
    call from_account
      (withdraw amount
         (Some ("Transfer to " +:+ to_id +:+ description_suffix description))
         now_withdrawal) ;;
  deposit_ <-
    call to_account
      (deposit amount
         (Some ("Transfer from " +:+ from_id
                +:+ description_suffix description))
         now_deposit) ;;
  ret (withdrawal, deposit_).

(** *** What a successful [deposit] or [withdraw] amounts to

    The record each of them mints, and the account after the record was
    appended. *)
Definition deposit_record (self : BankAccount) (amount : A)
    (description : option string) (now : datetime) : Transaction :=
  {| id := account_id self +:+ "-TXN-"
           +:+ format_d 4 (_transaction_counter self + 1)%Z;
     type := DEPOSIT; amount := amount;
     balance_after := (balance self + amount)%amt; timestamp := now;
     description := description; success := true |}.

Definition withdrawal_record (self : BankAccount) (amount : A)
    (description : option string) (now : datetime) : Transaction :=
  {| id := account_id self +:+ "-TXN-"
           +:+ format_d 4 (_transaction_counter self + 1)%Z;
     type := WITHDRAWAL; amount := amount;
     balance_after := (balance self - amount)%amt; timestamp := now;
     description := description; success := true |}.

Definition after_record (self : BankAccount) (txn : Transaction)
  : BankAccount :=
  {| account_id := account_id self; owner := owner self;
     balance := balance_after txn; is_active := is_active self;
     transactions := transactions self ++ [txn];
     created_at := created_at self;
     _transaction_counter := (_transaction_counter self + 1)%Z |}.

(** The account [create_account] registers under the id it generated. *)
Definition opened_account (account_id owner : string) (initial_deposit : A)
    (now now_txn : datetime) : BankAccount :=
  {| account_id := account_id; owner := owner; balance := initial_deposit;
     is_active := true;
     transactions :=
       if (initial_deposit >? 0)%amt
       then [{| id := account_id +:+ "-TXN-0000"; type := DEPOSIT;
                amount := initial_deposit; balance_after := initial_deposit;
                timestamp := now_txn;
                description := Some "Initial deposit"%string;
                success := true |}]
       else [];
     created_at := now; _transaction_counter := 0 |}.

(** [self.accounts[ref] = account]. *)
Definition with_account (ref : string) (account : BankAccount)
    (self : AccountManager) : AccountManager :=
  {| accounts := <[ref := account]> (accounts self);
     _account_counter := _account_counter self |}.

(** *** The public operations and the states they reach *)

(** What a caller does to a ledger: the two methods of [AccountManager] that
    change it, the two methods of an account it handed out, and the
    assignment to [is_active] (the source has no method for it; the demo
    assigns the attribute). *)
Inductive operation : Type :=
| CreateAccount (owner : string) (initial_deposit : A)
    (now now_txn : datetime)
| Deposit (account : string) (amount : A) (description : option string)
    (now : datetime)
| Withdraw (account : string) (amount : A) (description : option string)
    (now : datetime)
| Transfer (from_id to_id : string) (amount : A)
    (description : option string) (now_withdrawal now_deposit : datetime)
| SetActive (account : string) (flag : bool).

(** The ledger an operation leaves behind, whether it returned or raised. *)
Definition run (op : operation) (self : AccountManager) : AccountManager :=
  match op with
  | CreateAccount owner initial_deposit now now_txn =>
      snd (create_account owner initial_deposit now now_txn self)
  | Deposit account amount description now =>
      snd (call account (deposit amount description now) self)
  | Withdraw account amount description now =>
      snd (call account (withdraw amount description now) self)
  | Transfer from_id to_id amount description now_withdrawal now_deposit =>
      snd (transfer from_id to_id amount description
             now_withdrawal now_deposit self)
  | SetActive account flag =>
      snd (call account (modify (set_is_active flag)) self)
  end.

Inductive reachable : AccountManager -> Prop :=
| reachable_new : reachable AccountManager_new
| reachable_run op self : reachable self -> reachable (run op self).

(** *** The invariants of an account *)

(** [transactions[-1].balance_after if transactions else 0]. *)
Definition last_balance_after (log : list Transaction) : A :=
  match last log with
  | Some txn => balance_after txn
  | None => 0%amt
  end.

Definition balance_invariant (account : BankAccount) : Prop :=
  balance account = last_balance_after (transactions account)
  /\ (0 <=? balance account)%amt = true.


(** The number of opening records in the log: [1] when the log starts with
    the record [create_account] writes for a positive initial deposit,
    which carries the id [TXN-0000], and [0] otherwise. *)
Definition opening_records (account : BankAccount) : Z :=
  match transactions account with
  | txn :: _ =>
      if String.eqb (id txn) (account_id account +:+ "-TXN-0000") then 1
      else 0
  | [] => 0
  end.

(** The counter read as the number of records ever created, which is the
    length of the log since nothing removes a record. *)
Definition counter_counts_log (account : BankAccount) : Prop :=
  _transaction_counter account = Z.of_nat (length (transactions account)).

(** What every method keeps of an account: its id, and a counter that is
    not lower. *)
Definition evolves (a a' : BankAccount) : Prop :=
  account_id a' = account_id a
  /\ _transaction_counter a <= _transaction_counter a'.

(** No account of [self] is lost in [self'] or has a lower counter there. *)
Definition counters_grow (self self' : AccountManager) : Prop :=
  forall ref a,
    accounts self !! ref = Some a ->
    exists a',
      accounts self' !! ref = Some a'
      /\ _transaction_counter a <= _transaction_counter a'.

(** The keys of the ledger are the ids generated so far, and an account is
    stored under its own id. *)
Definition ids_invariant (self : AccountManager) : Prop :=
  0 <= _account_counter self
  /\ forall ref a,
       accounts self !! ref = Some a ->
       account_id a = ref
       /\ exists k, 1 <= k <= _account_counter self
                    /\ ref = "ACC-" +:+ format_d 6 k.

(** The counter as the code keeps it: the records minted by [deposit] and
    [withdraw], the opening record not among them. *)
Definition counter_invariant (account : BankAccount) : Prop :=
  Z.of_nat (length (transactions account))
  = _transaction_counter account + opening_records account.

(** *** The log as a history *)

(** What a record does to a balance, by its type. *)
Definition apply_record (b : A) (txn : Transaction) : A :=
  match type txn with
  | DEPOSIT => (b + amount txn)%amt
  | WITHDRAWAL => (b - amount txn)%amt
  | TRANSFER => b
  end.

(** The balance obtained by applying the records of a log in order, from
    zero. *)
Definition replay (log : list Transaction) : A :=
  fold_left apply_record log 0%amt.

(** Every record carries the balance the log gives up to and including it. *)
Definition consistent_log (log : list Transaction) : Prop :=
  forall before txn after,
    log = before ++ txn :: after ->
    balance_after txn = replay (before ++ [txn]).

(** A record as [deposit], [withdraw] and [create_account] build them. *)
Definition well_formed_record (txn : Transaction) : Prop :=
  (type txn = DEPOSIT \/ type txn = WITHDRAWAL)
  /\ success txn = true
  /\ (amount txn >? 0)%amt = true.

Definition history_invariant (account : BankAccount) : Prop :=
  replay (transactions account) = balance account
  /\ consistent_log (transactions account)
  /\ Forall well_formed_record (transactions account).

(** [f"{account_id}-TXN-{n:04d}"]. *)
Definition transaction_id (account_id : string) (n : Z) : string :=
  account_id +:+ "-TXN-" +:+ format_d 4 n.

(** The ids of a log whose first record has number [first] and whose last
    record has the number of the counter. *)
Definition numbered_from (first : Z) (account : BankAccount) : Prop :=
  first <= _transaction_counter account + 1
  /\ id <$> transactions account
     = transaction_id (account_id account)
       <$> seqZ first (_transaction_counter account + 1 - first).

(** The log starts with the opening record, number 0, or with the first
    record minted, number 1. *)
Definition numbered (account : BankAccount) : Prop :=
  (numbered_from 0 account \/ numbered_from 1 account)
  /\ 0 <= _transaction_counter account.

(** An account later in its life: the same id, owner and creation time, the
    log extended at its end, one number of the counter used per record. *)
Definition account_extends (a a' : BankAccount) : Prop :=
  account_id a' = account_id a
  /\ owner a' = owner a
  /\ created_at a' = created_at a
  /\ exists new,
       transactions a' = transactions a ++ new
       /\ _transaction_counter a'
          = _transaction_counter a + Z.of_nat (length new).

(** Every account of [self] is in [self'], later in its life. *)
Definition ledger_extends (self self' : AccountManager) : Prop :=
  forall ref a,
    accounts self !! ref = Some a ->
    exists a', accounts self' !! ref = Some a' /\ account_extends a a'.

End Model.
Arguments BankError : clear implicits.
Arguments Transaction : clear implicits.
Arguments BankAccount : clear implicits.
Arguments AccountManager : clear implicits.

(** *** The ledgers of the demo, on [int] amounts *)

(** Alice opens with 1000 and Bob with 500. *)
Definition demo_ledger : AccountManager Z :=
  run (CreateAccount "Bob" 500 3 4)
    (run (CreateAccount "Alice" 1000 1 2) AccountManager_new).

Definition alice : BankAccount Z :=
  opened_account "ACC-000001" "Alice" 1000 1 2.

Definition bob : BankAccount Z :=
  opened_account "ACC-000002" "Bob" 500 3 4.

(** Alice has sent 200 to Bob: she holds 800 and he holds 700. *)
Definition demo_ledger_after_transfer : AccountManager Z :=
  run (Transfer "ACC-000001" "ACC-000002" 200 (Some "Rent payment"%string) 5 6)
    demo_ledger.

Definition alice_after_transfer : BankAccount Z :=
  after_record alice
    (withdrawal_record alice 200
       (Some "Transfer to ACC-000002: Rent payment"%string) 5).

Definition bob_after_transfer : BankAccount Z :=
  after_record bob
    (deposit_record bob 200
       (Some "Transfer from ACC-000001: Rent payment"%string) 6).

(** Charlie opens with 100. *)
Definition charlie_ledger : AccountManager Z :=
  run (CreateAccount "Charlie" 100 1 2) AccountManager_new.

Definition charlie : BankAccount Z :=
  opened_account "ACC-000001" "Charlie" 100 1 2.

(** Dana opens with 300 after Charlie, and Charlie's account is then
    deactivated. *)
Definition charlie_inactive_ledger : AccountManager Z :=
  run (SetActive "ACC-000001" false)
    (run (CreateAccount "Dana" 300 3 4) charlie_ledger).

Definition dana : BankAccount Z :=
  opened_account "ACC-000002" "Dana" 300 3 4.

Definition charlie_inactive : BankAccount Z := set_is_active false charlie.

(** *** Ledgers on [float] amounts *)

(** Eve opens with 250.35. *)
#[warnings="-inexact-float"] Definition eve_ledger : AccountManager float :=
  run (CreateAccount "Eve" 250.35%float 1 2) AccountManager_new.

#[warnings="-inexact-float"] Definition eve : BankAccount float :=
  opened_account "ACC-000001" "Eve" 250.35%float 1 2.


#[warnings="-inexact-float"] Definition eve_withdrawal : Transaction float :=
  withdrawal_record eve 99.99%float
    (Some "Transfer to ACC-000001"%string) 3.

#[warnings="-inexact-float"] Definition eve_deposit : Transaction float :=
  deposit_record (after_record eve eve_withdrawal) 99.99%float
    (Some "Transfer from ACC-000001"%string) 4.

Definition eve_after_transfer : BankAccount float :=
  after_record (after_record eve eve_withdrawal) eve_deposit.



End BankWithErrors.

(** ** [persistent_bank.py] *)

Module PersistentBank.
Section Model.
Context {A : Type} `{Amount A}.

(** What [json.dump] accepts and [json.load] returns: [None], [int],
    [float], [str], [list], and [dict] with string keys (an association
    list in the order of the document, its keys distinct).  The text of
    the file is the [json] library's business; a file holds the value. *)
#[warnings="-register-all"] Inductive json : Type :=
| JNull
| JInt (n : Z)
| JNumber (x : A)
| JString (s : string)
| JArray (items : list json)
| JObject (fields : list (string * json)).

Inductive Exception : Type :=
| InsufficientFundsError (balance amount : A)
| NegativeAmountError (amount : A)
| AccountNotFoundError (account_id : string)
| JSONDecodeError
| KeyError (key : string)
| ValueError (value : string)
| TypeError
| IOError.

Definition and_then {X Y} (r : Exception + X) (k : X -> Exception + Y)
  : Exception + Y :=
  match r with inr x => k x | inl e => inl e end.

Notation "x <~ r ;; k" := (and_then r (fun x => k))
  (at level 100, r at next level, right associativity).

Fixpoint for_each {X Y} (f : X -> Exception + Y) (l : list X)
  : Exception + list Y :=
  match l with
  | [] => inr []
  | x :: l' => y <~ f x ;; ys <~ for_each f l' ;; inr (y :: ys)
  end.

Fixpoint dict_get (key : string) (fields : list (string * json))
  : option json :=
  match fields with
  | [] => None
  | (k, v) :: fields' => if String.eqb k key then Some v
                         else dict_get key fields'
  end.

(** [data[key]]. *)
Definition item (data : json) (key : string) : Exception + json :=
  match data with
  | JObject fields =>
      match dict_get key fields with
      | Some v => inr v
      | None => inl (KeyError key)
      end
  | _ => inl TypeError
  end.

(** [data.get(key)], [None] taking the place of a missing key. *)
Definition item_get (data : json) (key : string) : Exception + option json :=
  match data with
  | JObject fields => inr (dict_get key fields)
  | _ => inl TypeError
  end.

(** The fields of the dataclasses are typed here, so a value of another
    JSON type read into one is reported as [TypeError]; the source would
    store it as it is. *)
Definition as_str (v : json) : Exception + string :=
  match v with JString s => inr s | _ => inl TypeError end.
Definition as_float (v : json) : Exception + A :=
  match v with JNumber x => inr x | _ => inl TypeError end.
Definition as_int (v : json) : Exception + Z :=
  match v with JInt n => inr n | _ => inl TypeError end.
Definition as_optional_str (v : option json) : Exception + option string :=
  match v with
  | None | Some JNull => inr None
  | Some (JString s) => inr (Some s)
  | Some _ => inl TypeError
  end.

Inductive TransactionType : Type := DEPOSIT | WITHDRAWAL.

(** [TransactionType.value] and [TransactionType(value)]. *)
Definition TransactionType_value (t : TransactionType) : string :=
  match t with DEPOSIT => "DEPOSIT" | WITHDRAWAL => "WITHDRAWAL" end.

Definition TransactionType_of_value (s : string)
  : Exception + TransactionType :=
  if String.eqb s "DEPOSIT" then inr DEPOSIT
  else if String.eqb s "WITHDRAWAL" then inr WITHDRAWAL
  else inl (ValueError s).

Record Transaction : Type := {
  id : string;
  type : TransactionType;
  amount : A;
  balance_after : A;
  timestamp : string;
  description : option string;
}.

Definition Transaction_to_dict (self : Transaction) : json :=
  JObject
    [("id", JString (id self));
     ("type", JString (TransactionType_value (type self)));
     ("amount", JNumber (amount self));
     ("balance_after", JNumber (balance_after self));
     ("timestamp", JString (timestamp self));
     ("description",
       match description self with Some s => JString s | None => JNull end)].

Definition Transaction_from_dict (data : json) : Exception + Transaction :=
  id_ <~ and_then (item data "id") as_str ;;
  type_ <~ and_then (and_then (item data "type") as_str)
             TransactionType_of_value ;;
  amount_ <~ and_then (item data "amount") as_float ;;
  balance_after_ <~ and_then (item data "balance_after") as_float ;;
  timestamp_ <~ and_then (item data "timestamp") as_str ;;
  description_ <~ and_then (item_get data "description") as_optional_str ;;
  inr {| id := id_; type := type_; amount := amount_;
         balance_after := balance_after_; timestamp := timestamp_;
         description := description_ |}.

Record BankAccount : Type := {
  account_id : string;
  owner : string;
  balance : A;
  transactions : list Transaction;
  created_at : string;
  _transaction_counter : Z;
}.

Definition set_balance (b : A) (self : BankAccount) : BankAccount :=
  {| account_id := account_id self; owner := owner self; balance := b;
     transactions := transactions self; created_at := created_at self;
     _transaction_counter := _transaction_counter self |}.

Definition set_transactions (l : list Transaction) (self : BankAccount)
  : BankAccount :=
  {| account_id := account_id self; owner := owner self;
     balance := balance self; transactions := l;
     created_at := created_at self;
     _transaction_counter := _transaction_counter self |}.

Definition set_transaction_counter (n : Z) (self : BankAccount)
  : BankAccount :=
  {| account_id := account_id self; owner := owner self;
     balance := balance self; transactions := transactions self;
     created_at := created_at self; _transaction_counter := n |}.

Local Open Scope raising_scope.

Definition _generate_transaction_id : M Exception BankAccount string :=
  modify (fun self =>
    set_transaction_counter (_transaction_counter self + 1) self) ;;
  self <- get ;;
  ret (account_id self +:+ "-TXN-"
       +:+ format_d 4 (_transaction_counter self)).

(** [now] is [datetime.now().isoformat()] at the construction of the
    record. *)
Definition deposit (amount : A) (description : option string)
    (now : string) : M Exception BankAccount Transaction :=
  if (amount <=? 0)%amt then raise (NegativeAmountError amount)
  else
    modify (fun self => set_balance (balance self + amount)%amt self) ;;
    txn_id <- _generate_transaction_id ;;
    self <- get ;;
    let txn :=
      {| id := txn_id; type := DEPOSIT; amount := amount;
         balance_after := balance self; timestamp := now;
         description := description |} in
    modify (fun self => set_transactions (transactions self ++ [txn]) self) ;;
    ret txn.

Definition withdraw (amount : A) (description : option string)
    (now : string) : M Exception BankAccount Transaction :=
  if (amount <=? 0)%amt then raise (NegativeAmountError amount)
  else
    self <- get ;;
    if (amount >? balance self)%amt
    then raise (InsufficientFundsError (balance self) amount)
    else
      modify (fun self => set_balance (balance self - amount)%amt self) ;;
      txn_id <- _generate_transaction_id ;;
      self <- get ;;
      let txn :=
        {| id := txn_id; type := WITHDRAWAL; amount := amount;
           balance_after := balance self; timestamp := now;
           description := description |} in
      modify (fun self =>
        set_transactions (transactions self ++ [txn]) self) ;;
      ret txn.

Definition BankAccount_to_dict (self : BankAccount) : json :=
  JObject
    [("account_id", JString (account_id self));
     ("owner", JString (owner self));
     ("balance", JNumber (balance self));
     ("transactions", JArray (map Transaction_to_dict (transactions self)));
     ("created_at", JString (created_at self));
     ("_transaction_counter", JInt (_transaction_counter self))].

Definition BankAccount_from_dict (data : json) : Exception + BankAccount :=
  account_id_ <~ and_then (item data "account_id") as_str ;;
  owner_ <~ and_then (item data "owner") as_str ;;
  balance_ <~ and_then (item data "balance") as_float ;;
  transactions_ <~
    and_then (item data "transactions")
      (fun v => match v with
                | JArray items => for_each Transaction_from_dict items
                | _ => inl TypeError
                end) ;;
  created_at_ <~ and_then (item data "created_at") as_str ;;
  counter_ <~
    and_then (item_get data "_transaction_counter")
      (fun v => match v with
                | None => inr (Z.of_nat (length transactions_))
                | Some v => as_int v
                end) ;;
  inr {| account_id := account_id_; owner := owner_; balance := balance_;
         transactions := transactions_; created_at := created_at_;
         _transaction_counter := counter_ |}.

(** *** [AccountManager] and its snapshot *)

Record AccountManager : Type := {
  accounts : gmap string BankAccount;
  data_file : string;
  _account_counter : Z;
}.

(** A file either holds a JSON document or text [json.load] rejects; the
    file system maps the paths that exist to their content. *)
Inductive file : Type := JsonText (data : json) | OtherText.

Definition set_accounts (m : gmap string BankAccount)
    (self : AccountManager) : AccountManager :=
  {| accounts := m; data_file := data_file self;
     _account_counter := _account_counter self |}.

(** The document [save_to_file] builds. *)
Definition snapshot (self : AccountManager) : json :=
  JObject
    [("accounts",
       JObject (prod_map (fun aid => aid) BankAccount_to_dict
                  <$> map_to_list (accounts self)));
     ("_account_counter", JInt (_account_counter self))].

(** [save_to_file] when [open] and [json.dump] complete: the file is
    overwritten with the document.  The methods below that call it are the
    methods on a disk that takes every write; the write that fails, where
    the source logs the [IOError] and raises it again, is [save_to_file_on]
    further down, with the methods that meet it. *)
Definition save_to_file
  : M Exception (AccountManager * gmap string file) unit :=
  modify (fun '(self, fs) =>
    (self, <[data_file self := JsonText (snapshot self)]> fs)).

(** The two assignments of [load_from_file], computed from the document
    before either is made. *)
Definition loaded_state (data : json)
  : Exception + (gmap string BankAccount * Z) :=
  accounts_data <~
    and_then (item_get data "accounts")
      (fun v => match v with
                | None => inr []
                | Some (JObject fields) => inr fields
                | Some _ => inl TypeError
                end) ;;
  loaded <~
    for_each (fun '(aid, acc_data) =>
                acc <~ BankAccount_from_dict acc_data ;; inr (aid, acc))
      accounts_data ;;
  let accounts_ : gmap string BankAccount := list_to_map loaded in
  counter_ <~
    and_then (item_get data "_account_counter")
      (fun v => match v with
                | None => inr (Z.of_nat (size accounts_))
                | Some v => as_int v
                end) ;;
  inr (accounts_, counter_).

Definition load_from_file
  : M Exception (AccountManager * gmap string file) unit :=
  fun '(self, fs) =>
    match fs !! data_file self with
    | None => (inr tt, (self, fs))
    | Some OtherText => (inl JSONDecodeError, (self, fs))
    | Some (JsonText data) =>
        match loaded_state data with
        | inl e => (inl e, (self, fs))
        | inr (accounts_, counter_) =>
            (inr tt,
             ({| accounts := accounts_; data_file := data_file self;
                 _account_counter := counter_ |}, fs))
        end
    end.

(** [AccountManager(data_file=path)]: the dataclass defaults, then
    [__post_init__], which loads the snapshot when the file exists. *)
Definition __post_init__
  : M Exception (AccountManager * gmap string file) unit :=
  world <- get ;;
  let '(self, fs) := world in
  if decide (is_Some (fs !! data_file self)) then load_from_file
  else ret tt.

Definition AccountManager_new (path : string) (fs : gmap string file)
  : Exception + AccountManager :=
  let self := {| accounts := ∅; data_file := path;
                 _account_counter := 0 |} in
  match __post_init__ (self, fs) with
  | (inr _, (self', _)) => inr self'
  | (inl e, _) => inl e
  end.

Definition _generate_account_id
  : M Exception (AccountManager * gmap string file) string :=
  modify (fun '(self, fs) =>
    ({| accounts := accounts self; data_file := data_file self;
        _account_counter := _account_counter self + 1 |}, fs)) ;;
  world <- get ;;
  let '(self, _) := world in
  ret ("ACC-" +:+ format_d 6 (_account_counter self)).

Definition create_account (owner : string) (initial_deposit : A)
    (now now_txn : string)
  : M Exception (AccountManager * gmap string file) BankAccount :=
  if (initial_deposit <? 0)%amt
  then raise (NegativeAmountError initial_deposit)
  else
    account_id <- _generate_account_id ;;
    let account :=
      {| account_id := account_id; owner := owner;
         balance := initial_deposit; transactions := [];
         created_at := now; _transaction_counter := 0 |} in
    let account :=
      if (initial_deposit >? 0)%amt
      then set_transactions
             (transactions account ++
                [{| id := account_id +:+ "-TXN-0000"; type := DEPOSIT;
                    amount := initial_deposit;
                    balance_after := initial_deposit;
                    timestamp := now_txn;
                    description := Some "Initial deposit"%string |}])
             account
      else account in
    modify (fun '(self, fs) =>
      (set_accounts (<[account_id := account]> (accounts self)) self, fs)) ;;
    save_to_file ;;
    ret account.

Definition get_account (account_id : string)
  : M Exception (AccountManager * gmap string file) string :=
  world <- get ;;
  let '(self, _) := world in
  match accounts self !! account_id with
  | None => raise (AccountNotFoundError account_id)
  | Some _ => ret account_id
  end.

Definition call {X} (ref : string) (method : M Exception BankAccount X)
  : M Exception (AccountManager * gmap string file) X :=
  fun '(self, fs) =>
    match accounts self !! ref with
    | Some account =>
        let (r, account') := method account in
        (r, (set_accounts (<[ref := account']> (accounts self)) self, fs))
    | None => (inl (AccountNotFoundError ref), (self, fs))
    end.

Definition manager_deposit (account_id : string) (amount : A)
    (description : option string) (now : string)
  : M Exception (AccountManager * gmap string file) Transaction :=
  account <- get_account account_id ;;
  txn <- call account (deposit amount description now) ;;
  save_to_file ;;
  ret txn.

Definition manager_withdraw (account_id : string) (amount : A)
    (description : option string) (now : string)
  : M Exception (AccountManager * gmap string file) Transaction :=
  account <- get_account account_id ;;
  txn <- call account (withdraw amount description now) ;;
  save_to_file ;;
  ret txn.

(** *** What a successful call amounts to *)

Definition deposit_record (self : BankAccount) (amount : A)
    (description : option string) (now : string) : Transaction :=
  {| id := account_id self +:+ "-TXN-"
           +:+ format_d 4 (_transaction_counter self + 1)%Z;
     type := DEPOSIT; amount := amount;
     balance_after := (balance self + amount)%amt; timestamp := now;
     description := description |}.

Definition withdrawal_record (self : BankAccount) (amount : A)
    (description : option string) (now : string) : Transaction :=
  {| id := account_id self +:+ "-TXN-"
           +:+ format_d 4 (_transaction_counter self + 1)%Z;
     type := WITHDRAWAL; amount := amount;
     balance_after := (balance self - amount)%amt; timestamp := now;
     description := description |}.

Definition after_record (self : BankAccount) (txn : Transaction)
  : BankAccount :=
  {| account_id := account_id self; owner := owner self;
     balance := balance_after txn;
     transactions := transactions self ++ [txn];
     created_at := created_at self;
     _transaction_counter := (_transaction_counter self + 1)%Z |}.

Definition opened_account (account_id owner : string) (initial_deposit : A)
    (now now_txn : string) : BankAccount :=
  {| account_id := account_id; owner := owner; balance := initial_deposit;
     transactions :=
       if (initial_deposit >? 0)%amt
       then [{| id := account_id +:+ "-TXN-0000"; type := DEPOSIT;
                amount := initial_deposit; balance_after := initial_deposit;
                timestamp := now_txn;
                description := Some "Initial deposit"%string |}]
       else [];
     created_at := now; _transaction_counter := 0 |}.

(** The file [save_to_file] leaves. *)
Definition saved (self : AccountManager) (fs : gmap string file)
  : gmap string file :=
  <[data_file self := JsonText (snapshot self)]> fs.

(** *** The operations of the ledger and the states they reach *)

(** The three methods of [AccountManager] that change the ledger; each
    saves when it succeeds. *)
Inductive operation : Type :=
| CreateAccount (owner : string) (initial_deposit : A) (now now_txn : string)
| Deposit (account_id : string) (amount : A) (description : option string)
    (now : string)
| Withdraw (account_id : string) (amount : A) (description : option string)
    (now : string).

(** The ledger and the files an operation leaves behind, whether it returned
    or raised, on a disk that takes every write. *)
Definition run (op : operation) (world : AccountManager * gmap string file)
  : AccountManager * gmap string file :=
  match op with
  | CreateAccount owner initial_deposit now now_txn =>
      snd (create_account owner initial_deposit now now_txn world)
  | Deposit account_id amount description now =>
      snd (manager_deposit account_id amount description now world)
  | Withdraw account_id amount description now =>
      snd (manager_withdraw account_id amount description now world)
  end.

Definition run_all (ops : list operation)
    (world : AccountManager * gmap string file)
  : AccountManager * gmap string file :=
  fold_left (fun world op => run op world) ops world.

(** Whether an operation raised. *)
Definition raises (op : operation)
    (world : AccountManager * gmap string file) : bool :=
  match op with
  | CreateAccount owner initial_deposit now now_txn =>
      match fst (create_account owner initial_deposit now now_txn world) with
      | inl _ => true | inr _ => false end
  | Deposit account_id amount description now =>
      match fst (manager_deposit account_id amount description now world) with
      | inl _ => true | inr _ => false end
  | Withdraw account_id amount description now =>
      match fst (manager_withdraw account_id amount description now world) with
      | inl _ => true | inr _ => false end
  end.

(** [transactions[-1].balance_after if transactions else 0]. *)
Definition last_balance_after (log : list Transaction) : A :=
  match last log with
  | Some txn => balance_after txn
  | None => 0%amt
  end.

Definition balance_invariant (account : BankAccount) : Prop :=
  balance account = last_balance_after (transactions account)
  /\ (0 <=? balance account)%amt = true.

(** *** Writes that fail *)

(** What becomes of [open(self.data_file, 'w')] and of the [json.dump] that
    follows is the operating system's answer, an input like the clock:
    both complete; or [open] raises (the directory of the path does not
    exist, the path may not be written) and no file is touched; or [open]
    has created or emptied the file and the write raises (the disk is
    full), which leaves a text that is not a JSON document.  The errors
    are [OSError]s, which [IOError] names. *)
Inductive write : Type := Written | NotOpened | Interrupted.

(** The files a write leaves. *)
Definition written (w : write) (self : AccountManager)
    (fs : gmap string file) : gmap string file :=
  match w with
  | Written => <[data_file self := JsonText (snapshot self)]> fs
  | NotOpened => fs
  | Interrupted => <[data_file self := OtherText]> fs
  end.

(** [save_to_file] with its [except IOError] clause, which logs the error
    and raises it again. *)
Definition save_to_file_on (w : write)
  : M Exception (AccountManager * gmap string file) unit :=
  modify (fun '(self, fs) => (self, written w self fs)) ;;
  match w with
  | Written => ret tt
  | NotOpened | Interrupted => raise IOError
  end.

(** The three methods that save, on a disk that answers [w]: the lines of
    [create_account], [deposit] and [withdraw] above, the call of
    [save_to_file] being the last that changes anything. *)
Definition create_account_on (w : write) (owner : string)
    (initial_deposit : A) (now now_txn : string)
  : M Exception (AccountManager * gmap string file) BankAccount :=
  if (initial_deposit <? 0)%amt
  then raise (NegativeAmountError initial_deposit)
  else
    account_id <- _generate_account_id ;;
    let account :=
      {| account_id := account_id; owner := owner;
         balance := initial_deposit; transactions := [];
         created_at := now; _transaction_counter := 0 |} in
    let account :=
      if (initial_deposit >? 0)%amt
      then set_transactions
             (transactions account ++
                [{| id := account_id +:+ "-TXN-0000"; type := DEPOSIT;
                    amount := initial_deposit;
                    balance_after := initial_deposit;
                    timestamp := now_txn;
                    description := Some "Initial deposit"%string |}])
             account
      else account in
    modify (fun '(self, fs) =>
      (set_accounts (<[account_id := account]> (accounts self)) self, fs)) ;;
    save_to_file_on w ;;
    ret account.

Definition manager_deposit_on (w : write) (account_id : string) (amount : A)
    (description : option string) (now : string)
  : M Exception (AccountManager * gmap string file) Transaction :=
  account <- get_account account_id ;;
  txn <- call account (deposit amount description now) ;;
  save_to_file_on w ;;
  ret txn.

Definition manager_withdraw_on (w : write) (account_id : string) (amount : A)
    (description : option string) (now : string)
  : M Exception (AccountManager * gmap string file) Transaction :=
  account <- get_account account_id ;;
  txn <- call account (withdraw amount description now) ;;
  save_to_file_on w ;;
  ret txn.

(** An operation on a disk that answers [w]: the error it raises, if any,
    and the ledger and the files it leaves behind. *)
Definition outcome_on (w : write) (op : operation)
    (world : AccountManager * gmap string file)
  : option Exception * (AccountManager * gmap string file) :=
  let error {X} (r : Exception + X) : option Exception :=
    match r with inl e => Some e | inr _ => None end in
  match op with
  | CreateAccount owner initial_deposit now now_txn =>
      let (r, world') :=
        create_account_on w owner initial_deposit now now_txn world in
      (error r, world')
  | Deposit account_id amount description now =>
      let (r, world') :=
        manager_deposit_on w account_id amount description now world in
      (error r, world')
  | Withdraw account_id amount description now =>
      let (r, world') :=
        manager_withdraw_on w account_id amount description now world in
      (error r, world')
  end.

Definition error_on (w : write) (op : operation)
    (world : AccountManager * gmap string file) : option Exception :=
  fst (outcome_on w op world).

Definition run_on (w : write) (op : operation)
    (world : AccountManager * gmap string file)
  : AccountManager * gmap string file :=
  snd (outcome_on w op world).

(** A sequence of operations, each with the answer of the disk to its
    write. *)
Definition run_all_on (steps : list (operation * write))
    (world : AccountManager * gmap string file)
  : AccountManager * gmap string file :=
  fold_left (fun world step => run_on (snd step) (fst step) world)
    steps world.

End Model.
Arguments json : clear implicits.
Arguments Exception : clear implicits.
Arguments Transaction : clear implicits.
Arguments BankAccount : clear implicits.
Arguments AccountManager : clear implicits.
Arguments file : clear implicits.

(** *** The ledger of the demo, on [int] amounts *)

(** No file yet; Alice opens with 1000. *)
Definition alice_world : AccountManager Z * gmap string (file Z) :=
  snd (create_account "Alice" 1000
         "2026-01-01T09:00:00" "2026-01-01T09:00:01"
         ({| accounts := ∅; data_file := "accounts.json";
             _account_counter := 0 |}, ∅)).

(** Bob opens with 500, Alice receives a bonus and buys groceries. *)
Definition demo_world : AccountManager Z * gmap string (file Z) :=
  snd (manager_withdraw "ACC-000001" 100 (Some "Groceries"%string)
         "2026-01-01T09:03:00"
         (snd (manager_deposit "ACC-000001" 250 (Some "Bonus"%string)
                 "2026-01-01T09:02:00"
                 (snd (create_account "Bob" 500
                         "2026-01-01T09:01:00" "2026-01-01T09:01:01"
                         alice_world))))).

(** Alice's account at the end of the demo. *)
Definition demo_alice : BankAccount Z :=
  let opened :=
    opened_account "ACC-000001" "Alice" 1000
      "2026-01-01T09:00:00" "2026-01-01T09:00:01" in
  let bonus :=
    after_record opened
      (deposit_record opened 250 (Some "Bonus"%string)
         "2026-01-01T09:02:00") in
  after_record bonus
    (withdrawal_record bonus 100 (Some "Groceries"%string)
       "2026-01-01T09:03:00").

(** The ledger on a path in a directory that does not exist: Alice opens
    with 1000 and the write is refused. *)
Definition unsaved_world : AccountManager Z * gmap string (file Z) :=
  run_on NotOpened
    (CreateAccount "Alice" 1000 "2026-01-01T09:00:00" "2026-01-01T09:00:01")
    ({| accounts := ∅; data_file := "data/accounts.json";
        _account_counter := 0 |}, ∅).

(** Alice opens with 1000; the write for Bob's account is refused. *)
Definition half_saved_steps : list (@operation Z * write) :=
  [(CreateAccount "Alice" 1000
      "2026-01-01T09:00:00" "2026-01-01T09:00:01", Written);
   (CreateAccount "Bob" 500
      "2026-01-01T09:01:00" "2026-01-01T09:01:01", NotOpened)].

(** Alice's bonus is then written. *)
Definition recovered_world : AccountManager Z * gmap string (file Z) :=
  run_on Written
    (Deposit "ACC-000001" 250 (Some "Bonus"%string) "2026-01-01T09:02:00")
    (run_all_on half_saved_steps
       ({| accounts := ∅; data_file := "accounts.json";
           _account_counter := 0 |}, ∅)).

(** An account and a snapshot as a version without the two counters would
    have written them. *)
Definition legacy_account_document : json Z :=
  JObject
    [("account_id", JString "ACC-000001");
     ("owner", JString "Alice");
     ("balance", JNumber 1000);
     ("transactions", JArray
        [JObject
           [("id", JString "TXN-0001");
            ("type", JString "DEPOSIT");
            ("amount", JNumber 1000);
            ("balance_after", JNumber 1000);
            ("timestamp", JString "2025-12-31T18:00:00");
            ("description", JString "Initial deposit")]]);
     ("created_at", JString "2025-12-31T18:00:00")].

Definition legacy_account : BankAccount Z :=
  {| account_id := "ACC-000001"; owner := "Alice"; balance := 1000;
     transactions :=
       [{| id := "TXN-0001"; type := DEPOSIT; amount := 1000;
           balance_after := 1000; timestamp := "2025-12-31T18:00:00";
           description := Some "Initial deposit"%string |}];
     created_at := "2025-12-31T18:00:00"; _transaction_counter := 1 |}.

Definition legacy_accounts : gmap string (BankAccount Z) :=
  {[ "ACC-000001" := legacy_account ]}.

Definition legacy_snapshot : json Z :=
  JObject [("accounts", JObject [("ACC-000001", legacy_account_document)])].

End PersistentBank.

(** * Properties *)

(** ** Exact arithmetic *)

#[export] Instance Z_ExactAmount : ExactAmount Z.
Proof.
  split; cbn; intros; lia.
Qed.

#[export] Instance Qc_ExactAmount : ExactAmount Qcanon.Qc.
Proof.
  split; cbn.
  - apply Qcanon.Qcplus_comm.
  - apply Qcanon.Qcplus_0_l.
  - intros a b. unfold Qcanon.Qcminus.
    rewrite <- Qcanon.Qcplus_assoc, (Qcanon.Qcplus_comm (Qcanon.Qcopp b) b).
    rewrite Qcanon.Qcplus_opp_r. apply Qcanon.Qcplus_0_r.
  - intros a b. unfold Qcanon.Qcminus.
    rewrite <- Qcanon.Qcplus_assoc, Qcanon.Qcplus_opp_r.
    apply Qcanon.Qcplus_0_r.
  - intros a b c. rewrite !QArith_base.Qle_bool_iff.
    apply QArith_base.Qle_trans.
  - intros a b. rewrite !QArith_base.Qle_bool_iff. apply Qcanon.Qcle_antisym.
  - intros a b. rewrite !QArith_base.Qle_bool_iff.
    destruct (Qcanon.Qclt_le_dec a b) as [Hlt | Hle]; [left | right; exact Hle].
    apply QArith_base.Qlt_le_weak, Hlt.
  - reflexivity.
  - intros a b c. rewrite !QArith_base.Qle_bool_iff. intros Hab.
    apply Qcanon.Qcplus_le_compat; [exact Hab | apply Qcanon.Qcle_refl].
Qed.

Section ExactArithmetic.
Context {A : Type} `{ExactAmount A}.
Local Open Scope amount_scope.

Lemma num_leb_refl (a : A) : (a <=? a) = true.
Proof. destruct (num_leb_total a a); assumption. Qed.

Lemma num_sub_diag (a : A) : a - a = 0.
Proof. rewrite <- (num_add_zero_l a) at 1. apply num_add_sub. Qed.

(** [not (d < 0)] is [0 <= d]. *)
Lemma num_not_negative (d : A) : (d <? 0) = false -> (0 <=? d) = true.
Proof.
  rewrite num_ltb_leb. destruct (0 <=? d); [reflexivity | discriminate].
Qed.

(** Neither negative nor positive is zero. *)
Lemma num_neither_sign (d : A) : (d <? 0) = false -> (d >? 0) = false -> d = 0.
Proof.
  intros Hneg Hpos. apply num_leb_antisym.
  - rewrite num_ltb_leb in Hpos. destruct (d <=? 0); [reflexivity | discriminate].
  - apply num_not_negative, Hneg.
Qed.

(** [not (a <= 0)] is [0 <= a] (and more). *)
Lemma num_not_leb_zero (a : A) : (a <=? 0) = false -> (0 <=? a) = true.
Proof.
  intros Ha. destruct (num_leb_total 0 a) as [H1 | H1]; [assumption |].
  rewrite H1 in Ha. discriminate.
Qed.

Lemma num_add_nonneg (b a : A) :
  (0 <=? b) = true -> (a <=? 0) = false -> (0 <=? b + a) = true.
Proof.
  intros Hb Ha. apply num_not_leb_zero in Ha.
  apply num_leb_trans with (b := b); [assumption |].
  pose proof (num_leb_add_r 0 a b Ha) as Hm.
  rewrite num_add_zero_l in Hm. rewrite (num_add_comm b a). exact Hm.
Qed.

(** [not (a > b)] gives [0 <= b - a]. *)
Lemma num_sub_nonneg (b a : A) : (a >? b) = false -> (0 <=? b - a) = true.
Proof.
  intros Hle. rewrite num_ltb_leb in Hle.
  assert (Hab : (a <=? b) = true) by (destruct (a <=? b); [reflexivity | discriminate]).
  destruct (num_leb_total 0 (b - a)) as [H1 | H1]; [assumption |].
  pose proof (num_leb_add_r _ _ a H1) as Hm.
  rewrite num_sub_add, num_add_zero_l in Hm.
  assert (b = a) as -> by (apply num_leb_antisym; assumption).
  rewrite num_sub_diag. apply num_leb_refl.
Qed.

(** An amount above a balance that is not negative is positive. *)
Lemma num_exceeds_positive (b a : A) :
  (0 <=? b) = true -> (a >? b) = true -> (a <=? 0) = false.
Proof.
  intros Hb Hlt. rewrite num_ltb_leb in Hlt.
  destruct (a <=? 0) eqn:Ha; [| reflexivity].
  rewrite (num_leb_trans a 0 b Ha Hb) in Hlt. discriminate.
Qed.

Lemma num_positive_not_leb (a : A) : (a >? 0) = true -> (a <=? 0) = false.
Proof.
  rewrite num_ltb_leb. destruct (a <=? 0); [discriminate | reflexivity].
Qed.

Lemma num_leb_not_gt (a b : A) : (a <=? b) = true -> (a >? b) = false.
Proof. intros Hab. rewrite num_ltb_leb, Hab. reflexivity. Qed.

End ExactArithmetic.

(** ** Order and sign *)

(** Exact arithmetic has the laws of [OrderedAmount]. *)
Lemma ExactAmount_OrderedAmount {A : Type} `{ExactAmount A} : OrderedAmount A.
Proof.
  split.
  - intros a b Hlt. rewrite num_ltb_leb in Hlt.
    destruct (num_leb b a); [discriminate | reflexivity].
  - intros a b. apply num_leb_not_gt.
  - intros b a Hb Ha. rewrite num_ltb_leb.
    rewrite num_add_nonneg; [reflexivity | | exact Ha].
    apply num_not_negative, Hb.
  - intros b a _ Hgt. rewrite num_ltb_leb.
    rewrite num_sub_nonneg; [reflexivity | exact Hgt].
Qed.

#[export] Instance Z_OrderedAmount : OrderedAmount Z :=
  ExactAmount_OrderedAmount.

#[export] Instance Qc_OrderedAmount : OrderedAmount Qcanon.Qc :=
  ExactAmount_OrderedAmount.

(** ** Floating point *)

(** The laws of [OrderedAmount] on the floats of IEEE 754, from the
    specification of the primitive operations ([Prim2SF] reads a primitive
    float as a sign, a mantissa and an exponent, and [SFadd], [SFsub],
    [SFltb] and [SFleb] compute on those). *)
Section SpecFloats.

Lemma compare_cont_swap (p q : positive) :
  Pos.compare_cont Eq q p = CompOpp (Pos.compare_cont Eq p q).
Proof. exact (eq_sym (Pos.compare_cont_antisym p q Eq)). Qed.

Lemma SFcompare_swap (x y : spec_float) :
  SFcompare y x = option_map CompOpp (SFcompare x y).
Proof.
  destruct x as [sx | sx | | sx mx ex], y as [sy | sy | | sy my ey];
    try destruct sx; try destruct sy; cbn; try reflexivity;
    rewrite (Z.compare_antisym ex ey);
    destruct (ex ?= ey); cbn; try reflexivity;
    rewrite (compare_cont_swap mx my), ?CompOpp_involutive; reflexivity.
Qed.

Lemma SFltb_not_SFleb (x y : spec_float) :
  SFltb x y = true -> SFleb y x = false.
Proof.
  unfold SFltb, SFleb. rewrite (SFcompare_swap x y).
  destruct (SFcompare x y) as [[| |] |]; cbn; congruence.
Qed.

Lemma SFleb_not_SFltb (x y : spec_float) :
  SFleb x y = true -> SFltb y x = false.
Proof.
  unfold SFltb, SFleb. rewrite (SFcompare_swap x y).
  destruct (SFcompare x y) as [[| |] |]; cbn; congruence.
Qed.

Variables prec emax : Z.

(** Rounding keeps the sign: what is rounded from a mantissa that is not
    negative is a zero, a positive number, [+inf] or [nan]. *)
Lemma binary_round_aux_not_negative mx ex lx :
  SFltb (binary_round_aux prec emax false mx ex lx) (S754_zero false) = false.
Proof.
  unfold binary_round_aux.
  destruct (shr_fexp prec emax mx ex lx) as [mrs' e'].
  destruct (shr_fexp prec emax _ e' loc_Exact) as [mrs'' e''].
  destruct (shr_m mrs''); [reflexivity | | reflexivity].
  destruct (e'' <=? emax - prec); reflexivity.
Qed.

Lemma binary_normalize_not_negative m e :
  0 <= m ->
  SFltb (binary_normalize prec emax m e false) (S754_zero false) = false.
Proof.
  intros Hm. destruct m as [| m | m]; [reflexivity | | lia].
  unfold binary_normalize, binary_round.
  destruct (shl_align _ _ _). apply binary_round_aux_not_negative.
Qed.

Lemma SFadd_not_negative (x y : spec_float) :
  SFltb x (S754_zero false) = false ->
  SFleb y (S754_zero false) = false ->
  SFltb (SFadd prec emax x y) (S754_zero false) = false.
Proof.
  destruct x as [sx | sx | | sx mx ex], y as [sy | sy | | sy my ey];
    try destruct sx; try destruct sy; try (cbn; congruence).
  intros _ _. unfold SFadd. cbn [cond_Zopp].
  apply binary_normalize_not_negative. lia.
Qed.

Lemma digits2_pos_bounds (m : positive) :
  2 ^ (Z.pos (digits2_pos m) - 1) <= Z.pos m < 2 ^ Z.pos (digits2_pos m).
Proof.
  induction m as [m IH | m IH |]; cbn [digits2_pos]; [| | cbn; lia].
  all: rewrite Pos2Z.inj_succ;
    replace (Z.succ (Z.pos (digits2_pos m)) - 1)
      with (Z.succ (Z.pos (digits2_pos m) - 1)) by lia;
    rewrite !Z.pow_succ_r by lia; lia.
Qed.

Lemma iter_xO_value (m d : positive) :
  Z.pos (Pos.iter xO m d) = Z.pos m * 2 ^ Z.pos d.
Proof.
  induction d as [| d IH] using Pos.peano_ind.
  - cbn. lia.
  - rewrite Pos.iter_succ, Pos2Z.inj_succ, Z.pow_succ_r by lia.
    rewrite Pos2Z.inj_xO, IH. lia.
Qed.

Lemma shl_align_value mx ex ex' :
  ex' <= ex ->
  Z.pos (fst (shl_align mx ex ex')) = Z.pos mx * 2 ^ (ex - ex').
Proof.
  intros Hle. unfold shl_align.
  destruct (ex' - ex) as [| d | d] eqn:Hd; cbn [fst]; [| lia |].
  - replace (ex - ex') with 0 by lia. lia.
  - replace (ex - ex') with (Z.pos d) by lia. apply iter_xO_value.
Qed.

(** The mantissa of a float in the format has at most [prec] digits, and
    exactly [prec] above the least exponent. *)
Lemma bounded_digits m e :
  bounded prec emax m e = true ->
  SpecFloat.emin prec emax <= e
  /\ Z.pos (digits2_pos m) <= prec
  /\ (e = SpecFloat.emin prec emax \/ Z.pos (digits2_pos m) = prec).
Proof.
  unfold bounded, canonical_mantissa, fexp.
  intros [Hc _]%andb_prop. apply Z.eqb_eq in Hc. lia.
Qed.

(** Aligned to the lower of the two exponents, the mantissa of a positive
    float that is not below another is not below the other's. *)
Lemma aligned_mantissas mx ex my ey :
  bounded prec emax mx ex = true -> bounded prec emax my ey = true ->
  SFltb (S754_finite false mx ex) (S754_finite false my ey) = false ->
  Z.pos (fst (shl_align my ey (Z.min ex ey)))
  <= Z.pos (fst (shl_align mx ex (Z.min ex ey))).
Proof.
  intros Hx Hy Hlt. unfold SFltb in Hlt. cbn in Hlt.
  rewrite !shl_align_value by lia.
  destruct (Z.compare_spec ex ey) as [-> | Hltz | Hgt]; [| discriminate |].
  - rewrite Z.min_id, Z.sub_diag. cbn [Z.pow].
    change (Pos.compare_cont Eq mx my) with (Pos.compare mx my) in Hlt.
    destruct (Pos.compare_spec mx my); [lia | discriminate | lia].
  - rewrite Z.min_r by lia. rewrite Z.sub_diag. cbn [Z.pow].
    destruct (bounded_digits _ _ Hx) as (_ & _ & [He | Hd]);
      [destruct (bounded_digits _ _ Hy) as (Hey & _); lia |].
    destruct (bounded_digits _ _ Hy) as (_ & Hdy & _).
    pose proof (digits2_pos_bounds mx) as [Hmx _].
    pose proof (digits2_pos_bounds my) as [_ Hmy].
    rewrite Hd in Hmx.
    assert (Hpow : 2 ^ Z.pos (digits2_pos my) <= 2 ^ prec)
      by (apply Z.pow_le_mono_r; lia).
    assert (H2 : 2 ^ prec = 2 ^ (prec - 1) * 2).
    { replace prec with (Z.succ (prec - 1)) at 1 by lia.
      rewrite Z.pow_succ_r; lia. }
    assert (Hd2 : 2 <= 2 ^ (ex - ey)).
    { change 2 with (2 ^ 1) at 1. apply Z.pow_le_mono_r; lia. }
    nia.
Qed.

Lemma SFsub_not_negative (x y : spec_float) :
  SpecFloat.valid_binary prec emax x = true ->
  SpecFloat.valid_binary prec emax y = true ->
  SFleb y (S754_zero false) = false -> SFltb x y = false ->
  SFltb (SFsub prec emax x y) (S754_zero false) = false.
Proof.
  destruct x as [sx | sx | | sx mx ex], y as [sy | sy | | sy my ey];
    try destruct sx; try destruct sy; cbn [SpecFloat.valid_binary];
    try (cbn; congruence).
  intros Hx Hy _ Hlt. unfold SFsub. cbn [cond_Zopp].
  apply binary_normalize_not_negative.
  pose proof (aligned_mantissas _ _ _ _ Hx Hy Hlt). lia.
Qed.

End SpecFloats.

#[export] Instance float_OrderedAmount : OrderedAmount float.
Proof.
  split; cbn.
  - intros a b. rewrite ltb_spec, leb_spec. apply SFltb_not_SFleb.
  - intros a b. rewrite ltb_spec, leb_spec. apply SFleb_not_SFltb.
  - intros b a. rewrite !ltb_spec, leb_spec, add_spec.
    apply SFadd_not_negative.
  - intros b a. rewrite !ltb_spec, leb_spec, sub_spec.
    apply SFsub_not_negative; apply Prim2SF_valid.
Qed.

(** ** [bank_with_errors.py]: one account *)

Section AccountMethods.
Import BankWithErrors.
Context {A : Type} `{Amount A}.
Local Open Scope amount_scope.

Implicit Types (self : BankAccount A) (amount : A)
  (description : option string) (now : datetime).

Lemma deposit_inactive self amount description now :
  is_active self = false ->
  deposit amount description now self
  = (inl (AccountInactiveError (account_id self)), self).
Proof. intros Hact. cbv [deposit bind _validate_active get]. rewrite Hact. reflexivity. Qed.

Lemma withdraw_inactive self amount description now :
  is_active self = false ->
  withdraw amount description now self
  = (inl (AccountInactiveError (account_id self)), self).
Proof. intros Hact. cbv [withdraw bind _validate_active get]. rewrite Hact. reflexivity. Qed.

Lemma deposit_invalid self amount description now :
  is_active self = true -> (amount <=? 0) = true ->
  deposit amount description now self
  = (inl (NegativeAmountError amount "deposit"), self).
Proof.
  intros Hact Hamt. cbv [deposit bind _validate_active _validate_amount get].
  rewrite Hact, Hamt. reflexivity.
Qed.

Lemma withdraw_invalid self amount description now :
  is_active self = true -> (amount <=? 0) = true ->
  withdraw amount description now self
  = (inl (NegativeAmountError amount "withdrawal"), self).
Proof.
  intros Hact Hamt. cbv [withdraw bind _validate_active _validate_amount get].
  rewrite Hact, Hamt. reflexivity.
Qed.

Lemma deposit_ok self amount description now :
  is_active self = true -> (amount <=? 0) = false ->
  deposit amount description now self
  = (inr (deposit_record self amount description now),
     after_record self (deposit_record self amount description now)).
Proof.
  intros Hact Hamt. cbv [deposit bind _validate_active _validate_amount get].
  rewrite Hact, Hamt. reflexivity.
Qed.

Lemma withdraw_insufficient self amount description now :
  is_active self = true -> (amount <=? 0) = false ->
  (amount >? balance self) = true ->
  withdraw amount description now self
  = (inl (InsufficientFundsError (balance self) amount), self).
Proof.
  intros Hact Hamt Hbal.
  cbv [withdraw bind _validate_active _validate_amount get].
  rewrite Hact, Hamt. cbn. rewrite Hbal. reflexivity.
Qed.

Lemma withdraw_ok self amount description now :
  is_active self = true -> (amount <=? 0) = false ->
  (amount >? balance self) = false ->
  withdraw amount description now self
  = (inr (withdrawal_record self amount description now),
     after_record self (withdrawal_record self amount description now)).
Proof.
  intros Hact Hamt Hbal.
  cbv [withdraw bind _validate_active _validate_amount get].
  rewrite Hact, Hamt. cbn. rewrite Hbal. reflexivity.
Qed.

End AccountMethods.

(** ** [bank_with_errors.py]: the ledger *)

Section LedgerMethods.
Import BankWithErrors.
Context {A : Type} `{Amount A}.
Local Open Scope amount_scope.

Implicit Types (self : AccountManager A) (amount : A)
  (description : option string) (now : datetime).

Lemma with_account_same ref account self :
  accounts self !! ref = Some account -> with_account ref account self = self.
Proof.
  intros Hin. destruct self as [m c]. unfold with_account. cbn in *.
  f_equal. apply insert_id, Hin.
Qed.

Lemma call_found {X} ref (method : M (BankError A) (BankAccount A) X)
    self account :
  accounts self !! ref = Some account ->
  call ref method self
  = (fst (method account), with_account ref (snd (method account)) self).
Proof.
  intros Hin. unfold call. rewrite Hin. destruct (method account). reflexivity.
Qed.

Lemma call_missing {X} ref (method : M (BankError A) (BankAccount A) X) self :
  accounts self !! ref = None ->
  call ref method self = (inl (AccountNotFoundError ref), self).
Proof. intros Hin. unfold call. rewrite Hin. reflexivity. Qed.

(** [transfer] once both accounts are found: the withdrawal on the source,
    then the deposit on the destination as the withdrawal left it (the same
    object when the two ids are equal). *)
Lemma transfer_found self from_id to_id amount description now_w now_d a b :
  accounts self !! from_id = Some a ->
  accounts self !! to_id = Some b ->
  transfer from_id to_id amount description now_w now_d self
  = let dw := Some ("Transfer to " +:+ to_id
                    +:+ description_suffix description)%string in
    let dd := Some ("Transfer from " +:+ from_id
                    +:+ description_suffix description)%string in
    match withdraw amount dw now_w a with
    | (inl e, a') => (inl e, with_account from_id a' self)
    | (inr w, a') =>
        let b1 := if decide (from_id = to_id) then a' else b in
        match deposit amount dd now_d b1 with
        | (inl e, b') =>
            (inl e, with_account to_id b' (with_account from_id a' self))
        | (inr d, b') =>
            (inr (w, d), with_account to_id b' (with_account from_id a' self))
        end
    end.
Proof.
  intros Ha Hb. cbv zeta. cbv [transfer bind get_account get].
  rewrite Ha. cbv [ret]. rewrite Hb.
  rewrite (call_found _ _ _ _ Ha).
  destruct (withdraw _ _ _ a) as [[e | w] a']; cbn; [reflexivity |].
  assert (Hb1 : accounts (with_account from_id a' self) !! to_id
                = Some (if decide (from_id = to_id) then a' else b)).
  { cbn. rewrite lookup_insert. destruct (decide (from_id = to_id)); auto. }
  rewrite (call_found _ _ _ _ Hb1).
  destruct (deposit _ _ _ _) as [[e | d] b']; reflexivity.
Qed.

(** A transfer from an account to itself, in any arithmetic: the deposit is
    made on the account the withdrawal left, so the balance goes from [b] to
    [b - amount] and then to [b - amount + amount]. *)
Lemma transfer_to_self_steps self account_id amount description now_w now_d a :
  accounts self !! account_id = Some a ->
  is_active a = true ->
  (amount <=? 0) = false ->
  (amount >? balance a) = false ->
  let w := withdrawal_record a amount
             (Some ("Transfer to " +:+ account_id
                    +:+ description_suffix description)%string) now_w in
  let d := deposit_record (after_record a w) amount
             (Some ("Transfer from " +:+ account_id
                    +:+ description_suffix description)%string) now_d in
  transfer account_id account_id amount description now_w now_d self
  = (inr (w, d),
     with_account account_id (after_record (after_record a w) d) self).
Proof.
  intros Ha Hact Hamt Hle. cbv zeta.
  rewrite (transfer_found _ _ _ _ _ _ _ _ _ Ha Ha). cbv zeta.
  rewrite withdraw_ok by assumption.
  rewrite decide_True by reflexivity.
  rewrite deposit_ok by assumption.
  f_equal. destruct self as [m c]. unfold with_account. cbn.
  f_equal. apply insert_insert_eq.
Qed.

End LedgerMethods.

(** ** Reachable ledgers *)

Section Reachable.
Import BankWithErrors.
Context {A : Type} `{Amount A}.
Local Open Scope amount_scope.

Implicit Types (self : AccountManager A) (a b : BankAccount A) (amount : A)
  (description : option string).

Lemma create_account_rejected self owner initial_deposit
    (now now_txn : datetime) :
  (initial_deposit <? 0) = true ->
  create_account owner initial_deposit now now_txn self
  = (inl (NegativeAmountError initial_deposit "initial deposit"), self).
Proof. intros Hneg. unfold create_account. rewrite Hneg. reflexivity. Qed.

Lemma create_account_ok self owner initial_deposit (now now_txn : datetime) :
  (initial_deposit <? 0) = false ->
  let account_id :=
    ("ACC-" +:+ format_d 6 (_account_counter self + 1)%Z)%string in
  let account :=
    opened_account account_id owner initial_deposit now now_txn in
  create_account owner initial_deposit now now_txn self
  = (inr account,
     {| accounts := <[account_id := account]> (accounts self);
        _account_counter := (_account_counter self + 1)%Z |}).
Proof.
  intros Hneg. cbv zeta. unfold create_account. rewrite Hneg.
  cbv [bind _generate_account_id modify get ret opened_account
       set_transactions]. cbn.
  destruct (initial_deposit >? 0); reflexivity.
Qed.

(** The ledger [transfer] leaves behind, in each of its outcomes. *)
Lemma transfer_leaves self from_id to_id amount description
    (now_w now_d : datetime) :
  let self' :=
    snd (transfer from_id to_id amount description now_w now_d self) in
  self' = self
  \/ exists a dw dd,
       accounts self !! from_id = Some a
       /\ let a' := snd (withdraw amount dw now_w a) in
          self' = with_account from_id a' self
          \/ exists b,
               accounts (with_account from_id a' self) !! to_id = Some b
               /\ self' = with_account to_id (snd (deposit amount dd now_d b))
                            (with_account from_id a' self).
Proof.
  cbv zeta.
  destruct (accounts self !! from_id) as [a |] eqn:Ha; cycle 1.
  { left. cbv [transfer bind get_account get]. rewrite Ha. reflexivity. }
  destruct (accounts self !! to_id) as [b |] eqn:Hb; cycle 1.
  { left. cbv [transfer bind get_account get]. rewrite Ha. cbv [ret].
    rewrite Hb. reflexivity. }
  right.
  exists a, (Some ("Transfer to " +:+ to_id
                   +:+ description_suffix description)%string),
    (Some ("Transfer from " +:+ from_id
           +:+ description_suffix description)%string).
  split; [reflexivity |].
  rewrite (transfer_found _ _ _ _ _ _ _ _ _ Ha Hb). cbv zeta.
  destruct (withdraw _ _ _ a) as [[e | w] a']; cbn [snd].
  { left. reflexivity. }
  right. exists (if decide (from_id = to_id) then a' else b). split.
  { cbn. rewrite lookup_insert. destruct (decide (from_id = to_id)); auto. }
  destruct (deposit _ _ _ _) as [[e | d] b']; reflexivity.
Qed.

(** A property of accounts that holds of a newly opened account and that
    [deposit], [withdraw] and the assignment to [is_active] keep, holds of
    every account of every reachable ledger. *)
Lemma reachable_accounts (P : BankAccount A -> Prop) :
  (forall account_id owner initial_deposit (now now_txn : datetime),
      (initial_deposit <? 0) = false ->
      P (opened_account account_id owner initial_deposit now now_txn)) ->
  (forall a amount description (now : datetime),
      P a -> P (snd (deposit amount description now a))) ->
  (forall a amount description (now : datetime),
      P a -> P (snd (withdraw amount description now a))) ->
  (forall a flag, P a -> P (set_is_active flag a)) ->
  forall self, reachable self ->
  forall ref a, accounts self !! ref = Some a -> P a.
Proof.
  intros Hopen Hdep Hwd Hflag self Hreach.
  assert (Hput : forall self ref a,
             (forall r x, accounts self !! r = Some x -> P x) -> P a ->
             forall r x, accounts (with_account ref a self) !! r = Some x -> P x).
  { intros s ref a Hs Ha r x. cbn. rewrite lookup_insert.
    destruct (decide (ref = r)); [intros [= <-]; exact Ha | apply Hs]. }
  assert (Hcall : forall self ref X
                    (method : M (BankError A) (BankAccount A) X),
             (forall a, P a -> P (snd (method a))) ->
             (forall r x, accounts self !! r = Some x -> P x) ->
             forall r x, accounts (snd (call ref method self)) !! r = Some x
                         -> P x).
  { intros s ref X method Hm Hs.
    destruct (accounts s !! ref) as [a |] eqn:Ha.
    - rewrite (call_found _ _ _ _ Ha). cbn [snd]. apply Hput; eauto.
    - rewrite (call_missing _ _ _ Ha). exact Hs. }
  induction Hreach as [| op self Hreach IH].
  { intros ref a. cbn. rewrite lookup_empty. discriminate. }
  destruct op as [owner d now now_txn | ref0 amount description now
                 | ref0 amount description now
                 | from_id to_id amount description now_w now_d
                 | ref0 flag]; cbn [run].
  - destruct (d <? 0) eqn:Hneg.
    + rewrite create_account_rejected by assumption. exact IH.
    + rewrite create_account_ok by assumption. cbn [snd].
      apply (Hput self _ _ IH). apply Hopen, Hneg.
  - apply (Hcall self ref0); [intros a; apply Hdep | exact IH].
  - apply (Hcall self ref0); [intros a; apply Hwd | exact IH].
  - destruct (transfer_leaves self from_id to_id amount description
                now_w now_d) as [-> | (a & dw & dd & Ha & [-> | (b & Hb & ->)])].
    + exact IH.
    + apply Hput; [exact IH |]. apply Hwd. exact (IH _ _ Ha).
    + assert (Hmid : forall r x,
                 accounts (with_account from_id
                             (snd (withdraw amount dw now_w a)) self) !! r
                 = Some x -> P x).
      { apply Hput; [exact IH |]. apply Hwd. exact (IH _ _ Ha). }
      apply Hput; [exact Hmid |]. apply Hdep. exact (Hmid _ _ Hb).
  - apply (Hcall self ref0); [intros a; apply Hflag | exact IH].
Qed.

End Reachable.

(** ** Generated ids *)

Section Formatting.

Lemma read_d_zeros (n : nat) (s : string) : read_d (zeros n +:+ s) = read_d s.
Proof.
  induction n as [| n IH]; [reflexivity |].
  rewrite <- IH. unfold read_d.
  change (zeros (S n) +:+ s) with (String "0" (zeros n +:+ s)).
  cbn [NilEmpty.uint_of_string].
  destruct (NilEmpty.uint_of_string (zeros n +:+ s)) as [d |]; reflexivity.
Qed.

Lemma read_d_digits (d : Decimal.uint) :
  read_d (NilZero.string_of_uint d) = N.of_uint d.
Proof.
  unfold read_d. destruct d; try reflexivity;
    cbn [NilZero.string_of_uint]; rewrite NilEmpty.usu; reflexivity.
Qed.

Lemma read_d_format_d (width : nat) (n : Z) :
  0 <= n -> read_d (format_d width n) = Z.to_N n.
Proof.
  intros Hn. unfold format_d.
  destruct (Z.ltb_spec n 0) as [Hlt | _]; [lia |].
  unfold zfill. rewrite read_d_zeros, read_d_digits, DecimalN.Unsigned.of_to.
  destruct n; try reflexivity. lia.
Qed.

Lemma format_d_inj (width : nat) (m n : Z) :
  0 <= m -> 0 <= n -> format_d width m = format_d width n -> m = n.
Proof.
  intros Hm Hn Heq. apply (f_equal read_d) in Heq.
  rewrite !read_d_format_d in Heq by assumption. lia.
Qed.

Lemma string_app_inv_head (p s1 s2 : string) : p +:+ s1 = p +:+ s2 -> s1 = s2.
Proof. induction p as [| c p IH]; cbn; [auto | intros [= Heq]; auto]. Qed.

End Formatting.

(** ** The balance and the log *)

Section BalanceInvariant.
Import BankWithErrors.
Context {A : Type} `{ExactAmount A}.
Local Open Scope amount_scope.

Implicit Types (a : BankAccount A) (amount : A) (description : option string).

Lemma last_balance_after_snoc (log : list (Transaction A)) txn :
  last_balance_after (log ++ [txn]) = balance_after txn.
Proof. unfold last_balance_after. rewrite last_snoc. reflexivity. Qed.

Lemma balance_invariant_after_record a txn :
  (0 <=? balance_after txn) = true -> balance_invariant (after_record a txn).
Proof.
  intros Hpos. split; cbn; [| exact Hpos].
  symmetry. apply last_balance_after_snoc.
Qed.

Lemma balance_invariant_opened account_id owner initial_deposit
    (now now_txn : datetime) :
  (initial_deposit <? 0) = false ->
  balance_invariant
    (opened_account account_id owner initial_deposit now now_txn).
Proof.
  intros Hneg. split; cbn; [| apply num_not_negative, Hneg].
  destruct (initial_deposit >? 0) eqn:Hpos; cbn; [reflexivity |].
  apply num_neither_sign; assumption.
Qed.

Lemma balance_invariant_deposit a amount description (now : datetime) :
  balance_invariant a ->
  balance_invariant (snd (deposit amount description now a)).
Proof.
  intros Ha. destruct (is_active a) eqn:Hact.
  - destruct (amount <=? 0) eqn:Hamt.
    + rewrite deposit_invalid by assumption. exact Ha.
    + rewrite deposit_ok by assumption. cbn [snd].
      apply balance_invariant_after_record. cbn.
      apply num_add_nonneg; [apply Ha | exact Hamt].
  - rewrite deposit_inactive by assumption. exact Ha.
Qed.

Lemma balance_invariant_withdraw a amount description (now : datetime) :
  balance_invariant a ->
  balance_invariant (snd (withdraw amount description now a)).
Proof.
  intros Ha. destruct (is_active a) eqn:Hact.
  - destruct (amount <=? 0) eqn:Hamt.
    + rewrite withdraw_invalid by assumption. exact Ha.
    + destruct (amount >? balance a) eqn:Hgt.
      * rewrite withdraw_insufficient by assumption. exact Ha.
      * rewrite withdraw_ok by assumption. cbn [snd].
        apply balance_invariant_after_record. cbn.
        apply num_sub_nonneg, Hgt.
  - rewrite withdraw_inactive by assumption. exact Ha.
Qed.

Lemma reachable_balance_invariant (self : AccountManager A) :
  reachable self ->
  forall ref a, accounts self !! ref = Some a -> balance_invariant a.
Proof.
  intros Hreach. apply (reachable_accounts balance_invariant); try assumption.
  - apply balance_invariant_opened.
  - apply balance_invariant_deposit.
  - apply balance_invariant_withdraw.
  - intros a flag Ha. exact Ha.
Qed.

End BalanceInvariant.

Lemma demo_ledger_after_transfer_reachable :
  BankWithErrors.reachable BankWithErrors.demo_ledger_after_transfer.
Proof. repeat apply BankWithErrors.reachable_run. apply BankWithErrors.reachable_new. Qed.

(** The balance and the log in any arithmetic that has the laws of
    [OrderedAmount], the source's floats among them. *)
Section BalanceFollowsLog.
Import BankWithErrors.
Context {A : Type} `{OrderedAmount A}.
Local Open Scope amount_scope.

Implicit Types (a : BankAccount A) (amount : A) (description : option string).







End BalanceFollowsLog.




(** ** The transaction counter *)

Section TransactionCounter.
Import BankWithErrors.
Context {A : Type} `{Amount A}.
Local Open Scope amount_scope.

Implicit Types (self : AccountManager A) (a b : BankAccount A) (amount : A)
  (description : option string).

Lemma evolves_refl a : evolves a a.
Proof. split; [reflexivity | lia]. Qed.

Lemma evolves_after_record a txn : evolves a (after_record a txn).
Proof. split; cbn; [reflexivity | lia]. Qed.

Lemma deposit_evolves a amount description (now : datetime) :
  evolves a (snd (deposit amount description now a)).
Proof.
  destruct (is_active a) eqn:Hact.
  - destruct (amount <=? 0) eqn:Hamt.
    + rewrite deposit_invalid by assumption. apply evolves_refl.
    + rewrite deposit_ok by assumption. apply evolves_after_record.
  - rewrite deposit_inactive by assumption. apply evolves_refl.
Qed.

Lemma withdraw_evolves a amount description (now : datetime) :
  evolves a (snd (withdraw amount description now a)).
Proof.
  destruct (is_active a) eqn:Hact.
  - destruct (amount <=? 0) eqn:Hamt.
    + rewrite withdraw_invalid by assumption. apply evolves_refl.
    + destruct (amount >? balance a) eqn:Hgt.
      * rewrite withdraw_insufficient by assumption. apply evolves_refl.
      * rewrite withdraw_ok by assumption. apply evolves_after_record.
  - rewrite withdraw_inactive by assumption. apply evolves_refl.
Qed.

Lemma set_is_active_evolves a flag : evolves a (set_is_active flag a).
Proof. split; cbn; [reflexivity | lia]. Qed.

(** *** Keys *)

Lemma ids_invariant_with_account self ref a a' :
  ids_invariant self ->
  accounts self !! ref = Some a ->
  evolves a a' ->
  ids_invariant (with_account ref a' self).
Proof.
  intros [Hc Hkeys] Ha [Hid _]. split; [exact Hc |].
  intros r x. cbn. rewrite lookup_insert.
  destruct (decide (ref = r)) as [<- | Hne]; [| apply Hkeys].
  intros [= <-]. destruct (Hkeys _ _ Ha) as [Hida Hk].
  split; [congruence | exact Hk].
Qed.

Lemma ids_invariant_call {X} self ref
    (method : M (BankError A) (BankAccount A) X) :
  (forall a, evolves a (snd (method a))) ->
  ids_invariant self ->
  ids_invariant (snd (call ref method self)).
Proof.
  intros Hm Hself. destruct (accounts self !! ref) as [a |] eqn:Ha.
  - rewrite (call_found _ _ _ _ Ha). cbn [snd].
    apply ids_invariant_with_account with (a := a); auto.
  - rewrite (call_missing _ _ _ Ha). exact Hself.
Qed.

Lemma ids_invariant_run op self :
  ids_invariant self -> ids_invariant (run op self).
Proof.
  intros Hself.
  destruct op as [owner d now now_txn | ref0 amount description now
                 | ref0 amount description now
                 | from_id to_id amount description now_w now_d
                 | ref0 flag]; cbn [run].
  - destruct (d <? 0) eqn:Hneg.
    + rewrite create_account_rejected by assumption. exact Hself.
    + rewrite create_account_ok by assumption. cbn [snd].
      destruct Hself as [Hc Hkeys]. split; cbn; [lia |].
      intros r x. rewrite lookup_insert.
      destruct (decide (_ = r)) as [<- | Hne].
      * intros [= <-]. split; [reflexivity |].
        exists (_account_counter self + 1)%Z. split; [lia | reflexivity].
      * intros Hx. destruct (Hkeys _ _ Hx) as [Hid (k & Hk & ->)].
        split; [exact Hid |]. exists k. split; [lia | reflexivity].
  - apply ids_invariant_call; [intros a; apply deposit_evolves | exact Hself].
  - apply ids_invariant_call; [intros a; apply withdraw_evolves | exact Hself].
  - destruct (transfer_leaves self from_id to_id amount description
                now_w now_d) as [-> | (a & dw & dd & Ha & [-> | (b & Hb & ->)])].
    + exact Hself.
    + apply ids_invariant_with_account with (a := a);
        auto using withdraw_evolves.
    + apply ids_invariant_with_account with (a := b);
        auto using deposit_evolves.
      apply ids_invariant_with_account with (a := a);
        auto using withdraw_evolves.
  - apply ids_invariant_call;
      [intros a; apply set_is_active_evolves | exact Hself].
Qed.

Lemma reachable_ids_invariant self : reachable self -> ids_invariant self.
Proof.
  induction 1 as [| op self _ IH]; [| apply ids_invariant_run, IH].
  split; cbn; [lia |]. intros ref a. rewrite lookup_empty. discriminate.
Qed.

(** The id [create_account] generates next is not taken. *)
Lemma next_account_id_fresh self :
  ids_invariant self ->
  accounts self !! ("ACC-" +:+ format_d 6 (_account_counter self + 1)%Z)
  = None.
Proof.
  intros [Hc Hkeys].
  destruct (accounts self !! _) as [a |] eqn:Ha; [| reflexivity].
  destruct (Hkeys _ _ Ha) as [_ (k & Hk & Heq)].
  apply string_app_inv_head, format_d_inj in Heq; lia.
Qed.

(** *** The counter never goes down *)

Lemma counters_grow_refl self : counters_grow self self.
Proof. intros ref a Ha. exists a. split; [exact Ha | lia]. Qed.

Lemma counters_grow_with_account self self1 ref x y :
  counters_grow self self1 ->
  accounts self1 !! ref = Some x ->
  evolves x y ->
  counters_grow self (with_account ref y self1).
Proof.
  intros Hgrow Hx [_ Hle] r a Ha.
  destruct (Hgrow _ _ Ha) as (a1 & Ha1 & Hle1). cbn.
  rewrite lookup_insert. destruct (decide (ref = r)) as [<- | Hne].
  - exists y. split; [reflexivity |]. rewrite Hx in Ha1.
    injection Ha1 as <-. lia.
  - exists a1. split; [exact Ha1 | exact Hle1].
Qed.

Lemma counters_grow_call {X} self ref
    (method : M (BankError A) (BankAccount A) X) :
  (forall a, evolves a (snd (method a))) ->
  counters_grow self (snd (call ref method self)).
Proof.
  intros Hm. destruct (accounts self !! ref) as [a |] eqn:Ha.
  - rewrite (call_found _ _ _ _ Ha). cbn [snd].
    apply counters_grow_with_account with (x := a);
      auto using counters_grow_refl.
  - rewrite (call_missing _ _ _ Ha). apply counters_grow_refl.
Qed.

Lemma counters_grow_run op self :
  ids_invariant self -> counters_grow self (run op self).
Proof.
  intros Hself.
  destruct op as [owner d now now_txn | ref0 amount description now
                 | ref0 amount description now
                 | from_id to_id amount description now_w now_d
                 | ref0 flag]; cbn [run].
  - destruct (d <? 0) eqn:Hneg.
    + rewrite create_account_rejected by assumption. apply counters_grow_refl.
    + rewrite create_account_ok by assumption. cbn [snd].
      intros ref a Ha. exists a. split; [| lia]. cbn.
      rewrite lookup_insert_ne; [exact Ha |].
      intros <-. rewrite next_account_id_fresh in Ha by assumption.
      discriminate.
  - apply counters_grow_call. intros a. apply deposit_evolves.
  - apply counters_grow_call. intros a. apply withdraw_evolves.
  - destruct (transfer_leaves self from_id to_id amount description
                now_w now_d) as [-> | (a & dw & dd & Ha & [-> | (b & Hb & ->)])].
    + apply counters_grow_refl.
    + apply counters_grow_with_account with (x := a);
        auto using counters_grow_refl, withdraw_evolves.
    + apply counters_grow_with_account with (x := b);
        auto using deposit_evolves.
      apply counters_grow_with_account with (x := a);
        auto using counters_grow_refl, withdraw_evolves.
  - apply counters_grow_call. intros a. apply set_is_active_evolves.
Qed.

(** *** The counter and the log *)

Lemma minted_id_not_opening (account_id : string) :
  String.eqb (account_id +:+ "-TXN-" +:+ format_d 4 (0 + 1))
    (account_id +:+ "-TXN-0000") = false.
Proof.
  apply String.eqb_neq. intros Heq.
  apply string_app_inv_head in Heq. discriminate.
Qed.

Lemma counter_invariant_after_record a txn :
  id txn = (account_id a +:+ "-TXN-"
            +:+ format_d 4 (_transaction_counter a + 1)%Z)%string ->
  counter_invariant a ->
  counter_invariant (after_record a txn).
Proof.
  unfold counter_invariant, opening_records. cbn. intros Hid.
  rewrite length_app. cbn [length].
  destruct (transactions a) as [| t log] eqn:Hlog; cbn.
  - intros Hinv. assert (Hzero : _transaction_counter a = 0%Z) by lia.
    rewrite Hid, Hzero, minted_id_not_opening. reflexivity.
  - intros Hinv. lia.
Qed.

Lemma counter_invariant_opened account_id owner initial_deposit
    (now now_txn : datetime) :
  counter_invariant
    (opened_account account_id owner initial_deposit now now_txn).
Proof.
  unfold counter_invariant, opening_records. cbn.
  destruct (initial_deposit >? 0); cbn; [| reflexivity].
  rewrite String.eqb_refl. reflexivity.
Qed.

Lemma counter_invariant_deposit a amount description (now : datetime) :
  counter_invariant a ->
  counter_invariant (snd (deposit amount description now a)).
Proof.
  intros Ha. destruct (is_active a) eqn:Hact.
  - destruct (amount <=? 0) eqn:Hamt.
    + rewrite deposit_invalid by assumption. exact Ha.
    + rewrite deposit_ok by assumption.
      apply counter_invariant_after_record; [reflexivity | exact Ha].
  - rewrite deposit_inactive by assumption. exact Ha.
Qed.

Lemma counter_invariant_withdraw a amount description (now : datetime) :
  counter_invariant a ->
  counter_invariant (snd (withdraw amount description now a)).
Proof.
  intros Ha. destruct (is_active a) eqn:Hact.
  - destruct (amount <=? 0) eqn:Hamt.
    + rewrite withdraw_invalid by assumption. exact Ha.
    + destruct (amount >? balance a) eqn:Hgt.
      * rewrite withdraw_insufficient by assumption. exact Ha.
      * rewrite withdraw_ok by assumption.
        apply counter_invariant_after_record; [reflexivity | exact Ha].
  - rewrite withdraw_inactive by assumption. exact Ha.
Qed.

(** C8, as the code has it.  In every reachable ledger the log of an account
    is as long as its counter, plus one when the log starts with the opening
    record [TXN-0000] that [create_account] writes for a positive initial
    deposit without touching the counter; and no operation loses an account
    or lowers its counter. *)
Theorem transaction_counter_counts_minted_records self :
  reachable self ->
  (forall ref a,
      accounts self !! ref = Some a ->
      Z.of_nat (length (transactions a))
      = (_transaction_counter a + opening_records a)%Z)
  /\ (forall op, counters_grow self (run op self)).
Proof.
  intros Hreach. split.
  - apply (reachable_accounts counter_invariant); try assumption.
    + intros; apply counter_invariant_opened.
    + apply counter_invariant_deposit.
    + apply counter_invariant_withdraw.
    + intros a flag Ha. exact Ha.
  - intros op. apply counters_grow_run, reachable_ids_invariant, Hreach.
Qed.

End TransactionCounter.

Lemma transaction_counter_counts_minted_records_witness :
  Z.of_nat (length (BankWithErrors.transactions
                      BankWithErrors.alice_after_transfer))
  = 1 + 1
  /\ BankWithErrors._transaction_counter BankWithErrors.alice_after_transfer
     = 1
  /\ BankWithErrors.opening_records BankWithErrors.alice_after_transfer = 1.
Proof.
  pose proof (proj1 (transaction_counter_counts_minted_records
                       BankWithErrors.demo_ledger_after_transfer
                       demo_ledger_after_transfer_reachable)
                "ACC-000001" BankWithErrors.alice_after_transfer
                ltac:(vm_compute; reflexivity)) as Hlen.
  split; [exact Hlen | split; reflexivity].
Defined.

(** C8 as stated fails on the account [create_account] opens
    with a positive deposit: the ledger is reachable, the log holds the
    opening record, and the counter is still zero. *)
Lemma transaction_counter_misses_opening_record :
  BankWithErrors.reachable BankWithErrors.charlie_ledger
  /\ BankWithErrors.accounts BankWithErrors.charlie_ledger !! "ACC-000001"
     = Some BankWithErrors.charlie
  /\ length (BankWithErrors.transactions BankWithErrors.charlie) = 1%nat
  /\ BankWithErrors._transaction_counter BankWithErrors.charlie = 0
  /\ ~ BankWithErrors.counter_counts_log BankWithErrors.charlie.
Proof.
  split; [apply BankWithErrors.reachable_run, BankWithErrors.reachable_new |].
  split; [vm_compute; reflexivity |].
  split; [reflexivity |]. split; [reflexivity |].
  unfold BankWithErrors.counter_counts_log. cbn. discriminate.
Qed.

(** ** Rejected withdrawals and deposits *)

Section Rejections.
Import BankWithErrors.
Context {A : Type} `{ExactAmount A}.
Local Open Scope amount_scope.

Lemma withdraw_above_balance (self : BankAccount A) (amount : A)
    (description : option string) (now : datetime) :
  is_active self = true ->
  (0 <=? balance self) = true ->
  (amount >? balance self) = true ->
  withdraw amount description now self
  = (inl (InsufficientFundsError (balance self) amount), self).
Proof.
  intros Hact Hbal Hgt.
  apply withdraw_insufficient;
    [exact Hact | exact (num_exceeds_positive _ _ Hbal Hgt) | exact Hgt].
Qed.

(** C2.  On an active account of a reachable ledger, [withdraw] of an amount
    above the balance raises [InsufficientFundsError] carrying the balance,
    the amount and the shortfall [amount - balance], and the account it
    leaves behind is the account it found: balance, log and counter are
    unchanged.  (What the proof takes from the ledger is that the balance is
    not negative: [withdraw_above_balance].) *)
Theorem withdraw_insufficient_funds (ledger : AccountManager A)
    (ref : string) (self : BankAccount A) (amount : A)
    (description : option string) (now : datetime) :
  reachable ledger ->
  accounts ledger !! ref = Some self ->
  is_active self = true ->
  (amount >? balance self) = true ->
  withdraw amount description now self
  = (inl (InsufficientFundsError_ (balance self) amount
            (amount - balance self)),
     self).
Proof.
  intros Hreach Hself Hact Hgt.
  apply withdraw_above_balance; [exact Hact | | exact Hgt].
  apply (reachable_balance_invariant ledger Hreach ref self Hself).
Qed.

End Rejections.

Lemma charlie_ledger_reachable :
  BankWithErrors.reachable BankWithErrors.charlie_ledger.
Proof. apply BankWithErrors.reachable_run, BankWithErrors.reachable_new. Qed.

Lemma withdraw_insufficient_funds_witness :
  BankWithErrors.withdraw 500 None 7 BankWithErrors.charlie
  = (inl (BankWithErrors.InsufficientFundsError_ 100 500 400),
     BankWithErrors.charlie).
Proof.
  exact (withdraw_insufficient_funds BankWithErrors.charlie_ledger
           "ACC-000001" BankWithErrors.charlie 500 None 7
           charlie_ledger_reachable ltac:(vm_compute; reflexivity)
           eq_refl eq_refl).
Defined.

(** ** Amounts that are not positive *)

Section NonPositiveAmounts.
Context {A : Type} `{Amount A}.
Local Open Scope amount_scope.

Lemma persistent_deposit_invalid (self : PersistentBank.BankAccount A)
    (amount : A) (description : option string) (now : string) :
  (amount <=? 0) = true ->
  PersistentBank.deposit amount description now self
  = (inl (PersistentBank.NegativeAmountError amount), self).
Proof. intros Hamt. unfold PersistentBank.deposit. rewrite Hamt. reflexivity. Qed.

Lemma persistent_withdraw_invalid (self : PersistentBank.BankAccount A)
    (amount : A) (description : option string) (now : string) :
  (amount <=? 0) = true ->
  PersistentBank.withdraw amount description now self
  = (inl (PersistentBank.NegativeAmountError amount), self).
Proof. intros Hamt. unfold PersistentBank.withdraw. rewrite Hamt. reflexivity. Qed.

(** C7, as the code has it.  For an amount that is not positive, [deposit]
    and [withdraw] raise [NegativeAmountError] and leave the account as it
    was, on every account of [persistent_bank.py] and on every active
    account of [bank_with_errors.py]; on an inactive account of the latter
    the activity check comes first, both raise [AccountInactiveError], and
    the account is left as it was all the same. *)
Theorem nonpositive_amount_rejected (amount : A) :
  (amount <=? 0) = true ->
  (forall (self : BankWithErrors.BankAccount A) description now,
      BankWithErrors.is_active self = true ->
      BankWithErrors.deposit amount description now self
      = (inl (BankWithErrors.NegativeAmountError amount "deposit"), self)
      /\ BankWithErrors.withdraw amount description now self
         = (inl (BankWithErrors.NegativeAmountError amount "withdrawal"),
            self))
  /\ (forall (self : BankWithErrors.BankAccount A) description now,
         BankWithErrors.is_active self = false ->
         BankWithErrors.deposit amount description now self
         = (inl (BankWithErrors.AccountInactiveError
                   (BankWithErrors.account_id self)), self)
         /\ BankWithErrors.withdraw amount description now self
            = (inl (BankWithErrors.AccountInactiveError
                      (BankWithErrors.account_id self)), self))
  /\ (forall (self : PersistentBank.BankAccount A) description now,
         PersistentBank.deposit amount description now self
         = (inl (PersistentBank.NegativeAmountError amount), self)
         /\ PersistentBank.withdraw amount description now self
            = (inl (PersistentBank.NegativeAmountError amount), self)).
Proof.
  intros Hamt. repeat split.
  - apply deposit_invalid; assumption.
  - apply withdraw_invalid; assumption.
  - apply deposit_inactive; assumption.
  - apply withdraw_inactive; assumption.
  - apply persistent_deposit_invalid; assumption.
  - apply persistent_withdraw_invalid; assumption.
Qed.

End NonPositiveAmounts.

Lemma nonpositive_amount_rejected_witness :
  BankWithErrors.deposit (-50) None 7 BankWithErrors.charlie
  = (inl (BankWithErrors.NegativeAmountError (-50) "deposit"),
     BankWithErrors.charlie)
  /\ BankWithErrors.withdraw (-50) None 7 BankWithErrors.charlie
     = (inl (BankWithErrors.NegativeAmountError (-50) "withdrawal"),
        BankWithErrors.charlie).
Proof.
  exact (proj1 (nonpositive_amount_rejected (-50) eq_refl)
           BankWithErrors.charlie None 7 eq_refl).
Defined.

(** C7 as stated fails on an inactive account of
    [bank_with_errors.py]: a deposit of -50 raises [AccountInactiveError],
    which is not [NegativeAmountError]. *)
Lemma nonpositive_amount_on_inactive_account :
  (-50 <=? 0)%amt = true
  /\ BankWithErrors.reachable BankWithErrors.charlie_inactive_ledger
  /\ BankWithErrors.accounts BankWithErrors.charlie_inactive_ledger
     !! "ACC-000001" = Some BankWithErrors.charlie_inactive
  /\ fst (BankWithErrors.deposit (-50) None 7 BankWithErrors.charlie_inactive)
     = inl (BankWithErrors.AccountInactiveError "ACC-000001")
  /\ ~ (exists operation,
          fst (BankWithErrors.deposit (-50) None 7
                 BankWithErrors.charlie_inactive)
          = inl (BankWithErrors.NegativeAmountError (-50) operation)).
Proof.
  split; [reflexivity |].
  split; [do 3 apply BankWithErrors.reachable_run;
          apply BankWithErrors.reachable_new |].
  split; [vm_compute; reflexivity |].
  split; [reflexivity |]. intros [operation Heq]. discriminate Heq.
Qed.

(** ** Transfers *)

Section Transfers.
Import BankWithErrors.
Context {A : Type} `{ExactAmount A}.
Local Open Scope amount_scope.

Implicit Types (self : AccountManager A) (a b : BankAccount A) (amount : A)
  (description : option string).

Lemma transfer_above_balance self from_id to_id amount description
    (now_withdrawal now_deposit : datetime) a b :
  accounts self !! from_id = Some a ->
  accounts self !! to_id = Some b ->
  is_active a = true ->
  (0 <=? balance a) = true ->
  (amount >? balance a) = true ->
  transfer from_id to_id amount description now_withdrawal now_deposit self
  = (inl (InsufficientFundsError (balance a) amount), self).
Proof.
  intros Ha Hb Hact Hbal Hgt.
  rewrite (transfer_found _ _ _ _ _ _ _ _ _ Ha Hb). cbv zeta.
  rewrite withdraw_above_balance by assumption.
  rewrite with_account_same by assumption. reflexivity.
Qed.

(** C6.  In a reachable ledger, a transfer between two active accounts of
    more than the source holds raises [InsufficientFundsError] with the
    source's balance, the amount and the shortfall, and the ledger it leaves
    behind is the ledger it found: neither account has changed.  (With a
    balance of 800 and an amount of 5000 the shortfall is 4200: see the
    witness.) *)
Theorem transfer_insufficient_funds self from_id to_id amount description
    (now_withdrawal now_deposit : datetime) a b :
  reachable self ->
  accounts self !! from_id = Some a ->
  accounts self !! to_id = Some b ->
  is_active a = true ->
  is_active b = true ->
  (amount >? balance a) = true ->
  transfer from_id to_id amount description now_withdrawal now_deposit self
  = (inl (InsufficientFundsError_ (balance a) amount (amount - balance a)),
     self).
Proof.
  intros Hreach Ha Hb Hact _ Hgt.
  apply (transfer_above_balance _ _ _ _ _ _ _ a b); try assumption.
  apply (reachable_balance_invariant self Hreach from_id a Ha).
Qed.

(** C5.  A transfer from an active account that holds the amount to an
    inactive account raises [AccountInactiveError] for the destination, from
    the deposit: by then the withdrawal has been made.  The source is left
    with the withdrawal appended and its balance lowered by the amount, the
    destination and every other account are as they were. *)
Theorem transfer_to_inactive_account self from_id to_id amount description
    (now_withdrawal now_deposit : datetime) a b :
  accounts self !! from_id = Some a ->
  accounts self !! to_id = Some b ->
  is_active a = true ->
  is_active b = false ->
  (amount >? 0) = true ->
  (amount <=? balance a) = true ->
  exists withdrawal self',
    transfer from_id to_id amount description now_withdrawal now_deposit self
    = (inl (AccountInactiveError (account_id b)), self')
    /\ type withdrawal = WITHDRAWAL
    /\ BankWithErrors.amount withdrawal = amount
    /\ balance_after withdrawal = balance a - amount
    /\ accounts self' !! from_id
       = Some (after_record a withdrawal)
    /\ balance (after_record a withdrawal) = balance a - amount
    /\ transactions (after_record a withdrawal)
       = transactions a ++ [withdrawal]
    /\ accounts self' !! to_id = Some b
    /\ forall other, other <> from_id -> 
         accounts self' !! other = accounts self !! other.
Proof.
  intros Ha Hb Hacta Hactb Hpos Hle.
  assert (Hne : from_id <> to_id) by (intros ->; congruence).
  eexists (withdrawal_record a amount _ now_withdrawal), _.
  rewrite (transfer_found _ _ _ _ _ _ _ _ _ Ha Hb). cbv zeta.
  rewrite withdraw_ok
    by auto using num_positive_not_leb, num_leb_not_gt.
  rewrite decide_False by assumption.
  rewrite deposit_inactive by assumption.
  assert (Hne' : to_id <> from_id) by congruence.
  assert (Hsame : with_account to_id b (with_account from_id
                    (after_record a (withdrawal_record a amount
                       (Some ("Transfer to " +:+ to_id
                              +:+ description_suffix description)%string)
                       now_withdrawal)) self)
                  = with_account from_id
                      (after_record a (withdrawal_record a amount
                         (Some ("Transfer to " +:+ to_id
                                +:+ description_suffix description)%string)
                         now_withdrawal)) self).
  { apply with_account_same. cbn. rewrite lookup_insert_ne by assumption.
    exact Hb. }
  rewrite Hsame. split; [reflexivity |].
  repeat split; cbn.
  - apply lookup_insert_eq.
  - rewrite lookup_insert_ne by assumption. exact Hb.
  - intros other Hother. apply lookup_insert_ne. congruence.
Qed.

End Transfers.

Section SelfTransfer.
Import BankWithErrors.
Context {A : Type} `{OrderedAmount A}.
Local Open Scope amount_scope.

Implicit Types (self : AccountManager A) (a : BankAccount A) (amount : A)
  (description : option string).

(** C10, as the code has it.  A transfer from an active account to itself,
    of a positive amount the account holds, returns a withdrawal with balance
    [b - amount] and then a deposit with balance [(b - amount) + amount],
    appends those two records to the log in that order, and leaves the
    balance at [(b - amount) + amount]: the deposit is made on the account the
    withdrawal left.  This holds of the source's floats, where the sum can
    differ from [b] by a rounding; for amounts with exact arithmetic the sum
    is [b], as the claim has it. *)
Theorem transfer_to_self self account_id amount description
    (now_withdrawal now_deposit : datetime) a :
  accounts self !! account_id = Some a ->
  is_active a = true ->
  (amount >? 0) = true ->
  (amount <=? balance a) = true ->
  exists withdrawal deposit_ a',
    transfer account_id account_id amount description
      now_withdrawal now_deposit self
    = (inr (withdrawal, deposit_), with_account account_id a' self)
    /\ type withdrawal = WITHDRAWAL
    /\ balance_after withdrawal = balance a - amount
    /\ type deposit_ = DEPOSIT
    /\ balance_after deposit_ = balance a - amount + amount
    /\ transactions a' = transactions a ++ [withdrawal; deposit_]
    /\ balance a' = balance a - amount + amount
    /\ (ExactAmount A ->
        balance_after deposit_ = balance a /\ balance a' = balance a).
Proof.
  intros Ha Hact Hpos Hle.
  do 3 eexists. split.
  - exact (transfer_to_self_steps _ _ _ _ _ _ a Ha Hact
             (num_ltb_not_leb _ _ Hpos) (num_leb_not_ltb _ _ Hle)).
  - cbn. rewrite <- app_assoc.
    do 6 (split; [reflexivity |]).
    intros Hexact. split; apply num_sub_add.
Qed.

End SelfTransfer.

Section TransferScenario.
Import BankWithErrors.

(** C4.  Between two active accounts holding 1000 and 500, a transfer of 200
    returns the withdrawal and then the deposit, the withdrawal with balance
    800 and the deposit with balance 700, and leaves the source with 800 and
    the destination with 700. *)
Theorem transfer_scenario (self : AccountManager Z) (from_id to_id : string)
    (description : option string) (now_withdrawal now_deposit : datetime)
    (a b : BankAccount Z) :
  accounts self !! from_id = Some a ->
  accounts self !! to_id = Some b ->
  is_active a = true ->
  is_active b = true ->
  balance a = 1000 ->
  balance b = 500 ->
  exists withdrawal deposit_ self' a' b',
    transfer from_id to_id 200 description now_withdrawal now_deposit self
    = (inr (withdrawal, deposit_), self')
    /\ type withdrawal = WITHDRAWAL
    /\ type deposit_ = DEPOSIT
    /\ balance_after withdrawal = 800
    /\ balance_after deposit_ = 700
    /\ accounts self' !! from_id = Some a'
    /\ balance a' = 800
    /\ accounts self' !! to_id = Some b'
    /\ balance b' = 700.
Proof.
  intros Ha Hb Hacta Hactb Hbala Hbalb.
  assert (Hne : from_id <> to_id) by (intros ->; rewrite Ha in Hb; congruence).
  assert (Hne' : to_id <> from_id) by congruence.
  eexists (withdrawal_record a 200 _ now_withdrawal),
          (deposit_record b 200 _ now_deposit), _, _, _.
  rewrite (transfer_found _ _ _ _ _ _ _ _ _ Ha Hb). cbv zeta.
  rewrite withdraw_ok by (rewrite ?Hbala; auto).
  rewrite decide_False by assumption.
  rewrite deposit_ok by auto.
  split; [reflexivity |]. cbn. rewrite Hbala, Hbalb.
  repeat split.
  - rewrite lookup_insert_ne by assumption. apply lookup_insert_eq.
  - cbn. rewrite Hbala. reflexivity.
  - apply lookup_insert_eq.
  - cbn. rewrite Hbalb. reflexivity.
Qed.

Lemma transfer_scenario_witness :
  exists withdrawal deposit_ self' a' b',
    transfer "ACC-000001" "ACC-000002" 200 (Some "Rent payment"%string) 5 6
      demo_ledger
    = (inr (withdrawal, deposit_), self')
    /\ type withdrawal = WITHDRAWAL
    /\ type deposit_ = DEPOSIT
    /\ balance_after withdrawal = 800
    /\ balance_after deposit_ = 700
    /\ accounts self' !! "ACC-000001" = Some a'
    /\ balance a' = 800
    /\ accounts self' !! "ACC-000002" = Some b'
    /\ balance b' = 700.
Proof.
  apply (transfer_scenario demo_ledger "ACC-000001" "ACC-000002"
           (Some "Rent payment"%string) 5 6 alice bob);
    vm_compute; reflexivity.
Defined.

Lemma transfer_insufficient_funds_witness :
  transfer "ACC-000001" "ACC-000002" 5000 None 7 8 demo_ledger_after_transfer
  = (inl (InsufficientFundsError_ 800 5000 4200), demo_ledger_after_transfer).
Proof.
  exact (transfer_insufficient_funds demo_ledger_after_transfer
           "ACC-000001" "ACC-000002" 5000 None 7 8
           alice_after_transfer bob_after_transfer
           demo_ledger_after_transfer_reachable
           ltac:(vm_compute; reflexivity) ltac:(vm_compute; reflexivity)
           eq_refl eq_refl eq_refl).
Defined.

Lemma transfer_to_inactive_account_witness :
  exists withdrawal self',
    transfer "ACC-000002" "ACC-000001" 50 None 7 8 charlie_inactive_ledger
    = (inl (AccountInactiveError "ACC-000001"), self')
    /\ type withdrawal = WITHDRAWAL
    /\ amount withdrawal = 50
    /\ balance_after withdrawal = 250
    /\ accounts self' !! "ACC-000002" = Some (after_record dana withdrawal)
    /\ balance (after_record dana withdrawal) = 250
    /\ transactions (after_record dana withdrawal)
       = transactions dana ++ [withdrawal]
    /\ accounts self' !! "ACC-000001" = Some charlie_inactive
    /\ forall other, other <> "ACC-000002" ->
         accounts self' !! other
         = accounts charlie_inactive_ledger !! other.
Proof.
  exact (transfer_to_inactive_account charlie_inactive_ledger
           "ACC-000002" "ACC-000001" 50 None 7 8 dana charlie_inactive
           ltac:(vm_compute; reflexivity) ltac:(vm_compute; reflexivity)
           eq_refl eq_refl eq_refl eq_refl).
Defined.

End TransferScenario.

(** On floats: Eve holds 250.35 and sends 99.99 to herself.  On [int]:
    Alice holds 1000 and sends 200 to herself. *)
#[warnings="-inexact-float"] Lemma transfer_to_self_witness :
  (exists withdrawal deposit_ a',
      BankWithErrors.transfer "ACC-000001" "ACC-000001" 99.99%float None 3 4
        BankWithErrors.eve_ledger
      = (inr (withdrawal, deposit_),
         BankWithErrors.with_account "ACC-000001" a'
           BankWithErrors.eve_ledger)
      /\ BankWithErrors.balance_after withdrawal = 150.36%float
      /\ BankWithErrors.balance_after deposit_ = 250.35000000000002%float
      /\ BankWithErrors.transactions a'
         = BankWithErrors.transactions BankWithErrors.eve
           ++ [withdrawal; deposit_]
      /\ BankWithErrors.balance a' = 250.35000000000002%float)
  /\ (exists withdrawal deposit_ a',
        BankWithErrors.transfer "ACC-000001" "ACC-000001" 200 None 5 6
          BankWithErrors.demo_ledger
        = (inr (withdrawal, deposit_),
           BankWithErrors.with_account "ACC-000001" a'
             BankWithErrors.demo_ledger)
        /\ BankWithErrors.balance_after withdrawal = 800
        /\ BankWithErrors.balance_after deposit_ = 1000
        /\ BankWithErrors.transactions a'
           = BankWithErrors.transactions BankWithErrors.alice
             ++ [withdrawal; deposit_]
        /\ BankWithErrors.balance a' = 1000).
Proof.
  split.
  - destruct (transfer_to_self BankWithErrors.eve_ledger "ACC-000001"
                (BankWithErrors.amount BankWithErrors.eve_withdrawal)
                None 3 4 BankWithErrors.eve
                ltac:(vm_compute; reflexivity) eq_refl eq_refl eq_refl)
      as (withdrawal & deposit_ & a' & Htransfer & _ & Hw & _ & Hd & Hlog
          & Hbal & _).
    exists withdrawal, deposit_, a'.
    split; [exact Htransfer |]. split; [exact Hw |]. split; [exact Hd |].
    split; [exact Hlog | exact Hbal].
  - destruct (transfer_to_self BankWithErrors.demo_ledger "ACC-000001"
                200 None 5 6 BankWithErrors.alice
                ltac:(vm_compute; reflexivity) eq_refl eq_refl eq_refl)
      as (withdrawal & deposit_ & a' & Htransfer & _ & Hw & _ & _ & Hlog
          & _ & Hexact).
    destruct (Hexact Z_ExactAmount) as [Hd Hbal].
    exists withdrawal, deposit_, a'.
    split; [exact Htransfer |]. split; [exact Hw |]. split; [exact Hd |].
    split; [exact Hlog | exact Hbal].
Defined.

(** C10 as stated fails on the amounts of the source.  Eve's account is
    active and holds 250.35, and 99.99 is positive and not more than that;
    the transfer of 99.99 from her account to itself returns, but the deposit
    carries the balance 250.35000000000002 and that is the balance the
    account is left with: [(250.35 - 99.99) + 99.99] is rounded twice. *)
#[warnings="-inexact-float"] Lemma transfer_to_self_rounds :
  BankWithErrors.accounts BankWithErrors.eve_ledger !! "ACC-000001"
  = Some BankWithErrors.eve
  /\ BankWithErrors.is_active BankWithErrors.eve = true
  /\ BankWithErrors.balance BankWithErrors.eve = 250.35%float
  /\ (0 <? 99.99%float)%amt = true
  /\ (99.99%float <=? BankWithErrors.balance BankWithErrors.eve)%amt = true
  /\ BankWithErrors.transfer "ACC-000001" "ACC-000001" 99.99%float None 3 4
       BankWithErrors.eve_ledger
     = (inr (BankWithErrors.eve_withdrawal, BankWithErrors.eve_deposit),
        BankWithErrors.with_account "ACC-000001"
          BankWithErrors.eve_after_transfer BankWithErrors.eve_ledger)
  /\ BankWithErrors.balance_after BankWithErrors.eve_deposit
     = 250.35000000000002%float
  /\ BankWithErrors.balance BankWithErrors.eve_after_transfer
     = 250.35000000000002%float
  /\ PrimFloat.eqb (BankWithErrors.balance BankWithErrors.eve_after_transfer)
       (BankWithErrors.balance BankWithErrors.eve) = false
  /\ BankWithErrors.balance BankWithErrors.eve_after_transfer
     <> BankWithErrors.balance BankWithErrors.eve.
Proof.
  split; [vm_compute; reflexivity |].
  do 4 (split; [reflexivity |]).
  split.
  { apply (transfer_to_self_steps BankWithErrors.eve_ledger "ACC-000001"
             (BankWithErrors.amount BankWithErrors.eve_withdrawal)
             None 3 4 BankWithErrors.eve);
      vm_compute; reflexivity. }
  do 3 (split; [reflexivity |]).
  intros Heq.
  apply (f_equal (fun x =>
           PrimFloat.eqb x (BankWithErrors.balance BankWithErrors.eve)))
    in Heq.
  vm_compute in Heq. discriminate Heq.
Qed.

(** ** [persistent_bank.py]: the snapshot *)

Section Snapshot.
Import PersistentBank.
Context {A : Type} `{Amount A}.

Lemma TransactionType_round_trip (t : TransactionType) :
  TransactionType_of_value (A := A) (TransactionType_value t) = inr t.
Proof. destruct t; reflexivity. Qed.

Lemma Transaction_round_trip (txn : Transaction A) :
  Transaction_from_dict (Transaction_to_dict txn) = inr txn.
Proof.
  destruct txn as [i t amt bal ts d].
  unfold Transaction_from_dict, Transaction_to_dict. cbn.
  rewrite TransactionType_round_trip. cbn.
  destruct d; reflexivity.
Qed.

Lemma for_each_map {X Y} (to : X -> Y) (from : Y -> Exception A + X)
    (l : list X) :
  (forall x, from (to x) = inr x) -> for_each from (map to l) = inr l.
Proof.
  intros Hrt. induction l as [| x l IH]; cbn; [reflexivity |].
  rewrite Hrt. cbn. rewrite IH. reflexivity.
Qed.

Lemma BankAccount_round_trip (account : BankAccount A) :
  BankAccount_from_dict (BankAccount_to_dict account) = inr account.
Proof.
  destruct account as [aid o bal log created n].
  unfold BankAccount_from_dict, BankAccount_to_dict. cbn.
  rewrite (for_each_map _ _ _ Transaction_round_trip). reflexivity.
Qed.

Lemma loaded_state_snapshot (self : AccountManager A) :
  loaded_state (snapshot self) = inr (accounts self, _account_counter self).
Proof.
  unfold loaded_state, snapshot. cbn.
  rewrite (for_each_map (prod_map (fun aid => aid) BankAccount_to_dict)).
  - cbn. rewrite list_to_map_to_list. reflexivity.
  - intros [aid account]. unfold prod_map. cbn [fst snd]. cbv beta iota.
    rewrite BankAccount_round_trip. reflexivity.
Qed.

(** C3.  A ledger constructed on the file another ledger has just saved to
    is that ledger: the same accounts under the same ids, each with the same
    owner, balance, creation time, log (the same records in the same order,
    field by field) and transaction counter, and the same account counter. *)
Theorem save_load_round_trip (self : AccountManager A)
    (fs : gmap string (file A)) :
  AccountManager_new (data_file self) (snd (snd (save_to_file (self, fs))))
  = inr self.
Proof.
  unfold AccountManager_new, __post_init__, save_to_file, bind, get, modify.
  cbn. rewrite decide_True by (rewrite lookup_insert_eq; eauto).
  unfold load_from_file. cbn. rewrite lookup_insert_eq.
  rewrite loaded_state_snapshot. destruct self; reflexivity.
Qed.

Lemma AccountManager_new_without_file (path : string)
    (fs : gmap string (file A)) :
  fs !! path = None ->
  AccountManager_new path fs
  = inr {| accounts := ∅; data_file := path; _account_counter := 0 |}.
Proof.
  intros Habsent. unfold AccountManager_new, __post_init__, bind, get. cbn.
  rewrite decide_False; [reflexivity |].
  rewrite Habsent. intros [x Hx]. discriminate.
Qed.

(** The snapshot after the first account was opened with 1000: the document
    of the interface, with one record in the log and the counter at 0. *)
Example alice_snapshot :
  snd alice_world !! "accounts.json"
  = Some (JsonText (JObject
      [("accounts", JObject
         [("ACC-000001", JObject
            [("account_id", JString "ACC-000001");
             ("owner", JString "Alice");
             ("balance", JNumber 1000);
             ("transactions", JArray
                [JObject
                   [("id", JString "ACC-000001-TXN-0000");
                    ("type", JString "DEPOSIT");
                    ("amount", JNumber 1000);
                    ("balance_after", JNumber 1000);
                    ("timestamp", JString "2026-01-01T09:00:01");
                    ("description", JString "Initial deposit")]]);
             ("created_at", JString "2026-01-01T09:00:00");
             ("_transaction_counter", JInt 0)])]);
       ("_account_counter", JInt 1)])).
Proof. vm_compute. reflexivity. Qed.

(** The demo run again: the ledger constructed on the file the first run
    left is the ledger the first run ended with. *)
Example demo_resumed :
  AccountManager_new "accounts.json" (snd demo_world) = inr (fst demo_world).
Proof. vm_compute. reflexivity. Qed.

(** C9, as the code has it.  Constructed on a path where no file exists, the
    ledger has no account and its counter is 0, the default of the field (the
    first id generated from it is [ACC-000001]); and [load_from_file] on such
    a path returns and leaves the ledger as it was. *)
Theorem load_without_snapshot (path : string) (fs : gmap string (file A)) :
  fs !! path = None ->
  AccountManager_new path fs
  = inr {| accounts := ∅; data_file := path; _account_counter := 0 |}
  /\ forall self : AccountManager A,
       data_file self = path ->
       load_from_file (self, fs) = (inr tt, (self, fs)).
Proof.
  intros Habsent. split.
  - apply AccountManager_new_without_file, Habsent.
  - intros self <-. unfold load_from_file. rewrite Habsent. reflexivity.
Qed.

End Snapshot.

Lemma load_without_snapshot_witness :
  PersistentBank.AccountManager_new (A := Z) "accounts.json" ∅
  = inr {| PersistentBank.accounts := ∅;
           PersistentBank.data_file := "accounts.json";
           PersistentBank._account_counter := 0 |}.
Proof.
  exact (proj1 (load_without_snapshot "accounts.json" ∅ (lookup_empty _))).
Defined.

(** C9 as stated fails: the ledger constructed where no file
    exists does not have the counter 1. *)
Lemma load_without_snapshot_counter_is_not_one :
  ~ (exists self : PersistentBank.AccountManager Z,
       PersistentBank.AccountManager_new "accounts.json" ∅ = inr self
       /\ PersistentBank.accounts self = ∅
       /\ PersistentBank._account_counter self = 1).
Proof.
  intros (self & Hnew & _ & Hone).
  rewrite AccountManager_new_without_file in Hnew by apply lookup_empty.
  injection Hnew as <-. discriminate Hone.
Qed.

(** * Further properties *)

(** ** [bank_with_errors.py]: what a failed call leaves behind *)

Section FailedCalls.
Import BankWithErrors.
Context {A : Type} `{Amount A}.
Local Open Scope amount_scope.

Implicit Types (self : AccountManager A) (a b : BankAccount A) (amount : A)
  (description : option string).

Lemma deposit_raise_unchanged a amount description (now : datetime) e a' :
  deposit amount description now a = (inl e, a') -> a' = a.
Proof.
  destruct (is_active a) eqn:Hact.
  - destruct (amount <=? 0) eqn:Hamt.
    + rewrite deposit_invalid by assumption. congruence.
    + rewrite deposit_ok by assumption. discriminate.
  - rewrite deposit_inactive by assumption. congruence.
Qed.

Lemma withdraw_raise_unchanged a amount description (now : datetime) e a' :
  withdraw amount description now a = (inl e, a') -> a' = a.
Proof.
  destruct (is_active a) eqn:Hact.
  - destruct (amount <=? 0) eqn:Hamt.
    + rewrite withdraw_invalid by assumption. congruence.
    + destruct (amount >? balance a) eqn:Hgt.
      * rewrite withdraw_insufficient by assumption. congruence.
      * rewrite withdraw_ok by assumption. discriminate.
  - rewrite withdraw_inactive by assumption. congruence.
Qed.

(** X1.  Whatever [deposit] or [withdraw] raises, the account it leaves
    behind is the account it found: no balance change, no record, no number
    of the counter used. *)
Theorem account_call_raises_unchanged a amount description (now : datetime)
    e a' :
  deposit amount description now a = (inl e, a')
  \/ withdraw amount description now a = (inl e, a') ->
  a' = a.
Proof.
  intros [Hd | Hw];
    [eapply deposit_raise_unchanged | eapply withdraw_raise_unchanged];
    eassumption.
Qed.

(** X4.  When [transfer] raises, either the ledger is exactly as it was, or
    the destination is another, inactive account: then the error is its
    [AccountInactiveError] and the only change is the withdrawal made on
    the source. *)
Theorem transfer_raises self from_id to_id amount description
    (now_withdrawal now_deposit : datetime) e self' :
  transfer from_id to_id amount description now_withdrawal now_deposit self
  = (inl e, self') ->
  self' = self
  \/ exists a b,
       accounts self !! from_id = Some a
       /\ accounts self !! to_id = Some b
       /\ from_id <> to_id
       /\ is_active b = false
       /\ e = AccountInactiveError (account_id b)
       /\ self'
          = with_account from_id
              (after_record a
                 (withdrawal_record a amount
                    (Some ("Transfer to " +:+ to_id
                           +:+ description_suffix description)%string)
                    now_withdrawal))
              self.
Proof.
  destruct (accounts self !! from_id) as [a |] eqn:Ha; cycle 1.
  { cbv [transfer bind get_account get]. rewrite Ha. intros [= _ <-]. auto. }
  destruct (accounts self !! to_id) as [b |] eqn:Hb; cycle 1.
  { cbv [transfer bind get_account get]. rewrite Ha. cbv [ret]. rewrite Hb.
    intros [= _ <-]. auto. }
  rewrite (transfer_found _ _ _ _ _ _ _ _ _ Ha Hb). cbv zeta.
  destruct (withdraw _ _ _ a) as [[ew | w] a'] eqn:Hw.
  { intros [= _ <-]. left. apply withdraw_raise_unchanged in Hw as ->.
    apply with_account_same, Ha. }
  assert (Hacta : is_active a = true /\ (amount <=? 0) = false
                  /\ (amount >? balance a) = false).
  { destruct (is_active a) eqn:Hact;
      [| rewrite withdraw_inactive in Hw by assumption; discriminate].
    destruct (amount <=? 0) eqn:Hamt;
      [rewrite withdraw_invalid in Hw by assumption; discriminate |].
    destruct (amount >? balance a) eqn:Hgt;
      [rewrite withdraw_insufficient in Hw by assumption; discriminate |].
    auto. }
  destruct Hacta as (Hact & Hamt & Hgt).
  rewrite withdraw_ok in Hw by assumption. injection Hw as <- <-.
  destruct (decide (from_id = to_id)) as [<- | Hne].
  { rewrite deposit_ok by assumption. discriminate. }
  destruct (is_active b) eqn:Hactb.
  { rewrite deposit_ok by assumption. discriminate. }
  rewrite deposit_inactive by assumption. intros [= <- <-].
  right. exists a, b. repeat split; try assumption.
  apply with_account_same. cbn. rewrite lookup_insert_ne by assumption.
  exact Hb.
Qed.

(** X5.  An id the ledger does not hold makes [get_account] raise
    [AccountNotFoundError] for it and leaves the ledger as it was, without
    an entry for the id; [transfer] raises it for the source first, then for
    the destination, before anything is withdrawn. *)
Theorem unknown_account_raises self account_id :
  accounts self !! account_id = None ->
  get_account account_id self = (inl (AccountNotFoundError account_id), self)
  /\ (forall to_id amount description (now_w now_d : datetime),
        transfer account_id to_id amount description now_w now_d self
        = (inl (AccountNotFoundError account_id), self))
  /\ (forall from_id amount description (now_w now_d : datetime),
        is_Some (accounts self !! from_id) ->
        transfer from_id account_id amount description now_w now_d self
        = (inl (AccountNotFoundError account_id), self)).
Proof.
  intros Hnone. repeat split.
  - cbv [get_account bind get]. rewrite Hnone. reflexivity.
  - intros. cbv [transfer get_account bind get]. rewrite Hnone. reflexivity.
  - intros from_id amount description now_w now_d [a Ha].
    cbv [transfer get_account bind get]. rewrite Ha. cbv [ret].
    rewrite Hnone. reflexivity.
Qed.

End FailedCalls.

Lemma account_call_raises_unchanged_witness :
  snd (BankWithErrors.withdraw 500 None 7 BankWithErrors.charlie)
  = BankWithErrors.charlie.
Proof.
  apply (account_call_raises_unchanged BankWithErrors.charlie 500 None 7
           (BankWithErrors.InsufficientFundsError_ 100 500 400)).
  right. reflexivity.
Defined.

Lemma transfer_raises_witness :
  let self' :=
    snd (BankWithErrors.transfer "ACC-000002" "ACC-000001" 50 None 7 8
           BankWithErrors.charlie_inactive_ledger) in
  self' = BankWithErrors.charlie_inactive_ledger
  \/ exists a b,
       BankWithErrors.accounts BankWithErrors.charlie_inactive_ledger
         !! "ACC-000002" = Some a
       /\ BankWithErrors.accounts BankWithErrors.charlie_inactive_ledger
            !! "ACC-000001" = Some b
       /\ "ACC-000002" <> "ACC-000001"
       /\ BankWithErrors.is_active b = false
       /\ BankWithErrors.AccountInactiveError (A := Z) "ACC-000001"
          = BankWithErrors.AccountInactiveError (BankWithErrors.account_id b)
       /\ self'
          = BankWithErrors.with_account "ACC-000002"
              (BankWithErrors.after_record a
                 (BankWithErrors.withdrawal_record a 50
                    (Some "Transfer to ACC-000001"%string) 7))
              BankWithErrors.charlie_inactive_ledger.
Proof.
  apply (transfer_raises BankWithErrors.charlie_inactive_ledger
           "ACC-000002" "ACC-000001" 50 None 7 8
           (BankWithErrors.AccountInactiveError "ACC-000001")).
  vm_compute. reflexivity.
Defined.

Lemma unknown_account_raises_witness :
  BankWithErrors.get_account "INVALID-123" BankWithErrors.charlie_ledger
  = (inl (BankWithErrors.AccountNotFoundError "INVALID-123"),
     BankWithErrors.charlie_ledger).
Proof.
  exact (proj1 (unknown_account_raises BankWithErrors.charlie_ledger
                  "INVALID-123" ltac:(vm_compute; reflexivity))).
Defined.

(** ** [bank_with_errors.py]: successful calls *)

Section SuccessfulCalls.
Import BankWithErrors.
Context {A : Type} `{ExactAmount A}.
Local Open Scope amount_scope.

Implicit Types (self : AccountManager A) (a b : BankAccount A) (amount : A)
  (description : option string).

Lemma num_leb_add_nonneg (b x : A) : (0 <=? b) = true -> (x <=? b + x) = true.
Proof.
  intros Hb. pose proof (num_leb_add_r 0 b x Hb) as Hm.
  rewrite num_add_zero_l in Hm. exact Hm.
Qed.

(** X2.  On an active account whose balance is not negative, a deposit of a
    positive amount followed by a withdrawal of the same amount both
    succeed; the balance is back where it was, the log has the two records
    at its end and the counter has moved by two. *)
Theorem deposit_then_withdraw a amount description description'
    (now now' : datetime) :
  is_active a = true ->
  (0 <=? balance a) = true ->
  (amount >? 0) = true ->
  exists d w a1 a2,
    deposit amount description now a = (inr d, a1)
    /\ withdraw amount description' now' a1 = (inr w, a2)
    /\ balance_after d = balance a + amount
    /\ balance_after w = balance a
    /\ balance a2 = balance a
    /\ transactions a2 = transactions a ++ [d; w]
    /\ _transaction_counter a2 = (_transaction_counter a + 2)%Z.
Proof.
  intros Hact Hbal Hpos.
  pose proof (num_positive_not_leb _ Hpos) as Hamt.
  do 4 eexists. split; [apply deposit_ok; assumption |].
  split.
  { apply withdraw_ok; cbn; try assumption.
    apply num_leb_not_gt, num_leb_add_nonneg, Hbal. }
  cbn. rewrite num_add_sub, <- app_assoc.
  repeat split; try reflexivity. lia.
Qed.

(** X3.  A transfer of a positive amount between two different active
    accounts, the source holding the amount, returns the two records and
    changes exactly this: the source has the withdrawal at the end of its
    log and its balance lowered by the amount, the destination has the
    deposit at the end of its log and its balance raised by the amount.  The
    descriptions name the other account, followed by the caller's
    description when it is not empty. *)
Theorem transfer_succeeds self from_id to_id amount description
    (now_withdrawal now_deposit : datetime) a b :
  accounts self !! from_id = Some a ->
  accounts self !! to_id = Some b ->
  from_id <> to_id ->
  is_active a = true ->
  is_active b = true ->
  (amount >? 0) = true ->
  (amount <=? balance a) = true ->
  exists w d self',
    transfer from_id to_id amount description now_withdrawal now_deposit self
    = (inr (w, d), self')
    /\ accounts self' !! from_id = Some (after_record a w)
    /\ accounts self' !! to_id = Some (after_record b d)
    /\ (forall other, other <> from_id -> other <> to_id ->
          accounts self' !! other = accounts self !! other)
    /\ _account_counter self' = _account_counter self
    /\ type w = WITHDRAWAL /\ type d = DEPOSIT
    /\ BankWithErrors.amount w = amount /\ BankWithErrors.amount d = amount
    /\ balance_after w = balance a - amount
    /\ balance_after d = balance b + amount
    /\ BankWithErrors.description w
       = Some ("Transfer to " +:+ to_id
               +:+ description_suffix description)%string
    /\ BankWithErrors.description d
       = Some ("Transfer from " +:+ from_id
               +:+ description_suffix description)%string.
Proof.
  intros Ha Hb Hne Hacta Hactb Hpos Hle.
  pose proof (num_positive_not_leb _ Hpos) as Hamt.
  eexists (withdrawal_record a amount _ now_withdrawal),
          (deposit_record b amount _ now_deposit), _.
  rewrite (transfer_found _ _ _ _ _ _ _ _ _ Ha Hb). cbv zeta.
  rewrite withdraw_ok by auto using num_leb_not_gt.
  rewrite decide_False by assumption.
  rewrite deposit_ok by assumption.
  split; [reflexivity |]. cbn.
  repeat split.
  - rewrite lookup_insert_ne by congruence. apply lookup_insert_eq.
  - apply lookup_insert_eq.
  - intros other Hof Hot. rewrite !lookup_insert_ne by congruence.
    reflexivity.
Qed.

End SuccessfulCalls.

Lemma deposit_then_withdraw_witness :
  exists d w a1 a2,
    BankWithErrors.deposit 250 (Some "Salary bonus"%string) 5
      BankWithErrors.alice = (inr d, a1)
    /\ BankWithErrors.withdraw 250 None 6 a1 = (inr w, a2)
    /\ BankWithErrors.balance_after d = 1000 + 250
    /\ BankWithErrors.balance_after w = 1000
    /\ BankWithErrors.balance a2 = 1000
    /\ BankWithErrors.transactions a2
       = BankWithErrors.transactions BankWithErrors.alice ++ [d; w]
    /\ BankWithErrors._transaction_counter a2 = 0 + 2.
Proof.
  exact (deposit_then_withdraw BankWithErrors.alice 250
           (Some "Salary bonus"%string) None 5 6 eq_refl eq_refl eq_refl).
Defined.

Lemma transfer_succeeds_witness :
  exists w d self',
    BankWithErrors.transfer "ACC-000001" "ACC-000002" 200
      (Some "Rent payment"%string) 5 6 BankWithErrors.demo_ledger
    = (inr (w, d), self')
    /\ BankWithErrors.balance_after w = 800
    /\ BankWithErrors.balance_after d = 700
    /\ BankWithErrors.description w
       = Some "Transfer to ACC-000002: Rent payment"%string
    /\ BankWithErrors.description d
       = Some "Transfer from ACC-000001: Rent payment"%string.
Proof.
  destruct (transfer_succeeds BankWithErrors.demo_ledger
              "ACC-000001" "ACC-000002" 200 (Some "Rent payment"%string) 5 6
              BankWithErrors.alice BankWithErrors.bob
              ltac:(vm_compute; reflexivity) ltac:(vm_compute; reflexivity)
              ltac:(discriminate) eq_refl eq_refl eq_refl eq_refl)
    as (w & d & self' & Ht & _ & _ & _ & _ & _ & _ & _ & _ & Hw & Hd & Hdw & Hdd).
  exists w, d, self'. repeat split; assumption.
Defined.

(** ** [bank_with_errors.py]: account ids *)

Section AccountIds.
Import BankWithErrors.
Context {A : Type} `{Amount A}.
Local Open Scope amount_scope.

Implicit Types (self : AccountManager A) (a b : BankAccount A) (amount : A)
  (description : option string).

Lemma with_account_size self ref a a' :
  accounts self !! ref = Some a ->
  size (accounts (with_account ref a' self)) = size (accounts self).
Proof. intros Ha. cbn. apply map_size_insert_Some. eauto. Qed.

Lemma call_size {X} self ref (method : M (BankError A) (BankAccount A) X) :
  size (accounts (snd (call ref method self))) = size (accounts self)
  /\ _account_counter (snd (call ref method self)) = _account_counter self.
Proof.
  destruct (accounts self !! ref) as [a |] eqn:Ha.
  - rewrite (call_found _ _ _ _ Ha). cbn [snd].
    split; [eapply with_account_size; eassumption | reflexivity].
  - rewrite (call_missing _ _ _ Ha). auto.
Qed.

Lemma run_size op self :
  ids_invariant self ->
  Z.of_nat (size (accounts self)) = _account_counter self ->
  Z.of_nat (size (accounts (run op self))) = _account_counter (run op self).
Proof.
  intros Hids Hsize.
  destruct op as [owner d now now_txn | ref0 amount description now
                 | ref0 amount description now
                 | from_id to_id amount description now_w now_d
                 | ref0 flag]; cbn [run].
  - destruct (d <? 0) eqn:Hneg.
    + rewrite create_account_rejected by assumption. exact Hsize.
    + rewrite create_account_ok by assumption. cbn.
      rewrite map_size_insert_None by (apply next_account_id_fresh, Hids).
      lia.
  - destruct (call_size self ref0 (deposit amount description now))
      as [-> ->]. exact Hsize.
  - destruct (call_size self ref0 (withdraw amount description now))
      as [-> ->]. exact Hsize.
  - destruct (transfer_leaves self from_id to_id amount description
                now_w now_d) as [-> | (a & dw & dd & Ha & [-> | (b & Hb & ->)])].
    + exact Hsize.
    + rewrite (with_account_size _ _ _ _ Ha). exact Hsize.
    + rewrite (with_account_size _ _ _ _ Hb), (with_account_size _ _ _ _ Ha).
      exact Hsize.
  - destruct (call_size self ref0 (modify (set_is_active flag)))
      as [-> ->]. exact Hsize.
Qed.

Lemma reachable_size self :
  reachable self -> Z.of_nat (size (accounts self)) = _account_counter self.
Proof.
  induction 1 as [| op self Hreach IH]; [reflexivity |].
  apply run_size; [apply reachable_ids_invariant, Hreach | exact IH].
Qed.

(** X8.  In every reachable ledger each account is stored under its own
    [account_id], the key is the id generated for one of the numbers up to
    the counter, and the counter is the number of accounts. *)
Theorem accounts_keyed_by_id self :
  reachable self ->
  (forall ref a,
      accounts self !! ref = Some a ->
      account_id a = ref
      /\ exists k, (1 <= k <= _account_counter self)%Z
                   /\ ref = ("ACC-" +:+ format_d 6 k)%string)
  /\ Z.of_nat (size (accounts self)) = _account_counter self.
Proof.
  intros Hreach. split; [| apply reachable_size, Hreach].
  apply reachable_ids_invariant, Hreach.
Qed.

(** X6.  In a reachable ledger [create_account] with a negative initial
    deposit raises [NegativeAmountError] and changes nothing, the counter
    included; otherwise it returns an active account holding the initial
    deposit, registered under an id no account had, [ACC-] and the next
    number on six digits, with every other account as it was, and
    [get_account] finds it. *)
Theorem create_account_outcome self owner initial_deposit
    (now now_txn : datetime) :
  reachable self ->
  ((initial_deposit <? 0) = true ->
   create_account owner initial_deposit now now_txn self
   = (inl (NegativeAmountError initial_deposit "initial deposit"), self))
  /\ ((initial_deposit <? 0) = false ->
      exists account self',
        create_account owner initial_deposit now now_txn self
        = (inr account, self')
        /\ account_id account
           = ("ACC-" +:+ format_d 6 (_account_counter self + 1)%Z)%string
        /\ accounts self !! account_id account = None
        /\ accounts self' = <[account_id account := account]> (accounts self)
        /\ _account_counter self' = (_account_counter self + 1)%Z
        /\ BankWithErrors.owner account = owner
        /\ balance account = initial_deposit
        /\ is_active account = true
        /\ _transaction_counter account = 0%Z
        /\ get_account (account_id account) self'
           = (inr (account_id account), self')).
Proof.
  intros Hreach. split; intros Hneg.
  - apply create_account_rejected, Hneg.
  - do 2 eexists. split; [apply create_account_ok, Hneg |]. cbn.
    repeat split.
    + apply next_account_id_fresh, reachable_ids_invariant, Hreach.
    + cbv [get_account bind get]. cbn. rewrite lookup_insert_eq. reflexivity.
Qed.

End AccountIds.

Lemma accounts_keyed_by_id_witness :
  BankWithErrors.account_id BankWithErrors.bob_after_transfer = "ACC-000002"
  /\ Z.of_nat (size (BankWithErrors.accounts
                       BankWithErrors.demo_ledger_after_transfer))
     = 2.
Proof.
  pose proof (accounts_keyed_by_id BankWithErrors.demo_ledger_after_transfer
                demo_ledger_after_transfer_reachable) as [Hkeys Hsize].
  split; [| exact Hsize].
  exact (proj1 (Hkeys "ACC-000002" BankWithErrors.bob_after_transfer
                  ltac:(vm_compute; reflexivity))).
Defined.

Lemma create_account_outcome_witness :
  BankWithErrors.create_account "Eve" (-5) 9 10
    BankWithErrors.charlie_ledger
  = (inl (BankWithErrors.NegativeAmountError (-5) "initial deposit"),
     BankWithErrors.charlie_ledger).
Proof.
  exact (proj1 (create_account_outcome BankWithErrors.charlie_ledger
                  "Eve" (-5) 9 10 charlie_ledger_reachable) eq_refl).
Defined.

(** ** [bank_with_errors.py]: the log *)

Section TransactionIds.
Import BankWithErrors.
Context {A : Type} `{Amount A}.
Local Open Scope amount_scope.

Implicit Types (self : AccountManager A) (a b : BankAccount A) (amount : A)
  (description : option string).

Lemma transaction_id_inj account_id (m n : Z) :
  (0 <= m)%Z -> (0 <= n)%Z ->
  transaction_id account_id m = transaction_id account_id n -> m = n.
Proof.
  intros Hm Hn Heq. unfold transaction_id in Heq.
  do 2 apply string_app_inv_head in Heq.
  apply (format_d_inj 4); assumption.
Qed.

Lemma numbered_from_after_record first a txn :
  (0 <= _transaction_counter a)%Z ->
  id txn = transaction_id (account_id a) (_transaction_counter a + 1) ->
  numbered_from first a -> numbered_from first (after_record a txn).
Proof.
  intros Hc Hid [Hfirst Hids]. split; cbn; [lia |].
  rewrite fmap_app, Hids. cbn. rewrite Hid.
  replace (_transaction_counter a + 1 + 1 - first)%Z
    with ((_transaction_counter a + 1 - first) + 1)%Z by lia.
  rewrite seqZ_app by lia. rewrite fmap_app. f_equal.
  replace (first + (_transaction_counter a + 1 - first))%Z
    with (_transaction_counter a + 1)%Z by lia.
  rewrite seqZ_cons by lia. reflexivity.
Qed.

Lemma numbered_after_record a txn :
  id txn = transaction_id (account_id a) (_transaction_counter a + 1) ->
  numbered a -> numbered (after_record a txn).
Proof.
  intros Hid [[H0 | H1] Hc]; (split; [| cbn; lia]);
    [left | right]; apply numbered_from_after_record; assumption.
Qed.

Lemma numbered_opened account_id owner initial_deposit
    (now now_txn : datetime) :
  numbered (opened_account account_id owner initial_deposit now now_txn).
Proof.
  split; [| cbn; lia].
  unfold numbered_from, opened_account. cbn.
  destruct (initial_deposit >? 0); [left | right];
    (split; [lia | reflexivity]).
Qed.

Lemma numbered_deposit a amount description (now : datetime) :
  numbered a -> numbered (snd (deposit amount description now a)).
Proof.
  intros Ha. destruct (is_active a) eqn:Hact.
  - destruct (amount <=? 0) eqn:Hamt.
    + rewrite deposit_invalid by assumption. exact Ha.
    + rewrite deposit_ok by assumption.
      apply numbered_after_record; [reflexivity | exact Ha].
  - rewrite deposit_inactive by assumption. exact Ha.
Qed.

Lemma numbered_withdraw a amount description (now : datetime) :
  numbered a -> numbered (snd (withdraw amount description now a)).
Proof.
  intros Ha. destruct (is_active a) eqn:Hact.
  - destruct (amount <=? 0) eqn:Hamt.
    + rewrite withdraw_invalid by assumption. exact Ha.
    + destruct (amount >? balance a) eqn:Hgt.
      * rewrite withdraw_insufficient by assumption. exact Ha.
      * rewrite withdraw_ok by assumption.
        apply numbered_after_record; [reflexivity | exact Ha].
  - rewrite withdraw_inactive by assumption. exact Ha.
Qed.

Lemma numbered_NoDup a : numbered a -> NoDup (id <$> transactions a).
Proof.
  intros [Hfrom Hc].
  assert (Hfirst : exists first, (0 <= first)%Z /\ numbered_from first a).
  { destruct Hfrom; [exists 0%Z | exists 1%Z]; split; auto; lia. }
  destruct Hfirst as (first & Hpos & _ & ->).
  apply NoDup_fmap_2_strong; [| apply NoDup_seqZ].
  intros m n Hm Hn. apply elem_of_seqZ in Hm, Hn.
  apply transaction_id_inj; lia.
Qed.

(** X9.  In every reachable ledger the ids of the records of an account's
    log are pairwise different, and the id the next successful [deposit] or
    [withdraw] will mint is not among them. *)
Theorem transaction_ids_unique self :
  reachable self ->
  forall ref a,
    accounts self !! ref = Some a ->
    NoDup (id <$> transactions a)
    /\ transaction_id (account_id a) (_transaction_counter a + 1)
       ∉ id <$> transactions a.
Proof.
  intros Hreach ref a Ha.
  assert (Hnum : numbered a).
  { revert ref a Ha. apply (reachable_accounts numbered); try assumption.
    - intros. apply numbered_opened.
    - apply numbered_deposit.
    - apply numbered_withdraw.
    - intros a flag Hflag. exact Hflag. }
  split; [apply numbered_NoDup, Hnum |].
  pose proof (numbered_NoDup _
                (numbered_after_record a
                   {| id := transaction_id (account_id a)
                              (_transaction_counter a + 1);
                      type := DEPOSIT; amount := balance a;
                      balance_after := balance a; timestamp := 0%Z;
                      description := None; success := true |}
                   eq_refl Hnum)) as Hnext.
  cbn in Hnext. rewrite fmap_app in Hnext. cbn in Hnext.
  apply NoDup_app in Hnext as (_ & Hdisj & _).
  intros Hin. apply (Hdisj _ Hin). apply list_elem_of_here.
Qed.

End TransactionIds.

Lemma transaction_ids_unique_witness :
  NoDup (BankWithErrors.id
         <$> BankWithErrors.transactions BankWithErrors.alice_after_transfer)
  /\ "ACC-000001-TXN-0002"
     ∉ BankWithErrors.id
       <$> BankWithErrors.transactions BankWithErrors.alice_after_transfer.
Proof.
  exact (transaction_ids_unique BankWithErrors.demo_ledger_after_transfer
           demo_ledger_after_transfer_reachable "ACC-000001"
           BankWithErrors.alice_after_transfer
           ltac:(vm_compute; reflexivity)).
Defined.

Section AppendOnly.
Import BankWithErrors.
Context {A : Type} `{Amount A}.
Local Open Scope amount_scope.

Implicit Types (self : AccountManager A) (a b : BankAccount A) (amount : A)
  (description : option string).

Lemma account_extends_refl a : account_extends a a.
Proof.
  repeat split. exists []. rewrite app_nil_r. split; [reflexivity | cbn; lia].
Qed.

Lemma account_extends_trans a b c :
  account_extends a b -> account_extends b c -> account_extends a c.
Proof.
  intros (Hid & Ho & Hc & l & Hl & Hn) (Hid' & Ho' & Hc' & l' & Hl' & Hn').
  repeat split; try congruence.
  exists (l ++ l'). rewrite Hl', Hl, <- app_assoc. split; [reflexivity |].
  rewrite length_app. lia.
Qed.

Lemma account_extends_after_record a txn :
  account_extends a (after_record a txn).
Proof. repeat split. exists [txn]. split; reflexivity. Qed.

Lemma deposit_extends a amount description (now : datetime) :
  account_extends a (snd (deposit amount description now a)).
Proof.
  destruct (is_active a) eqn:Hact.
  - destruct (amount <=? 0) eqn:Hamt.
    + rewrite deposit_invalid by assumption. apply account_extends_refl.
    + rewrite deposit_ok by assumption. apply account_extends_after_record.
  - rewrite deposit_inactive by assumption. apply account_extends_refl.
Qed.

Lemma withdraw_extends a amount description (now : datetime) :
  account_extends a (snd (withdraw amount description now a)).
Proof.
  destruct (is_active a) eqn:Hact.
  - destruct (amount <=? 0) eqn:Hamt.
    + rewrite withdraw_invalid by assumption. apply account_extends_refl.
    + destruct (amount >? balance a) eqn:Hgt.
      * rewrite withdraw_insufficient by assumption.
        apply account_extends_refl.
      * rewrite withdraw_ok by assumption.
        apply account_extends_after_record.
  - rewrite withdraw_inactive by assumption. apply account_extends_refl.
Qed.

Lemma set_is_active_extends a flag : account_extends a (set_is_active flag a).
Proof.
  repeat split. exists []. cbn. rewrite app_nil_r. split; [reflexivity | lia].
Qed.

Lemma ledger_extends_refl self : ledger_extends self self.
Proof. intros ref a Ha. exists a. split; [exact Ha | apply account_extends_refl]. Qed.

Lemma ledger_extends_with_account self self1 ref x y :
  ledger_extends self self1 ->
  accounts self1 !! ref = Some x ->
  account_extends x y ->
  ledger_extends self (with_account ref y self1).
Proof.
  intros Hext Hx Hxy r a Ha.
  destruct (Hext _ _ Ha) as (a1 & Ha1 & Hle1). cbn.
  rewrite lookup_insert. destruct (decide (ref = r)) as [<- | Hne].
  - exists y. split; [reflexivity |]. rewrite Hx in Ha1.
    injection Ha1 as <-. eapply account_extends_trans; eassumption.
  - exists a1. split; [exact Ha1 | exact Hle1].
Qed.

Lemma ledger_extends_call {X} self ref
    (method : M (BankError A) (BankAccount A) X) :
  (forall a, account_extends a (snd (method a))) ->
  ledger_extends self (snd (call ref method self)).
Proof.
  intros Hm. destruct (accounts self !! ref) as [a |] eqn:Ha.
  - rewrite (call_found _ _ _ _ Ha). cbn [snd].
    apply ledger_extends_with_account with (x := a);
      auto using ledger_extends_refl.
  - rewrite (call_missing _ _ _ Ha). apply ledger_extends_refl.
Qed.

Lemma ledger_extends_run op self :
  ids_invariant self -> ledger_extends self (run op self).
Proof.
  intros Hself.
  destruct op as [owner d now now_txn | ref0 amount description now
                 | ref0 amount description now
                 | from_id to_id amount description now_w now_d
                 | ref0 flag]; cbn [run].
  - destruct (d <? 0) eqn:Hneg.
    + rewrite create_account_rejected by assumption.
      apply ledger_extends_refl.
    + rewrite create_account_ok by assumption. cbn [snd].
      intros ref a Ha. exists a. split; [| apply account_extends_refl]. cbn.
      rewrite lookup_insert_ne; [exact Ha |].
      intros <-. rewrite next_account_id_fresh in Ha by assumption.
      discriminate.
  - apply ledger_extends_call. intros a. apply deposit_extends.
  - apply ledger_extends_call. intros a. apply withdraw_extends.
  - destruct (transfer_leaves self from_id to_id amount description
                now_w now_d) as [-> | (a & dw & dd & Ha & [-> | (b & Hb & ->)])].
    + apply ledger_extends_refl.
    + apply ledger_extends_with_account with (x := a);
        auto using ledger_extends_refl, withdraw_extends.
    + apply ledger_extends_with_account with (x := b);
        auto using deposit_extends.
      apply ledger_extends_with_account with (x := a);
        auto using ledger_extends_refl, withdraw_extends.
  - apply ledger_extends_call. intros a. apply set_is_active_extends.
Qed.

(** X10.  No operation on a reachable ledger removes an account, replaces it
    by another, or touches the records it already has: afterwards every
    account is there under the same key with the same id, owner and creation
    time, its log is the old log with the new records at the end, and its
    counter has moved by the number of new records. *)
Theorem log_is_append_only self op :
  reachable self ->
  forall ref a,
    accounts self !! ref = Some a ->
    exists a' new,
      accounts (run op self) !! ref = Some a'
      /\ account_id a' = account_id a
      /\ owner a' = owner a
      /\ created_at a' = created_at a
      /\ transactions a' = transactions a ++ new
      /\ _transaction_counter a'
         = (_transaction_counter a + Z.of_nat (length new))%Z.
Proof.
  intros Hreach ref a Ha.
  destruct (ledger_extends_run op self (reachable_ids_invariant _ Hreach)
              ref a Ha) as (a' & Ha' & Hid & Ho & Hc & new & Hlog & Hn).
  exists a', new. auto 10.
Qed.

End AppendOnly.

Lemma log_is_append_only_witness :
  exists a' new,
    BankWithErrors.accounts BankWithErrors.demo_ledger_after_transfer
      !! "ACC-000001" = Some a'
    /\ BankWithErrors.account_id a' = "ACC-000001"
    /\ BankWithErrors.owner a' = "Alice"
    /\ BankWithErrors.created_at a' = 1
    /\ BankWithErrors.transactions a'
       = BankWithErrors.transactions BankWithErrors.alice ++ new
    /\ BankWithErrors._transaction_counter a' = 0 + Z.of_nat (length new).
Proof.
  exact (log_is_append_only BankWithErrors.demo_ledger
           (BankWithErrors.Transfer "ACC-000001" "ACC-000002" 200
              (Some "Rent payment"%string) 5 6)
           (BankWithErrors.reachable_run _ _
              (BankWithErrors.reachable_run _ _ BankWithErrors.reachable_new))
           "ACC-000001" BankWithErrors.alice
           ltac:(vm_compute; reflexivity)).
Defined.

Section History.
Import BankWithErrors.
Context {A : Type} `{ExactAmount A}.
Local Open Scope amount_scope.

Implicit Types (self : AccountManager A) (a b : BankAccount A) (amount : A)
  (description : option string) (log : list (Transaction A)).

Lemma replay_snoc log txn :
  replay (log ++ [txn]) = apply_record (replay log) txn.
Proof. unfold replay. rewrite fold_left_app. reflexivity. Qed.

Lemma consistent_log_snoc log txn :
  consistent_log log ->
  balance_after txn = replay (log ++ [txn]) ->
  consistent_log (log ++ [txn]).
Proof.
  intros Hlog Htxn before t after Heq.
  destruct after as [| x after _] using rev_ind.
  - apply (app_inj_tail log before txn t) in Heq as [<- <-]. exact Htxn.
  - rewrite app_comm_cons, app_assoc in Heq.
    apply app_inj_tail in Heq as [Heq _]. eapply Hlog, Heq.
Qed.

Lemma num_not_leb_positive (x : A) : (x <=? 0) = false -> (x >? 0) = true.
Proof. intros Hx. rewrite num_ltb_leb, Hx. reflexivity. Qed.

Lemma history_invariant_after_record a txn :
  history_invariant a ->
  balance_after txn = apply_record (balance a) txn ->
  well_formed_record txn ->
  history_invariant (after_record a txn).
Proof.
  intros (Hreplay & Hlog & Hwf) Htxn Hok.
  assert (Hlast : balance_after txn = replay (transactions a ++ [txn]))
    by (rewrite replay_snoc, Hreplay; exact Htxn).
  repeat split; cbn.
  - symmetry. exact Hlast.
  - apply consistent_log_snoc; assumption.
  - apply Forall_app. split; [exact Hwf |].
    constructor; [exact Hok | constructor].
Qed.

Lemma history_invariant_opened account_id owner initial_deposit
    (now now_txn : datetime) :
  (initial_deposit <? 0) = false ->
  history_invariant
    (opened_account account_id owner initial_deposit now now_txn).
Proof.
  intros Hneg. unfold history_invariant, opened_account. cbn.
  destruct (initial_deposit >? 0) eqn:Hpos.
  - repeat split.
    + cbn. unfold apply_record. cbn. apply num_add_zero_l.
    + intros before t after Heq.
      destruct before as [| x before]; cbn in Heq.
      * injection Heq as <- <-. cbn. unfold apply_record. cbn.
        symmetry. apply num_add_zero_l.
      * injection Heq as _ Heq. destruct before; discriminate.
    + constructor; [| constructor]. repeat split; auto.
  - repeat split.
    + cbn. symmetry. apply num_neither_sign; assumption.
    + intros before t after Heq. destruct before; discriminate.
    + constructor.
Qed.

Lemma history_invariant_deposit a amount description (now : datetime) :
  history_invariant a ->
  history_invariant (snd (deposit amount description now a)).
Proof.
  intros Ha. destruct (is_active a) eqn:Hact.
  - destruct (amount <=? 0) eqn:Hamt.
    + rewrite deposit_invalid by assumption. exact Ha.
    + rewrite deposit_ok by assumption.
      apply history_invariant_after_record; [exact Ha | reflexivity |].
      repeat split; auto using num_not_leb_positive.
  - rewrite deposit_inactive by assumption. exact Ha.
Qed.

Lemma history_invariant_withdraw a amount description (now : datetime) :
  history_invariant a ->
  history_invariant (snd (withdraw amount description now a)).
Proof.
  intros Ha. destruct (is_active a) eqn:Hact.
  - destruct (amount <=? 0) eqn:Hamt.
    + rewrite withdraw_invalid by assumption. exact Ha.
    + destruct (amount >? balance a) eqn:Hgt.
      * rewrite withdraw_insufficient by assumption. exact Ha.
      * rewrite withdraw_ok by assumption.
        apply history_invariant_after_record; [exact Ha | reflexivity |].
        repeat split; auto using num_not_leb_positive.
  - rewrite withdraw_inactive by assumption. exact Ha.
Qed.

Lemma reachable_history_invariant self :
  reachable self ->
  forall ref a, accounts self !! ref = Some a -> history_invariant a.
Proof.
  intros Hreach. apply (reachable_accounts history_invariant); try assumption.
  - apply history_invariant_opened.
  - apply history_invariant_deposit.
  - apply history_invariant_withdraw.
  - intros a flag Ha. exact Ha.
Qed.

(** X11.  In every reachable ledger the log of an account is its history:
    applying the records in order from zero, adding the amount of a deposit
    and subtracting the amount of a withdrawal, gives the balance, and the
    [balance_after] of each record is what the records up to and including
    it give. *)
Theorem log_replays_to_balance self :
  reachable self ->
  forall ref a,
    accounts self !! ref = Some a ->
    replay (transactions a) = balance a
    /\ forall before txn after,
         transactions a = before ++ txn :: after ->
         balance_after txn = replay (before ++ [txn]).
Proof.
  intros Hreach ref a Ha.
  destruct (reachable_history_invariant self Hreach ref a Ha)
    as (Hreplay & Hlog & _).
  split; [exact Hreplay | exact Hlog].
Qed.

(** X12.  In every reachable ledger every record of every log is a deposit
    or a withdrawal, never a [TRANSFER], has [success] set and a positive
    amount. *)
Theorem records_are_well_formed self :
  reachable self ->
  forall ref a txn,
    accounts self !! ref = Some a ->
    txn ∈ transactions a ->
    (type txn = DEPOSIT \/ type txn = WITHDRAWAL)
    /\ success txn = true
    /\ (BankWithErrors.amount txn >? 0) = true.
Proof.
  intros Hreach ref a txn Ha Hin.
  destruct (reachable_history_invariant self Hreach ref a Ha)
    as (_ & _ & Hwf).
  rewrite Forall_forall in Hwf. apply Hwf, Hin.
Qed.

End History.

Lemma log_replays_to_balance_witness :
  BankWithErrors.replay
    (BankWithErrors.transactions BankWithErrors.alice_after_transfer)
  = 800.
Proof.
  exact (proj1 (log_replays_to_balance
                  BankWithErrors.demo_ledger_after_transfer
                  demo_ledger_after_transfer_reachable "ACC-000001"
                  BankWithErrors.alice_after_transfer
                  ltac:(vm_compute; reflexivity))).
Defined.

Lemma records_are_well_formed_witness :
  let txn :=
    BankWithErrors.deposit_record BankWithErrors.bob 200
      (Some "Transfer from ACC-000001: Rent payment"%string) 6 in
  (BankWithErrors.type txn = BankWithErrors.DEPOSIT
   \/ BankWithErrors.type txn = BankWithErrors.WITHDRAWAL)
  /\ BankWithErrors.success txn = true
  /\ (BankWithErrors.amount txn >? 0)%amt = true.
Proof.
  exact (records_are_well_formed BankWithErrors.demo_ledger_after_transfer
           demo_ledger_after_transfer_reachable "ACC-000002"
           BankWithErrors.bob_after_transfer _
           ltac:(vm_compute; reflexivity)
           ltac:(right; left)).
Defined.

(** ** [persistent_bank.py]: the methods *)

Section PersistentMethods.
Import PersistentBank.
Context {A : Type} `{Amount A}.
Local Open Scope amount_scope.

Implicit Types (self : AccountManager A) (a : BankAccount A) (amount : A)
  (description : option string) (fs : gmap string (file A)).

Lemma persistent_deposit_ok a amount description (now : string) :
  (amount <=? 0) = false ->
  deposit amount description now a
  = (inr (deposit_record a amount description now),
     after_record a (deposit_record a amount description now)).
Proof. intros Hamt. unfold deposit. rewrite Hamt. reflexivity. Qed.

Lemma persistent_withdraw_insufficient a amount description (now : string) :
  (amount <=? 0) = false -> (amount >? balance a) = true ->
  withdraw amount description now a
  = (inl (InsufficientFundsError (balance a) amount), a).
Proof.
  intros Hamt Hgt. unfold withdraw. rewrite Hamt.
  cbv [bind get]. rewrite Hgt. reflexivity.
Qed.

Lemma persistent_withdraw_ok a amount description (now : string) :
  (amount <=? 0) = false -> (amount >? balance a) = false ->
  withdraw amount description now a
  = (inr (withdrawal_record a amount description now),
     after_record a (withdrawal_record a amount description now)).
Proof.
  intros Hamt Hgt. unfold withdraw. rewrite Hamt.
  cbv [bind get]. rewrite Hgt. reflexivity.
Qed.

Lemma set_accounts_same self ref a :
  accounts self !! ref = Some a ->
  set_accounts (<[ref := a]> (accounts self)) self = self.
Proof.
  intros Ha. destruct self as [m p c]. unfold set_accounts. cbn in *.
  f_equal. apply insert_id, Ha.
Qed.

Lemma persistent_create_account_rejected self fs owner initial_deposit
    (now now_txn : string) :
  (initial_deposit <? 0) = true ->
  create_account owner initial_deposit now now_txn (self, fs)
  = (inl (NegativeAmountError initial_deposit), (self, fs)).
Proof. intros Hneg. unfold create_account. rewrite Hneg. reflexivity. Qed.

Lemma persistent_create_account_ok self fs owner initial_deposit
    (now now_txn : string) :
  (initial_deposit <? 0) = false ->
  let account_id :=
    ("ACC-" +:+ format_d 6 (_account_counter self + 1)%Z)%string in
  let account :=
    opened_account account_id owner initial_deposit now now_txn in
  let self' :=
    {| accounts := <[account_id := account]> (accounts self);
       data_file := data_file self;
       _account_counter := (_account_counter self + 1)%Z |} in
  create_account owner initial_deposit now now_txn (self, fs)
  = (inr account, (self', saved self' fs)).
Proof.
  intros Hneg. cbv zeta. unfold create_account. rewrite Hneg.
  cbv [bind _generate_account_id modify get ret opened_account
       set_transactions save_to_file saved set_accounts]. cbn.
  destruct (initial_deposit >? 0); reflexivity.
Qed.

Lemma manager_call_missing {X} self fs ref
    (method : M (Exception A) (BankAccount A) X)
    (k : X -> M (Exception A) (AccountManager A * gmap string (file A)) X) :
  accounts self !! ref = None ->
  bind (get_account ref) (fun account => bind (call account method) k)
    (self, fs)
  = (inl (AccountNotFoundError ref), (self, fs)).
Proof.
  intros Hnone. cbv [bind get_account get]. rewrite Hnone. reflexivity.
Qed.

Lemma manager_call_found {X} self fs ref a
    (method : M (Exception A) (BankAccount A) X) :
  accounts self !! ref = Some a ->
  bind (get_account ref)
    (fun account =>
       bind (call account method)
         (fun x => bind save_to_file (fun _ => ret x)))
    (self, fs)
  = match method a with
    | (inl e, a') =>
        (inl e, (set_accounts (<[ref := a']> (accounts self)) self, fs))
    | (inr x, a') =>
        let self' := set_accounts (<[ref := a']> (accounts self)) self in
        (inr x, (self', saved self' fs))
    end.
Proof.
  intros Ha. cbv [bind get_account get]. rewrite Ha. cbv [ret call].
  rewrite Ha. destruct (method a) as [[e | x] a']; reflexivity.
Qed.

(** What [manager_deposit] and [manager_withdraw] come to, by what the
    account's own method does. *)
Lemma manager_deposit_found self fs ref a amount description (now : string) :
  accounts self !! ref = Some a ->
  manager_deposit ref amount description now (self, fs)
  = if amount <=? 0
    then (inl (NegativeAmountError amount), (self, fs))
    else
      let txn := deposit_record a amount description now in
      let self' :=
        set_accounts (<[ref := after_record a txn]> (accounts self)) self in
      (inr txn, (self', saved self' fs)).
Proof.
  intros Ha. unfold manager_deposit. rewrite (manager_call_found _ _ _ _ _ Ha).
  destruct (amount <=? 0) eqn:Hamt.
  - rewrite persistent_deposit_invalid by assumption.
    rewrite set_accounts_same by assumption. reflexivity.
  - rewrite persistent_deposit_ok by assumption. reflexivity.
Qed.

Lemma manager_withdraw_found self fs ref a amount description (now : string) :
  accounts self !! ref = Some a ->
  manager_withdraw ref amount description now (self, fs)
  = if amount <=? 0
    then (inl (NegativeAmountError amount), (self, fs))
    else if amount >? balance a
    then (inl (InsufficientFundsError (balance a) amount), (self, fs))
    else
      let txn := withdrawal_record a amount description now in
      let self' :=
        set_accounts (<[ref := after_record a txn]> (accounts self)) self in
      (inr txn, (self', saved self' fs)).
Proof.
  intros Ha. unfold manager_withdraw.
  rewrite (manager_call_found _ _ _ _ _ Ha).
  destruct (amount <=? 0) eqn:Hamt.
  - rewrite persistent_withdraw_invalid by assumption.
    rewrite set_accounts_same by assumption. reflexivity.
  - destruct (amount >? balance a) eqn:Hgt.
    + rewrite persistent_withdraw_insufficient by assumption.
      rewrite set_accounts_same by assumption. reflexivity.
    + rewrite persistent_withdraw_ok by assumption. reflexivity.
Qed.

Lemma manager_deposit_missing self fs ref amount description (now : string) :
  accounts self !! ref = None ->
  manager_deposit ref amount description now (self, fs)
  = (inl (AccountNotFoundError ref), (self, fs)).
Proof. intros Hnone. apply manager_call_missing, Hnone. Qed.

Lemma manager_withdraw_missing self fs ref amount description (now : string) :
  accounts self !! ref = None ->
  manager_withdraw ref amount description now (self, fs)
  = (inl (AccountNotFoundError ref), (self, fs)).
Proof. intros Hnone. apply manager_call_missing, Hnone. Qed.

(** An operation either raises and leaves everything as it was, or puts one
    account into the ledger, new or in the place of the one it was called
    on, and saves. *)
Lemma run_outcome op self fs :
  (raises op (self, fs) = true /\ run op (self, fs) = (self, fs))
  \/ exists ref a' self',
       raises op (self, fs) = false
       /\ run op (self, fs) = (self', saved self' fs)
       /\ data_file self' = data_file self
       /\ accounts self' = <[ref := a']> (accounts self)
       /\ ((exists owner d now now_txn,
              (d <? 0) = false
              /\ a' = opened_account ref owner d now now_txn)
           \/ exists a amount description now,
                accounts self !! ref = Some a
                /\ (amount <=? 0) = false
                /\ (a' = after_record a
                           (deposit_record a amount description now)
                    \/ (amount >? balance a) = false
                       /\ a' = after_record a
                                 (withdrawal_record a amount description now))).
Proof.
  destruct op as [owner d now now_txn | ref amount description now
                 | ref amount description now]; cbn [run raises].
  - destruct (d <? 0) eqn:Hneg.
    + rewrite persistent_create_account_rejected by assumption. auto.
    + rewrite persistent_create_account_ok by assumption. right.
      do 3 eexists. split; [reflexivity |]. split; [reflexivity |].
      split; [reflexivity |]. split; [reflexivity |].
      left. eauto 10.
  - destruct (accounts self !! ref) as [a |] eqn:Ha.
    + rewrite (manager_deposit_found _ _ _ _ _ _ _ Ha).
      destruct (amount <=? 0) eqn:Hamt; [auto |]. right.
      do 3 eexists. split; [reflexivity |]. split; [reflexivity |].
      split; [reflexivity |]. split; [reflexivity |].
      right. eauto 10.
    + rewrite manager_deposit_missing by assumption. auto.
  - destruct (accounts self !! ref) as [a |] eqn:Ha.
    + rewrite (manager_withdraw_found _ _ _ _ _ _ _ Ha).
      destruct (amount <=? 0) eqn:Hamt; [auto |].
      destruct (amount >? balance a) eqn:Hgt; [auto |]. right.
      do 3 eexists. split; [reflexivity |]. split; [reflexivity |].
      split; [reflexivity |]. split; [reflexivity |].
      right. eauto 10.
    + rewrite manager_withdraw_missing by assumption. auto.
Qed.

(** *** Writes that fail *)

Lemma save_to_file_on_outcome w self fs :
  save_to_file_on w (self, fs)
  = (match w with
     | Written => inr tt
     | NotOpened | Interrupted => inl IOError
     end, (self, written w self fs)).
Proof. destruct w; reflexivity. Qed.

(** On a disk that takes the write, [save_to_file_on] is [save_to_file]. *)
Lemma save_to_file_on_Written self fs :
  save_to_file_on Written (self, fs) = save_to_file (self, fs).
Proof. reflexivity. Qed.

Lemma create_account_on_rejected w self fs owner initial_deposit
    (now now_txn : string) :
  (initial_deposit <? 0) = true ->
  create_account_on w owner initial_deposit now now_txn (self, fs)
  = (inl (NegativeAmountError initial_deposit), (self, fs)).
Proof. intros Hneg. unfold create_account_on. rewrite Hneg. reflexivity. Qed.

Lemma create_account_on_ok w self fs owner initial_deposit
    (now now_txn : string) :
  (initial_deposit <? 0) = false ->
  let account_id :=
    ("ACC-" +:+ format_d 6 (_account_counter self + 1)%Z)%string in
  let account :=
    opened_account account_id owner initial_deposit now now_txn in
  let self' :=
    {| accounts := <[account_id := account]> (accounts self);
       data_file := data_file self;
       _account_counter := (_account_counter self + 1)%Z |} in
  create_account_on w owner initial_deposit now now_txn (self, fs)
  = (match w with
     | Written => inr account
     | NotOpened | Interrupted => inl IOError
     end, (self', written w self' fs)).
Proof.
  intros Hneg. cbv zeta. unfold create_account_on. rewrite Hneg.
  cbv [bind _generate_account_id modify get ret opened_account
       set_transactions save_to_file_on set_accounts]. cbn.
  destruct (initial_deposit >? 0), w; reflexivity.
Qed.

Lemma manager_call_found_on {X} w self fs ref a
    (method : M (Exception A) (BankAccount A) X) :
  accounts self !! ref = Some a ->
  bind (get_account ref)
    (fun account =>
       bind (call account method)
         (fun x => bind (save_to_file_on w) (fun _ => ret x)))
    (self, fs)
  = match method a with
    | (inl e, a') =>
        (inl e, (set_accounts (<[ref := a']> (accounts self)) self, fs))
    | (inr x, a') =>
        let self' := set_accounts (<[ref := a']> (accounts self)) self in
        (match w with
         | Written => inr x
         | NotOpened | Interrupted => inl IOError
         end, (self', written w self' fs))
    end.
Proof.
  intros Ha. cbv [bind get_account get]. rewrite Ha. cbv [ret call].
  rewrite Ha. destruct (method a) as [[e | x] a']; [reflexivity |].
  destruct w; reflexivity.
Qed.

Lemma manager_deposit_on_found w self fs ref a amount description
    (now : string) :
  accounts self !! ref = Some a ->
  manager_deposit_on w ref amount description now (self, fs)
  = if amount <=? 0
    then (inl (NegativeAmountError amount), (self, fs))
    else
      let txn := deposit_record a amount description now in
      let self' :=
        set_accounts (<[ref := after_record a txn]> (accounts self)) self in
      (match w with
       | Written => inr txn
       | NotOpened | Interrupted => inl IOError
       end, (self', written w self' fs)).
Proof.
  intros Ha. unfold manager_deposit_on.
  rewrite (manager_call_found_on _ _ _ _ _ _ Ha).
  destruct (amount <=? 0) eqn:Hamt.
  - rewrite persistent_deposit_invalid by assumption.
    rewrite set_accounts_same by assumption. reflexivity.
  - rewrite persistent_deposit_ok by assumption. reflexivity.
Qed.

Lemma manager_withdraw_on_found w self fs ref a amount description
    (now : string) :
  accounts self !! ref = Some a ->
  manager_withdraw_on w ref amount description now (self, fs)
  = if amount <=? 0
    then (inl (NegativeAmountError amount), (self, fs))
    else if amount >? balance a
    then (inl (InsufficientFundsError (balance a) amount), (self, fs))
    else
      let txn := withdrawal_record a amount description now in
      let self' :=
        set_accounts (<[ref := after_record a txn]> (accounts self)) self in
      (match w with
       | Written => inr txn
       | NotOpened | Interrupted => inl IOError
       end, (self', written w self' fs)).
Proof.
  intros Ha. unfold manager_withdraw_on.
  rewrite (manager_call_found_on _ _ _ _ _ _ Ha).
  destruct (amount <=? 0) eqn:Hamt.
  - rewrite persistent_withdraw_invalid by assumption.
    rewrite set_accounts_same by assumption. reflexivity.
  - destruct (amount >? balance a) eqn:Hgt.
    + rewrite persistent_withdraw_insufficient by assumption.
      rewrite set_accounts_same by assumption. reflexivity.
    + rewrite persistent_withdraw_ok by assumption. reflexivity.
Qed.

Lemma manager_deposit_on_missing w self fs ref amount description
    (now : string) :
  accounts self !! ref = None ->
  manager_deposit_on w ref amount description now (self, fs)
  = (inl (AccountNotFoundError ref), (self, fs)).
Proof. intros Hnone. apply manager_call_missing, Hnone. Qed.

Lemma manager_withdraw_on_missing w self fs ref amount description
    (now : string) :
  accounts self !! ref = None ->
  manager_withdraw_on w ref amount description now (self, fs)
  = (inl (AccountNotFoundError ref), (self, fs)).
Proof. intros Hnone. apply manager_call_missing, Hnone. Qed.

(** A record appended makes another account, and an account replaced by
    another makes another ledger. *)
Lemma after_record_differs a txn : after_record a txn <> a.
Proof.
  intros Heq. apply (f_equal _transaction_counter) in Heq. cbn in Heq. lia.
Qed.

Lemma set_accounts_differs self ref a a' :
  accounts self !! ref = Some a -> a' <> a ->
  set_accounts (<[ref := a']> (accounts self)) self <> self.
Proof.
  intros Ha Hne Heq. apply (f_equal (fun s => accounts s !! ref)) in Heq.
  cbn in Heq. rewrite lookup_insert_eq, Ha in Heq. congruence.
Qed.

(** The outcomes of an operation, by the answer of the disk. *)
Lemma operation_outcome_cases op self fs :
  (exists e,
      e <> IOError
      /\ forall w, outcome_on w op (self, fs) = (Some e, (self, fs)))
  \/ (exists self' ref a',
         self' <> self
         /\ data_file self' = data_file self
         /\ accounts self' = <[ref := a']> (accounts self)
         /\ (forall w,
               outcome_on w op (self, fs)
               = (match w with
                  | Written => None
                  | NotOpened | Interrupted => Some IOError
                  end, (self', written w self' fs)))
         /\ written Written self' fs !! data_file self
            = Some (JsonText (snapshot self'))
         /\ written NotOpened self' fs = fs
         /\ written Interrupted self' fs !! data_file self = Some OtherText
         /\ forall w path,
              path <> data_file self ->
              written w self' fs !! path = fs !! path).
Proof.
  assert (Hfiles : forall self' : AccountManager A,
             data_file self' = data_file self ->
             written Written self' fs !! data_file self
             = Some (JsonText (snapshot self'))
             /\ written NotOpened self' fs = fs
             /\ written Interrupted self' fs !! data_file self
                = Some OtherText
             /\ forall w path,
                  path <> data_file self ->
                  written w self' fs !! path = fs !! path).
  { intros self' Hfile. cbn. rewrite Hfile, !lookup_insert_eq.
    repeat split. intros w path Hpath.
    destruct w; cbn; rewrite ?Hfile, ?lookup_insert_ne by congruence;
      reflexivity. }
  destruct op as [owner d now now_txn | ref amount description now
                 | ref amount description now]; cbn [outcome_on].
  - destruct (d <? 0) eqn:Hneg.
    + left. eexists. split; [| intros w].
      2: { rewrite create_account_on_rejected by assumption. reflexivity. }
      discriminate.
    + right. eexists _, _, _. split; [| split; [| split; [| split]]].
      4: { intros w. rewrite create_account_on_ok by assumption.
           destruct w; reflexivity. }
      * intros Heq. apply (f_equal _account_counter) in Heq. cbn in Heq. lia.
      * reflexivity.
      * reflexivity.
      * apply Hfiles. reflexivity.
  - destruct (accounts self !! ref) as [a |] eqn:Ha.
    + destruct (amount <=? 0) eqn:Hamt.
      * left. eexists. split; [| intros w].
        2: { rewrite (manager_deposit_on_found _ _ _ _ _ _ _ _ Ha), Hamt.
             reflexivity. }
        discriminate.
      * right. eexists _, _, _. split; [| split; [| split; [| split]]].
        4: { intros w.
             rewrite (manager_deposit_on_found _ _ _ _ _ _ _ _ Ha), Hamt.
             destruct w; reflexivity. }
        -- apply (set_accounts_differs _ _ a); [exact Ha |].
           apply after_record_differs.
        -- reflexivity.
        -- reflexivity.
        -- apply Hfiles. reflexivity.
    + left. eexists. split; [| intros w].
      2: { rewrite manager_deposit_on_missing by assumption. reflexivity. }
      discriminate.
  - destruct (accounts self !! ref) as [a |] eqn:Ha.
    + destruct (amount <=? 0) eqn:Hamt.
      * left. eexists. split; [| intros w].
        2: { rewrite (manager_withdraw_on_found _ _ _ _ _ _ _ _ Ha), Hamt.
             reflexivity. }
        discriminate.
      * destruct (amount >? balance a) eqn:Hgt.
        -- left. eexists. split; [| intros w].
           2: { rewrite (manager_withdraw_on_found _ _ _ _ _ _ _ _ Ha),
                  Hamt, Hgt. reflexivity. }
           discriminate.
        -- right. eexists _, _, _. split; [| split; [| split; [| split]]].
           4: { intros w.
                rewrite (manager_withdraw_on_found _ _ _ _ _ _ _ _ Ha),
                  Hamt, Hgt.
                destruct w; reflexivity. }
           ++ apply (set_accounts_differs _ _ a); [exact Ha |].
              apply after_record_differs.
           ++ reflexivity.
           ++ reflexivity.
           ++ apply Hfiles. reflexivity.
    + left. eexists. split; [| intros w].
      2: { rewrite manager_withdraw_on_missing by assumption. reflexivity. }
      discriminate.
Qed.

(** On a disk that takes every write the operations are those of [run]. *)
Lemma run_on_Written op self fs :
  run_on Written op (self, fs) = run op (self, fs)
  /\ (error_on Written op (self, fs) = None <-> raises op (self, fs) = false).
Proof.
  unfold run_on, error_on.
  destruct op as [owner d now now_txn | ref amount description now
                 | ref amount description now]; cbn [outcome_on run raises].
  - destruct (d <? 0) eqn:Hneg.
    + rewrite create_account_on_rejected, persistent_create_account_rejected
        by assumption. cbn. split; [reflexivity | split; discriminate].
    + rewrite create_account_on_ok, persistent_create_account_ok
        by assumption. cbn. split; [reflexivity | split; reflexivity].
  - destruct (accounts self !! ref) as [a |] eqn:Ha.
    + rewrite (manager_deposit_on_found _ _ _ _ _ _ _ _ Ha),
        (manager_deposit_found _ _ _ _ _ _ _ Ha).
      destruct (amount <=? 0); cbn;
        (split; [reflexivity | split; first [discriminate | reflexivity]]).
    + rewrite manager_deposit_on_missing, manager_deposit_missing
        by assumption. cbn. split; [reflexivity | split; discriminate].
  - destruct (accounts self !! ref) as [a |] eqn:Ha.
    + rewrite (manager_withdraw_on_found _ _ _ _ _ _ _ _ Ha),
        (manager_withdraw_found _ _ _ _ _ _ _ Ha).
      destruct (amount <=? 0); [| destruct (amount >? balance a)]; cbn;
        (split; [reflexivity | split; first [discriminate | reflexivity]]).
    + rewrite manager_withdraw_on_missing, manager_withdraw_missing
        by assumption. cbn. split; [reflexivity | split; discriminate].
Qed.

(** Whatever the disk answers, the ledger an operation leaves in memory is
    the one it leaves when the write is taken. *)
Lemma run_on_ledger w op self fs :
  fst (run_on w op (self, fs)) = fst (run op (self, fs)).
Proof.
  rewrite <- (proj1 (run_on_Written op self fs)). unfold run_on.
  destruct (operation_outcome_cases op self fs)
    as [(e & _ & Hout) | (self' & ref & a' & _ & _ & _ & Hout & _)];
    rewrite (Hout w), (Hout Written); reflexivity.
Qed.

(** X14.  What an operation of the persistent ledger leaves, by the answer
    of the disk to its write.  Either it raises before the write, an error
    of the ledger, and leaves the ledger and every file as they were.  Or
    it reaches the write, having put one account into the ledger: that
    change is made whatever the disk answers.  If the write completes the
    operation returns and the ledger's file holds the snapshot of the
    ledger it leaves; if the write fails the operation raises [IOError],
    the change stays in memory, and the ledger's file is as it was ([open]
    failed) or holds no document (the write was cut short).  No other file
    is touched. *)
Theorem operation_outcome_by_write op self fs :
  (exists e,
      e <> IOError
      /\ forall w, outcome_on w op (self, fs) = (Some e, (self, fs)))
  \/ (exists self' ref a',
         self' <> self
         /\ data_file self' = data_file self
         /\ accounts self' = <[ref := a']> (accounts self)
         /\ (forall w,
               outcome_on w op (self, fs)
               = (match w with
                  | Written => None
                  | NotOpened | Interrupted => Some IOError
                  end, (self', written w self' fs)))
         /\ written Written self' fs !! data_file self
            = Some (JsonText (snapshot self'))
         /\ written NotOpened self' fs = fs
         /\ written Interrupted self' fs !! data_file self = Some OtherText
         /\ forall w path,
              path <> data_file self ->
              written w self' fs !! path = fs !! path).
Proof. exact (operation_outcome_cases op self fs). Qed.

End PersistentMethods.

(** ** [persistent_bank.py]: restarting *)

Section Restart.
Import PersistentBank.
Context {A : Type} `{Amount A}.
Local Open Scope amount_scope.

Implicit Types (self : AccountManager A) (a : BankAccount A) (amount : A)
  (description : option string) (fs : gmap string (file A)).

Lemma AccountManager_new_saved self fs :
  AccountManager_new (data_file self) (saved self fs) = inr self.
Proof.
  unfold AccountManager_new, __post_init__, saved, bind, get. cbn.
  rewrite decide_True by (rewrite lookup_insert_eq; eauto).
  unfold load_from_file. cbn. rewrite lookup_insert_eq.
  rewrite loaded_state_snapshot. destruct self; reflexivity.
Qed.

(** [load_from_file] in each of its outcomes. *)
Lemma load_from_file_outcome self fs :
  (exists e, load_from_file (self, fs) = (inl e, (self, fs)))
  \/ (fs !! data_file self = None
      /\ load_from_file (self, fs) = (inr tt, (self, fs)))
  \/ exists data accounts_ counter_,
       fs !! data_file self = Some (JsonText data)
       /\ loaded_state data = inr (accounts_, counter_)
       /\ load_from_file (self, fs)
          = (inr tt,
             ({| accounts := accounts_; data_file := data_file self;
                 _account_counter := counter_ |}, fs)).
Proof.
  unfold load_from_file.
  destruct (fs !! data_file self) as [[data |] |] eqn:Hfile; eauto.
  destruct (loaded_state data) as [e | [accounts_ counter_]] eqn:Hload; eauto.
  right. right. eauto 10.
Qed.

Lemma AccountManager_new_data_file path fs self :
  AccountManager_new path fs = inr self -> data_file self = path.
Proof.
  unfold AccountManager_new, __post_init__, bind, get. cbn.
  destruct (decide (is_Some (fs !! path))) as [Hsome | Hnone].
  - destruct (load_from_file_outcome
                {| accounts := ∅; data_file := path; _account_counter := 0 |}
                fs) as [[e ->] | [[_ ->] | (d & m & c & _ & _ & ->)]];
      [discriminate | |]; intros [= <-]; reflexivity.
  - cbv [ret]. intros [= <-]. reflexivity.
Qed.

(** What an operation on a disk that answers [w] does to the ledger's path
    and to what a restart would find. *)
Lemma run_on_resumable w op self fs :
  data_file (fst (run_on w op (self, fs))) = data_file self
  /\ (error_on w op (self, fs) = None ->
      AccountManager_new (data_file self) (snd (run_on w op (self, fs)))
      = inr (fst (run_on w op (self, fs))))
  /\ (w = Written ->
      AccountManager_new (data_file self) fs = inr self ->
      AccountManager_new (data_file self) (snd (run_on w op (self, fs)))
      = inr (fst (run_on w op (self, fs)))).
Proof.
  unfold run_on, error_on.
  destruct (operation_outcome_cases op self fs)
    as [(e & _ & Hout) | (self' & ref & a' & _ & Hfile & _ & Hout & _)];
    rewrite (Hout w); cbn [fst snd].
  - split; [reflexivity |]. split; [discriminate | auto].
  - split; [exact Hfile |].
    assert (Hsaved : w = Written ->
              AccountManager_new (data_file self) (written w self' fs)
              = inr self').
    { intros ->. rewrite <- Hfile. apply AccountManager_new_saved. }
    split; [| auto]. destruct w; [auto | discriminate | discriminate].
Qed.

Lemma run_all_on_cons op w steps
    (world : AccountManager A * gmap string (file A)) :
  run_all_on ((op, w) :: steps) world = run_all_on steps (run_on w op world).
Proof. reflexivity. Qed.

Lemma run_all_on_data_file steps self fs :
  data_file (fst (run_all_on steps (self, fs))) = data_file self.
Proof.
  revert self fs. induction steps as [| [op w] steps IH]; intros self fs;
    [reflexivity |].
  rewrite run_all_on_cons.
  pose proof (run_on_resumable w op self fs) as [Hfile _].
  destruct (run_on w op (self, fs)) as [self1 fs1].
  rewrite IH. exact Hfile.
Qed.

Lemma run_all_on_resumable steps self fs :
  Forall (fun step => snd step = Written) steps ->
  AccountManager_new (data_file self) fs = inr self ->
  AccountManager_new (data_file self) (snd (run_all_on steps (self, fs)))
  = inr (fst (run_all_on steps (self, fs))).
Proof.
  revert self fs. induction steps as [| [op w] steps IH];
    intros self fs Hall Hres; [exact Hres |].
  apply Forall_cons in Hall as [Hw Hall]. cbn in Hw. subst w.
  rewrite run_all_on_cons.
  destruct (run_on_resumable Written op self fs) as (Hfile & _ & Hres1).
  specialize (Hres1 eq_refl Hres).
  destruct (run_on Written op (self, fs)) as [self1 fs1].
  cbn [fst snd] in Hfile, Hres1.
  rewrite <- Hfile. apply IH; [exact Hall |].
  rewrite Hfile. exact Hres1.
Qed.

(** X13.  A ledger constructed on the path of a ledger after a sequence of
    operations is the ledger they left, provided the disk took every write;
    and, whatever the disk answered before, also after writes that failed,
    a ledger constructed after an operation that returned is the ledger
    that operation left.  (After a write that failed the ledger in memory
    is ahead of the file: see [refused_write_is_not_resumed].) *)
Theorem restart_resumes path fs self steps :
  AccountManager_new path fs = inr self ->
  (Forall (fun step => snd step = Written) steps ->
   AccountManager_new path (snd (run_all_on steps (self, fs)))
   = inr (fst (run_all_on steps (self, fs))))
  /\ (forall w op,
        error_on w op (run_all_on steps (self, fs)) = None ->
        AccountManager_new path
          (snd (run_on w op (run_all_on steps (self, fs))))
        = inr (fst (run_on w op (run_all_on steps (self, fs))))).
Proof.
  intros Hnew. pose proof (AccountManager_new_data_file _ _ _ Hnew) as <-.
  split.
  - intros Hall. apply run_all_on_resumable; assumption.
  - intros w op Herr.
    pose proof (run_all_on_data_file steps self fs) as Hfile.
    destruct (run_all_on steps (self, fs)) as [self1 fs1].
    cbn [fst] in Hfile. rewrite <- Hfile.
    exact (proj1 (proj2 (run_on_resumable w op self1 fs1)) Herr).
Qed.


End Restart.

(** Alice's account is written, the write for Bob's is refused, and Alice's
    bonus is written: a restart after it finds both accounts and the
    bonus. *)
Lemma restart_resumes_witness :
  PersistentBank.AccountManager_new "accounts.json"
    (snd PersistentBank.recovered_world)
  = inr (fst PersistentBank.recovered_world)
  /\ is_Some (PersistentBank.accounts (fst PersistentBank.recovered_world)
               !! "ACC-000002").
Proof.
  split; [| vm_compute; eauto].
  exact (proj2 (restart_resumes (A := Z) "accounts.json" ∅
                  {| PersistentBank.accounts := ∅;
                     PersistentBank.data_file := "accounts.json";
                     PersistentBank._account_counter := 0 |}
                  PersistentBank.half_saved_steps eq_refl)
           PersistentBank.Written
           (PersistentBank.Deposit "ACC-000001" 250 (Some "Bonus"%string)
              "2026-01-01T09:02:00")
           ltac:(vm_compute; reflexivity)).
Defined.

(** The write that fails.  On a path in a directory that does not exist the
    ledger is constructed empty; [create_account] raises the error of the
    write, but Alice's account is in the ledger and the id is used; no file
    was written, and a ledger constructed on the path afterwards is empty. *)
Example refused_write_is_not_resumed :
  PersistentBank.error_on PersistentBank.NotOpened
    (PersistentBank.CreateAccount "Alice" 1000
       "2026-01-01T09:00:00" "2026-01-01T09:00:01")
    ({| PersistentBank.accounts := ∅;
        PersistentBank.data_file := "data/accounts.json";
        PersistentBank._account_counter := 0 |}, ∅)
  = Some (PersistentBank.IOError (A := Z))
  /\ PersistentBank.accounts (fst PersistentBank.unsaved_world)
       !! "ACC-000001"
     = Some (PersistentBank.opened_account "ACC-000001" "Alice" 1000
               "2026-01-01T09:00:00" "2026-01-01T09:00:01")
  /\ PersistentBank._account_counter (fst PersistentBank.unsaved_world) = 1
  /\ snd PersistentBank.unsaved_world = ∅
  /\ PersistentBank.AccountManager_new "data/accounts.json"
       (snd PersistentBank.unsaved_world)
     = inr {| PersistentBank.accounts := ∅;
              PersistentBank.data_file := "data/accounts.json";
              PersistentBank._account_counter := 0 |}.
Proof. repeat split; vm_compute; reflexivity. Qed.

(** ** [persistent_bank.py]: documents *)

Section Documents.
Import PersistentBank.
Context {A : Type} `{Amount A}.
Local Open Scope amount_scope.

Lemma and_then_inr {X Y} (r : Exception A + X) (k : X -> Exception A + Y) y :
  and_then r k = inr y -> exists x, r = inr x /\ k x = inr y.
Proof. destruct r as [e | x]; [discriminate | eauto]. Qed.

(** X18.  An account, and a record, written by [to_dict] and read by
    [from_dict] is the account, and the record, it was: every field comes
    back, the type through its name and a missing description through
    [null]. *)
Theorem dict_round_trip :
  (forall txn : Transaction A,
      Transaction_from_dict (Transaction_to_dict txn) = inr txn)
  /\ (forall account : BankAccount A,
         BankAccount_from_dict (BankAccount_to_dict account) = inr account).
Proof.
  split; [apply Transaction_round_trip | apply BankAccount_round_trip].
Qed.

(** X15.  An account read by [from_dict] from a dictionary without the key
    [_transaction_counter] has the number of its records as counter; with
    the key, it has the counter stored there. *)
Theorem from_dict_transaction_counter (fields : list (string * json A))
    (account : BankAccount A) :
  BankAccount_from_dict (JObject fields) = inr account ->
  match dict_get "_transaction_counter" fields with
  | None =>
      _transaction_counter account
      = Z.of_nat (length (transactions account))
  | Some v => v = JInt (_transaction_counter account)
  end.
Proof.
  unfold BankAccount_from_dict. intros Hfrom.
  do 5 (apply and_then_inr in Hfrom as (? & _ & Hfrom)).
  apply and_then_inr in Hfrom as (counter_ & Hcounter & Hfrom).
  injection Hfrom as <-. cbn.
  apply and_then_inr in Hcounter as (v & Hv & Hcounter).
  cbn in Hv. injection Hv as <-.
  destruct (dict_get "_transaction_counter" fields) as [v |].
  - destruct v; try discriminate. cbn in Hcounter. congruence.
  - congruence.
Qed.

(** X16.  A document without the key [_account_counter] loads with the
    number of its accounts as counter, and a document without the key
    [accounts] loads with no account. *)
Theorem loaded_state_defaults (fields : list (string * json A))
    (accounts_ : gmap string (BankAccount A)) (counter_ : Z) :
  loaded_state (JObject fields) = inr (accounts_, counter_) ->
  (dict_get "_account_counter" fields = None ->
   counter_ = Z.of_nat (size accounts_))
  /\ (dict_get "accounts" fields = None -> accounts_ = ∅).
Proof.
  unfold loaded_state. intros Hload.
  apply and_then_inr in Hload as (accounts_data & Hdata & Hload).
  apply and_then_inr in Hload as (loaded & Hloaded & Hload).
  apply and_then_inr in Hload as (c & Hc & Hload).
  injection Hload as <- <-.
  apply and_then_inr in Hdata as (v & Hv & Hdata).
  apply and_then_inr in Hc as (w & Hw & Hc).
  cbn in Hv, Hw. injection Hv as <-. injection Hw as <-.
  split; intros Hnone; rewrite Hnone in *.
  - congruence.
  - injection Hdata as <-. cbn in Hloaded. injection Hloaded as <-.
    reflexivity.
Qed.

End Documents.

Lemma from_dict_transaction_counter_witness :
  PersistentBank.BankAccount_from_dict PersistentBank.legacy_account_document
  = inr PersistentBank.legacy_account
  /\ PersistentBank._transaction_counter PersistentBank.legacy_account
     = Z.of_nat (length (PersistentBank.transactions
                           PersistentBank.legacy_account)).
Proof.
  split; [reflexivity |].
  exact (from_dict_transaction_counter
           [("account_id", PersistentBank.JString "ACC-000001");
            ("owner", PersistentBank.JString "Alice");
            ("balance", PersistentBank.JNumber 1000);
            ("transactions", PersistentBank.JArray
               [PersistentBank.JObject
                  [("id", PersistentBank.JString "TXN-0001");
                   ("type", PersistentBank.JString "DEPOSIT");
                   ("amount", PersistentBank.JNumber 1000);
                   ("balance_after", PersistentBank.JNumber 1000);
                   ("timestamp", PersistentBank.JString "2025-12-31T18:00:00");
                   ("description",
                     PersistentBank.JString "Initial deposit")]]);
            ("created_at", PersistentBank.JString "2025-12-31T18:00:00")]
           PersistentBank.legacy_account eq_refl).
Defined.

Lemma loaded_state_defaults_witness :
  1 = Z.of_nat (size PersistentBank.legacy_accounts).
Proof.
  exact (proj1 (loaded_state_defaults
                  [("accounts", PersistentBank.JObject
                      [("ACC-000001",
                        PersistentBank.legacy_account_document)])]
                  PersistentBank.legacy_accounts
                  1 ltac:(vm_compute; reflexivity))
           eq_refl).
Defined.

(** ** [persistent_bank.py]: the balance *)

Section PersistentBalance.
Import PersistentBank.
Context {A : Type} `{ExactAmount A}.
Local Open Scope amount_scope.

Implicit Types (self : AccountManager A) (a : BankAccount A) (amount : A)
  (description : option string) (fs : gmap string (file A)).

Lemma persistent_balance_invariant_after_record a txn :
  (0 <=? balance_after txn) = true -> balance_invariant (after_record a txn).
Proof.
  intros Hpos. split; cbn; [| exact Hpos].
  unfold last_balance_after. rewrite last_snoc. reflexivity.
Qed.

Lemma persistent_balance_invariant_opened account_id owner initial_deposit
    (now now_txn : string) :
  (initial_deposit <? 0) = false ->
  balance_invariant
    (opened_account account_id owner initial_deposit now now_txn).
Proof.
  intros Hneg. split; cbn; [| apply num_not_negative, Hneg].
  destruct (initial_deposit >? 0) eqn:Hpos; cbn; [reflexivity |].
  apply num_neither_sign; assumption.
Qed.

Lemma run_keeps_balance_invariant op self fs :
  (forall ref a, accounts self !! ref = Some a -> balance_invariant a) ->
  forall ref a,
    accounts (fst (run op (self, fs))) !! ref = Some a ->
    balance_invariant a.
Proof.
  intros Hinv.
  destruct (run_outcome op self fs)
    as [[_ ->] | (r & a' & self' & _ & -> & _ & Hacc & Hnew)];
    [exact Hinv |].
  cbn [fst]. rewrite Hacc. intros ref a. rewrite lookup_insert.
  destruct (decide (r = ref)) as [<- | Hne]; [| apply Hinv].
  intros [= <-].
  destruct Hnew as [(owner & d & now & now_txn & Hneg & ->)
                   | (a0 & amount & description & now & Ha0 & Hamt
                      & [-> | [Hgt ->]])].
  - apply persistent_balance_invariant_opened, Hneg.
  - apply persistent_balance_invariant_after_record. cbn.
    apply num_add_nonneg; [apply (Hinv _ _ Ha0) | exact Hamt].
  - apply persistent_balance_invariant_after_record. cbn.
    apply num_sub_nonneg, Hgt.
Qed.

(** X19.  The operations of the persistent ledger keep the balance in step
    with the log: if, before a sequence of operations, the balance of every
    account is the [balance_after] of its last record (zero without
    records) and is not negative, then so it is after it, whichever of the
    operations raised. *)
Theorem persistent_balance_matches_last_record ops self fs :
  (forall ref a,
      accounts self !! ref = Some a ->
      balance a = last_balance_after (transactions a)
      /\ (0 <=? balance a) = true) ->
  forall ref a,
    accounts (fst (run_all ops (self, fs))) !! ref = Some a ->
    balance a = last_balance_after (transactions a)
    /\ (0 <=? balance a) = true.
Proof.
  revert self fs. induction ops as [| op ops IH]; intros self fs Hinv;
    [exact Hinv |].
  cbn. destruct (run op (self, fs)) as [self1 fs1] eqn:Hrun.
  apply IH. pose proof (run_keeps_balance_invariant op self fs Hinv) as Hkeep.
  rewrite Hrun in Hkeep. exact Hkeep.
Qed.

End PersistentBalance.

Lemma persistent_balance_matches_last_record_witness :
  PersistentBank.balance PersistentBank.demo_alice
  = PersistentBank.last_balance_after
      (PersistentBank.transactions PersistentBank.demo_alice)
  /\ (0 <=? PersistentBank.balance PersistentBank.demo_alice)%amt = true.
Proof.
  exact (persistent_balance_matches_last_record (A := Z)
           [PersistentBank.CreateAccount "Alice" 1000
              "2026-01-01T09:00:00" "2026-01-01T09:00:01";
            PersistentBank.CreateAccount "Bob" 500
              "2026-01-01T09:01:00" "2026-01-01T09:01:01";
            PersistentBank.Deposit "ACC-000001" 250 (Some "Bonus"%string)
              "2026-01-01T09:02:00";
            PersistentBank.Withdraw "ACC-000001" 100
              (Some "Groceries"%string) "2026-01-01T09:03:00"]
           {| PersistentBank.accounts := ∅;
              PersistentBank.data_file := "accounts.json";
              PersistentBank._account_counter := 0 |}
           ∅
           ltac:(intros ref a Ha; cbn in Ha; rewrite lookup_empty in Ha;
                 discriminate)
           "ACC-000001" PersistentBank.demo_alice
           ltac:(vm_compute; reflexivity)).
Defined.

(** ** [persistent_bank.py]: a withdrawal the balance does not cover *)

Section PersistentWithdrawal.
Import PersistentBank.
Context {A : Type} `{ExactAmount A}.
Local Open Scope amount_scope.

(** X7.  Through the persistent ledger, a withdrawal of more than an
    account holds, its balance not being negative, raises
    [InsufficientFundsError] with the balance and the amount (this variant
    carries no shortfall), and neither the ledger nor any file changes: the
    snapshot is not rewritten. *)
Theorem persistent_withdraw_insufficient_funds (self : AccountManager A)
    (fs : gmap string (file A)) (account_id : string) (a : BankAccount A)
    (amount : A) (description : option string) (now : string) :
  accounts self !! account_id = Some a ->
  (0 <=? balance a) = true ->
  (amount >? balance a) = true ->
  manager_withdraw account_id amount description now (self, fs)
  = (inl (InsufficientFundsError (balance a) amount), (self, fs)).
Proof.
  intros Ha Hbal Hgt. rewrite (manager_withdraw_found _ _ _ _ _ _ _ Ha).
  rewrite (num_exceeds_positive _ _ Hbal Hgt), Hgt. reflexivity.
Qed.

End PersistentWithdrawal.

Lemma persistent_withdraw_insufficient_funds_witness :
  PersistentBank.manager_withdraw "ACC-000001" 10000 None
    "2026-01-01T09:04:00" PersistentBank.demo_world
  = (inl (PersistentBank.InsufficientFundsError 1150 10000),
     PersistentBank.demo_world).
Proof.
  exact (persistent_withdraw_insufficient_funds
           (fst PersistentBank.demo_world) (snd PersistentBank.demo_world)
           "ACC-000001" PersistentBank.demo_alice 10000 None
           "2026-01-01T09:04:00"
           ltac:(vm_compute; reflexivity) eq_refl eq_refl).
Defined.
